(** * UncertaintyCalc: curve fitting and decision risk

    A shallow embedding of the parts of [psluncert/curvefit.py] and
    [suncal/risk.py] that the specification's properties are about, and the
    proofs of those properties.

    The Python code computes with numbers without fixing their type: the same
    text runs on Python integers, binary64 floats and numpy scalars.  The
    embedding keeps that: every function is written once over an interface of
    number operations ([PyNum]), which is then instantiated twice,
    - at [R], the real numbers: what the formulas mean in exact arithmetic;
    - at [float], Rocq's binary64 numbers: what the interpreter computes.
    numpy arrays are lists, Python exceptions are the [Raise] case of
    [result], and random draws are read from an explicit source. *)

From Stdlib Require Import PrimFloat.
From Stdlib Require Import ZArith List Bool Lia.
From Stdlib Require Import Reals Lra Psatz.
From stdpp Require Import base strings gmap pretty.

Import ListNotations.

Set Warnings "-register-all,-inexact-float".


(** ** Exceptions *)

(** The exception classes the modelled code raises or lets escape. *)
Inductive exn : Type :=
| ValueError
| TypeError
| AttributeError
| IndexError
| KeyError
| UnicodeDecodeError
| YamlScannerError
| YamlParserError
| YamlReaderError
| YamlComposerError
| YamlConstructorError
| OSError
| AssertionError
| RuntimeError
| ZeroDivisionError.

Inductive result (T : Type) : Type :=
| Ok (v : T)
| Raise (e : exn).
Arguments Ok {T} v.
Arguments Raise {T} e.

Definition bind {T U : Type} (r : result T) (k : T -> result U) : result U :=
  match r with
  | Ok v => k v
  | Raise e => Raise e
  end.

Notation "'let*' x ':=' r 'in' k" := (bind r (fun x => k))
  (at level 10, x pattern, r at level 100, k at level 200).

(** ** Numbers *)

(** The operations the code applies to a number.  Division is the number
    type's own total division; comparisons are boolean, as in Python.
    Where Python itself raises on a zero divisor (a quotient of Python
    numbers), the definitions raise [ZeroDivisionError].  A numpy
    quotient by zero, or a root of a negative number, raises nothing
    and gives an infinity or not-a-number, which binary64 has and the
    real numbers have not: the properties stated over the real numbers
    carry hypotheses that keep the operations they depend on away from
    these cases. *)
Class PyNum (A : Type) : Type := {
  num_of_Z : Z -> A;
  nadd : A -> A -> A;
  nsub : A -> A -> A;
  nmul : A -> A -> A;
  ndiv : A -> A -> A;
  nneg : A -> A;
  nsqrt : A -> A;
  nabs : A -> A;
  nltb : A -> A -> bool;
  nleb : A -> A -> bool;
  neqb : A -> A -> bool
}.

Declare Scope num_scope.
Delimit Scope num_scope with num.
Infix "+" := nadd : num_scope.
Infix "-" := nsub : num_scope.
Infix "*" := nmul : num_scope.
Infix "/" := ndiv : num_scope.
Notation "- x" := (nneg x) : num_scope.
Infix "<?" := nltb : num_scope.
Infix "<=?" := nleb : num_scope.
Notation "x >? y" := (nltb y x) : num_scope.
Notation "x >=? y" := (nleb y x) : num_scope.
Infix "==?" := neqb (at level 70) : num_scope.

Section NumberHelpers.
Context {A : Type} `{PyNum A}.
Local Open Scope num_scope.

(** An integer literal. *)
Definition lit (z : Z) : A := num_of_Z z.

(** A decimal literal [n/d], e.g. [1.25] is [frac 125 100]. *)
Definition frac (n d : Z) : A := num_of_Z n / num_of_Z d.

(** [x**2] *)
Definition sq (x : A) : A := x * x.

(** A number is true in a condition when it is not equal to zero. *)
Definition truthy (x : A) : bool := negb (x ==? lit 0).

(** Python's [min(a, b)] and [max(a, b)] return the first argument
    unless the second is strictly better. *)
Definition py_min (a b : A) : A := if b <? a then b else a.
Definition py_max (a b : A) : A := if b >? a then b else a.

(** The builtin [sum] of an array: a left fold starting from [0]. *)
Definition py_sum (l : list A) : A := fold_left nadd l (lit 0).

(** [len(x)] as a number. *)
Definition len (l : list A) : A := num_of_Z (Z.of_nat (length l)).

(** Elementwise array operation; numpy refuses arrays of different
    lengths, the model stops at the shorter one. *)
Fixpoint map2 (f : A -> A -> A) (l1 l2 : list A) : list A :=
  match l1, l2 with
  | a :: l1', b :: l2' => f a b :: map2 f l1' l2'
  | _, _ => []
  end.
End NumberHelpers.

(** *** Exact arithmetic *)

Definition Rltb (a b : R) : bool := if Rlt_dec a b then true else false.
Definition Rleb (a b : R) : bool := if Rle_dec a b then true else false.
Definition Reqb (a b : R) : bool := if Req_dec_T a b then true else false.

#[export] Instance R_PyNum : PyNum R := {|
  num_of_Z := IZR;
  nadd := Rplus;
  nsub := Rminus;
  nmul := Rmult;
  ndiv := Rdiv;
  nneg := Ropp;
  nsqrt := sqrt;
  nabs := Rabs;
  nltb := Rltb;
  nleb := Rleb;
  neqb := Reqb
|}.

(** *** Binary64 arithmetic *)

(** A positive integer as a float; exact below [2^53]. *)
Fixpoint float_of_pos (p : positive) : float :=
  match p with
  | xH => 1%float
  | xO q => (2 * float_of_pos q)%float
  | xI q => (2 * float_of_pos q + 1)%float
  end.

Definition float_of_Z (z : Z) : float :=
  match z with
  | Z0 => 0%float
  | Zpos p => float_of_pos p
  | Zneg p => (- float_of_pos p)%float
  end.

#[export] Instance float_PyNum : PyNum float := {|
  num_of_Z := float_of_Z;
  nadd := PrimFloat.add;
  nsub := PrimFloat.sub;
  nmul := PrimFloat.mul;
  ndiv := PrimFloat.div;
  nneg := PrimFloat.opp;
  nsqrt := PrimFloat.sqrt;
  nabs := PrimFloat.abs;
  nltb := PrimFloat.ltb;
  nleb := PrimFloat.leb;
  neqb := PrimFloat.eqb
|}.

(** ** Configuration files (shared by [Risk] and [CurveFit]) *)

Module configfile.

(** What [yaml.safe_load] builds. *)
Inductive yaml : Type :=
| YNone
| YBool (b : bool)
| YInt (z : Z)
| YFloat (digits : string)
| YStr (s : string)
| YSeq (items : list yaml)
| YMap (entries : list (string * yaml)).

(** The argument [fname]: an open file object, given by what its
    [read()] does, or a path. *)
Inductive file_arg : Type :=
| FileObj (read : result string)
| FilePath (path : string).

(** [config[0]] *)
Definition getitem0 (config : yaml) : result yaml :=
  match config with
  | YSeq (c :: _) => Ok c
  | YSeq [] => Raise IndexError
  | YStr (String c _) => Ok (YStr (String c EmptyString))
  | YStr EmptyString => Raise IndexError
  | YMap _ => Raise KeyError
  | YNone | YBool _ | YInt _ | YFloat _ => Raise TypeError
  end.

Section Loader.
(** [open(fname, 'r').read()], the YAML library and the class method
    [cls.from_config] are supplied by the caller's environment. *)
Context {T : Type}.
Variable open_read : string -> result string.
Variable safe_load : string -> result yaml.
Variable from_config : yaml -> result T.

(** The inner [try]: [fname.read()], and on [AttributeError] the file
    is opened by name. *)
Definition read_text (fname : file_arg) : result string :=
  let first :=
    match fname with
    | FileObj read => read
    | FilePath _ => Raise AttributeError
    end in
  match first with
  | Raise AttributeError =>
      match fname with
      | FilePath path => open_read path
      | FileObj _ => Raise TypeError
      end
  | r => r
  end.

(** [from_configfile(cls, fname)]; [None] is [Ok None]. *)
Definition from_configfile (fname : file_arg) : result (option T) :=
  match read_text fname with
  | Raise UnicodeDecodeError => Ok None
  | Raise e => Raise e
  | Ok yml =>
      match safe_load yml with
      | Raise YamlScannerError => Ok None
      | Raise e => Raise e
      | Ok config =>
          let* c0 := getitem0 config in
          let* u := from_config c0 in
          Ok (Some u)
      end
  end.
End Loader.

(** *** An example environment *)

(** A directory with one text file, [broken.yaml], holding a flow
    sequence that is never closed. *)
Definition sample_open_read (path : string) : result string :=
  if String.eqb path "broken.yaml" then Ok "[1, 2" else Raise OSError.

(** The YAML library on the texts of the example: the scanner accepts
    every token of the unclosed sequence and the parser, reaching the
    end of the stream where it expects a comma or the closing bracket,
    raises [yaml.parser.ParserError], which is not a [ScannerError]. *)
Definition sample_safe_load (text : string) : result yaml :=
  if String.eqb text "[1, 2" then Raise YamlParserError
  else if String.eqb text "[1, 2]" then Ok (YSeq [YInt 1; YInt 2])
  else if String.eqb text "" then Ok YNone
  else Raise YamlScannerError.

End configfile.

(** ** [suncal/risk.py] *)

Module risk.

Section Defs.
Context {A : Type} `{PyNum A}.
Local Open Scope num_scope.

(** A frozen [scipy.stats] distribution, by the methods the code calls. *)
Record rv_frozen : Type := {
  dist_name : string;
  dist_loc : A;
  median : A;
  mean : A;
  std : A;
  cdf : A -> A
}.

(** Library functions: [np.exp], [np.log], the closed-form [PFA_norm]
    (a double quadrature) and [scipy.optimize.fsolve]. *)
Variable np_exp np_log : A -> A.
Variable PFA_norm : A -> A -> A -> A.
Variable fsolve : (A -> A) -> A -> A.

(** [1/d] for the Python numbers [1] and [d]: a zero divisor raises. *)
Definition py_inverse (d : A) : result A :=
  if d ==? lit 0 then Raise ZeroDivisionError else Ok (lit 1 / d).

(** [guardband_norm(method, TUR, **kwargs)], for [TUR] a Python [float]
    as documented: [1/TUR] and [1/TUR**2] raise [ZeroDivisionError] on
    a zero divisor.  In ['dobbert'] the dividend is a numpy number,
    whose division does not raise.  (Were [TUR] a numpy number, the two
    quotients would be infinite instead.) *)
Definition guardband_norm (method : string) (TUR : A)
    (kwargs : gmap string A) : result A :=
  if String.eqb method "dobbert" then
    let M := frac 104 100 - np_exp (frac 38 100 * np_log TUR - frac 54 100) in
    Ok (lit 1 - M / TUR)
  else if String.eqb method "rss" then
    let* q := py_inverse (sq TUR) in
    Ok (nsqrt (lit 1 - q))
  else if String.eqb method "test" then
    if TUR <=? lit 4 then
      let* q := py_inverse TUR in Ok (lit 1 - q)
    else Ok (lit 1)
  else if String.eqb method "rp10" then
    if TUR <=? lit 4 then
      let* q := py_inverse TUR in Ok (frac 125 100 - q)
    else Ok (lit 1)
  else if String.eqb method "pfa" || String.eqb method "4:1" then
    let itp := default (frac 95 100) (kwargs !! "itp") in
    let pfa_target :=
      if String.eqb method "pfa"
      then default (frac 8 1000) (kwargs !! "pfa")
      else PFA_norm itp (lit 4) (lit 1) in
    Ok (fsolve (fun x => PFA_norm itp TUR x - pfa_target) (frac 8 10))
  else Raise ValueError.

(** The two masks of [PFAR_MC], for one pair of samples. *)
Definition FA_mask (LL UL GBL GBU p t : A) : bool :=
  ((p >? UL) && (t <? UL - GBU)) || ((p <? LL) && (t >? LL + GBL)).
Definition FR_mask (LL UL GBL GBU p t : A) : bool :=
  ((p <? UL) && (t >? UL - GBU)) || ((p >? LL) && (t <? LL + GBL)).

(** [np.count_nonzero] of a mask over the paired sample arrays. *)
Definition count_nonzero (mask : A -> A -> bool)
    (ps ts : list A) : nat :=
  length (filter (fun pt => mask (fst pt) (snd pt)) (combine ps ts)).

(** [PFAR_MC(dist_proc, dist_test, LL, UL, GBL, GBU, N, retsamples=True)].
    [proc_rvs N] is [dist_proc.rvs(size=N)]; [test_rvs locs] is
    [dist_test.dist.rvs(loc=locs, **kwds)], one draw per location. *)
Definition PFAR_MC (proc_rvs : nat -> list A)
    (test_rvs : list A -> list A) (dist_test : rv_frozen)
    (LL UL GBL GBU : A) (N : nat) : A * A * list A * list A :=
  let proc_samples := proc_rvs N in
  let median := median dist_test in
  let locorig := dist_loc dist_test in
  let test_samples :=
    test_rvs (map (fun p => p - (median - locorig)) proc_samples) in
  let FA := num_of_Z (Z.of_nat
              (count_nonzero (FA_mask LL UL GBL GBU) proc_samples test_samples))
            / num_of_Z (Z.of_nat N) in
  let FR := num_of_Z (Z.of_nat
              (count_nonzero (FR_mask LL UL GBL GBU) proc_samples test_samples))
            / num_of_Z (Z.of_nat N) in
  (FA, FR, proc_samples, test_samples).

(** The state of a [Risk] object. *)
Record Risk : Type := {
  name : string;
  description : string;
  procdist : option rv_frozen;
  testdist : option rv_frozen;
  speclimits : A * A;
  guardband : A * A
}.

Definition set_speclimits (self : Risk) (LL UL : A) : Risk :=
  {| name := name self; description := description self;
     procdist := procdist self; testdist := testdist self;
     speclimits := (LL, UL); guardband := guardband self |}.

Definition set_guardband (self : Risk) (GBL GBU : A) : Risk :=
  {| name := name self; description := description self;
     procdist := procdist self; testdist := testdist self;
     speclimits := speclimits self; guardband := (GBL, GBU) |}.

Definition set_gbf (self : Risk) (gbf : A) : Risk :=
  let rng := (snd (speclimits self) - fst (speclimits self)) / lit 2 in
  let gb := rng * (lit 1 - gbf) in
  set_guardband self gb gb.

Definition get_gbf (self : Risk) : A :=
  let gb := snd (guardband self)
            - (snd (guardband self) - fst (guardband self)) / lit 2 in
  let rng := (snd (speclimits self) - fst (speclimits self)) / lit 2 in
  lit 1 - gb / rng.

(** [test_risk()]: the pair [(PFx, accept)].  [self.testdist] may be
    [None], on which [.median()] raises. *)
Definition test_risk (self : Risk) : result (A * bool) :=
  match testdist self with
  | None => Raise AttributeError
  | Some testdist =>
      let med := median testdist in
      let '(LL, UL) := speclimits self in
      let '(LL, UL) := (py_min LL UL, py_max LL UL) in
      let accept := (med >=? LL + fst (guardband self))
                    && (med <=? UL - fst (guardband self)) in
      let PFx :=
        if (med >=? LL + fst (guardband self))
           && (med <=? UL - fst (guardband self))
        then cdf testdist LL + (lit 1 - cdf testdist UL)
        else nabs (cdf testdist LL - cdf testdist UL) in
      Ok (PFx, accept)
  end.
End Defs.

(** *** Examples of the data *)

(** A distribution spread evenly over [[lo, lo + w]]. *)
Definition uniform_dist {A : Type} `{PyNum A} (lo w : A) : rv_frozen :=
  {| dist_name := "uniform";
     dist_loc := lo;
     median := (lo + w / lit 2)%num;
     mean := (lo + w / lit 2)%num;
     std := (w / nsqrt (lit 12))%num;
     cdf := fun x =>
       if (x <? lo)%num then lit 0
       else if (x >? lo + w)%num then lit 1
       else ((x - lo) / w)%num |}.

(** [Risk()] as the constructor leaves it, but for the two distributions. *)
Definition default_risk {A : Type} `{PyNum A}
    (procdist testdist : option rv_frozen) : Risk :=
  {| name := "risk"; description := "";
     procdist := procdist; testdist := testdist;
     speclimits := ((- lit 1)%num, lit 1);
     guardband := (lit 0, lit 0) |}.

End risk.

(** ** [psluncert/curvefit.py]: the line fit *)

Module curvefit.

Section LineFit.
Context {A : Type} `{PyNum A}.
Local Open Scope num_scope.

(** [all(sig)]: every element is true, i.e. not equal to zero. *)
Definition py_all (sig : list A) : bool := forallb truthy sig.

(** [b > 0] for a Boolean [b], which Python compares as [1] or [0]. *)
Definition bool_gt_0 (b : bool) : bool := (0 <? Z.b2z b)%Z.

(** [sig = np.atleast_1d(sig)], then a single value is repeated for
    every point. *)
Definition broadcast_sig (x sig : list A) : list A :=
  match sig with
  | [s] => repeat s (length x)
  | _ => sig
  end.

(** An elementwise operation on two one-dimensional arrays as numpy
    has it: arrays of one length, or one of them with a single element,
    which is repeated; any other pair of shapes is a [ValueError]. *)
Definition np_map2 (f : A -> A -> A) (l1 l2 : list A) : result (list A) :=
  if Nat.eqb (length l1) (length l2) then Ok (map2 f l1 l2)
  else match l1, l2 with
       | [a], _ => Ok (map (f a) l2)
       | _, [b] => Ok (map (fun v => f v b) l1)
       | _, _ => Raise ValueError
       end.

(** [sum(u) / sum(v)] for the builtin [sum], which is the Python integer
    [0] on an empty array: [0/0] of two integers raises.  In every
    other case an operand is a numpy number, whose division does not
    raise. *)
Definition div_sums (u v : list A) : result A :=
  match u, v with
  | [], [] => Raise ZeroDivisionError
  | _, _ => Ok (py_sum u / py_sum v)
  end.

(** [sum(u) / n] for a Python integer [n]: the integer [0] of an empty
    array divided by the integer [0] raises. *)
Definition div_sum_int (u : list A) (n : Z) : result A :=
  match u with
  | [] => if (n =? 0)%Z then Raise ZeroDivisionError
          else Ok (py_sum u / num_of_Z n)
  | _ => Ok (py_sum u / num_of_Z n)
  end.

(** [linefit(x, y, sig, absolute_sigma)]: the coefficients
    [[slope, intercept]] and the 2x2 covariance matrix.  The three
    divisions whose divisor is an element of [sig] are made by
    [div_sig], which is the division of the number type in [linefit]
    below.  Past [sxoss] and [b] no scalar division can raise: [ss] and
    [st2] are then numpy numbers or a length that is not zero. *)
Definition linefit_by (div_sig : A -> A -> A) (x y sig : list A)
    (absolute_sigma : bool) : result (list A * list (list A)) :=
  let sig := broadcast_sig x sig in
  let* (ss, sx, sy, sxoss, st2, b) :=
    if bool_gt_0 (py_all sig) then
      let wt := map (fun s => lit 1 / sq s) sig in
      let ss := py_sum wt in
      let* xw := np_map2 nmul x wt in
      let sx := py_sum xw in
      let* yw := np_map2 nmul y wt in
      let sy := py_sum yw in
      let* sxoss := div_sums xw wt in
      let* t := np_map2 div_sig (map (fun xi => xi - sxoss) x) sig in
      let tt := map2 nmul t t in
      let st2 := py_sum tt in
      let* ty := np_map2 nmul t y in
      let* tys := np_map2 div_sig ty sig in
      let* b := div_sums tys tt in
      Ok (ss, sx, sy, sxoss, st2, b)
    else
      let sx := py_sum x in
      let sy := py_sum y in
      let ss := len x in
      let* sxoss := match x with
                    | [] => Raise ZeroDivisionError
                    | _ => Ok (sx / ss)
                    end in
      let t := map (fun xi => xi - sxoss) x in
      let tt := map2 nmul t t in
      let st2 := py_sum tt in
      let* ty := np_map2 nmul t y in
      let* b := div_sums ty tt in
      Ok (ss, sx, sy, sxoss, st2, b) in
  let a := (sy - sx * b) / ss in
  let siga := nsqrt ((lit 1 + sx * sx / (ss * st2)) / ss) in
  let sigb := nsqrt (lit 1 / st2) in
  let* r2 := np_map2 (fun yi xi => sq (yi - a - b * xi)) y x in
  let* var := div_sum_int r2 (Z.of_nat (length x) - 2) in
  let syx := nsqrt var in
  let cov := - sxoss * sq sigb in
  let* (siga, sigb, cov) :=
    if negb (bool_gt_0 (py_all sig)) then
      Ok (siga * syx, sigb * syx, cov * syx * syx)
    else if negb absolute_sigma then
      let* r := np_map2 (fun yi xi => yi - a - b * xi) y x in
      let* rs2 := np_map2 (fun ri si => sq (div_sig ri si)) r sig in
      let* chi2 := div_sum_int rs2 (Z.of_nat (length x) - 2) in
      Ok (nsqrt (sq siga * chi2), nsqrt (sq sigb * chi2), cov * chi2)
    else Ok (siga, sigb, cov) in
  Ok ([b; a], [[sq sigb; cov]; [cov; sq siga]]).

Definition linefit (x y sig : list A) (absolute_sigma : bool)
    : result (list A * list (list A)) :=
  linefit_by ndiv x y sig absolute_sigma.

End LineFit.

(** *** Libraries *)

(** The state of numpy's global random generator. *)
Record rng_api (A G : Type) : Type := {
  rng_seed : Z -> G;
  rng_normal : G -> A -> A * G;
  rng_uniform : G -> A * G
}.
Arguments rng_seed {A G}.
Arguments rng_normal {A G}.
Arguments rng_uniform {A G}.

(** What the code calls in numpy, scipy, sympy and the sibling modules
    [uarray] and [uparser], none of which is part of the sources. *)
Record libs (A : Type) : Type := {
  np_exp : A -> A;
  np_log : A -> A;
  np_isfinite : A -> bool;
  np_argsort : list A -> list nat;
  np_percentile : list A -> A -> A;
  (* [np.cov(m.T)] and [np.corrcoef(m.T)] of a matrix of sample rows *)
  np_cov : list (list A) -> list (list A);
  np_corrcoef : list (list A) -> list (list A);
  (* [scipy.optimize.approx_fprime(xk, f, epsilon)] *)
  approx_fprime : list A -> (list A -> result A) -> list A ->
                  result (list A);
  (* [scipy.interpolate.interp1d(x, y, fill_value='extrapolate')(x0)] *)
  interp1d : list A -> list A -> A -> result A;
  (* [scipy.optimize.curve_fit(func, x, y, sigma, absolute_sigma, p0, bounds)] *)
  curve_fit : (A -> list A -> result A) -> list A -> list A ->
              option (list A) ->
              bool -> option (list A) -> option (list A * list A) ->
              result (list A * list (list A));
  (* [odr.ODR(odr.RealData(x, y, sx, sy), odr.Model(f), beta0).run()]:
     [beta], [cov_beta], [res_var] and [info] *)
  odr_run : (list A -> A -> result A) -> list A -> list A ->
            option (list A) -> option (list A) -> option (list A) ->
            result (list A * list (list A) * A * Z);
  (* [uarray._GUM(fit, x, y, ux, uy)]: coefficients, covariance, gradient *)
  uarray_GUM : (list A -> list A -> result (list A)) -> list A -> list A ->
               list A -> list A ->
               result (list A * list (list A) * list (list A));
  (* [uparser.check_expr] and sympy, behind [CurveFit.check_expr]:
     the function of an expression and its parameter names, sorted *)
  sympy_lambdify : string ->
                   result ((A -> list A -> result A) * list string);
  (* the builtin [int] *)
  py_int : A -> Z
}.
Arguments np_exp {A}.
Arguments np_log {A}.
Arguments np_isfinite {A}.
Arguments np_argsort {A}.
Arguments np_percentile {A}.
Arguments np_cov {A}.
Arguments np_corrcoef {A}.
Arguments approx_fprime {A}.
Arguments interp1d {A}.
Arguments curve_fit {A}.
Arguments odr_run {A}.
Arguments uarray_GUM {A}.
Arguments sympy_lambdify {A}.
Arguments py_int {A}.

(** *** Arrays and matrices *)

Section Arrays.
Context {A : Type} `{PyNum A}.
Local Open Scope num_scope.

(** A matrix and a vector, row by row. *)
Fixpoint map2_rows (f : list A -> A -> list A) (m : list (list A))
    (v : list A) : list (list A) :=
  match m, v with
  | row :: m', a :: v' => f row a :: map2_rows f m' v'
  | _, _ => []
  end.

(** [np.diag(cov)] *)
Definition diag (m : list (list A)) : list A :=
  map (fun i => nth i (nth i m []) (lit 0)) (seq 0 (length m)).

(** [u @ v] for two vectors *)
Definition dot (u v : list A) : A := py_sum (map2 nmul u v).

(** [u.T @ m] for a vector and a matrix given by its rows *)
Definition vecmat (u : list A) (m : list (list A)) : list A :=
  map (fun j => dot u (map (fun row => nth j row (lit 0)) m))
      (seq 0 (length (hd [] m))).

(** [m.mean(axis=0)] and [m.std(axis=0, ddof=1)] of a matrix with [k]
    columns, given by its rows. *)
Definition np_mean (l : list A) : A := py_sum l / len l.
Definition column (j : nat) (m : list (list A)) : list A :=
  map (fun row => nth j row (lit 0)) m.
Definition mean_axis0 (k : nat) (m : list (list A)) : list A :=
  map (fun j => np_mean (column j m)) (seq 0 k).
Definition np_std_ddof1 (l : list A) : A :=
  let mu := np_mean l in
  nsqrt (py_sum (map (fun v => sq (nabs (v - mu))) l)
         / num_of_Z (Z.of_nat (length l) - 1)).
Definition std_axis0 (k : nat) (m : list (list A)) : list A :=
  map (fun j => np_std_ddof1 (column j m)) (seq 0 k).

(** [l.var(ddof=1)] and [np.std(l)] *)
Definition np_var_ddof1 (l : list A) : A :=
  let mu := np_mean l in
  py_sum (map (fun v => sq (nabs (v - mu))) l)
  / num_of_Z (Z.of_nat (length l) - 1).
Definition np_std (l : list A) : A :=
  let mu := np_mean l in
  nsqrt (np_mean (map (fun v => sq (nabs (v - mu))) l)).

(** [cov / sigmas[:, None] / sigmas[None, :]] *)
Definition correlation (cov : list (list A)) (sigmas : list A)
    : list (list A) :=
  map2_rows (fun row si => map2 (fun c sj => c / si / sj) row sigmas)
            cov sigmas.

(** [np.min] and [np.max] of a non-empty array *)
Definition np_min (l : list A) : A :=
  fold_left (fun acc v => if v <? acc then v else acc) (tl l) (hd (lit 0) l).
Definition np_max (l : list A) : A :=
  fold_left (fun acc v => if v >? acc then v else acc) (tl l) (hd (lit 0) l).

(** [row[:] = v] for a row of [k] entries: [v] must have [k] entries,
    or one, which is repeated. *)
Definition assign_row (k : nat) (v : list A) : result (list A) :=
  if Nat.eqb (length v) k then Ok v
  else match v with
       | [a] => Ok (repeat a k)
       | _ => Raise ValueError
       end.

(** [m[k:]] for an integer [k] of either sign. *)
Definition slice_from {T : Type} (k : Z) (m : list T) : list T :=
  if (0 <=? k)%Z then skipn (Z.to_nat k) m
  else skipn (length m - Z.to_nat (- k)) m.

(** [a[i] = v] and [a[i]] inside the bounds of [a]. *)
Definition set_nth (i : nat) (v : A) (a : list A) : list A :=
  firstn i a ++ v :: skipn (S i) a.
End Arrays.

(** *** Loops that may raise *)

Section Loops.
Context {T U : Type}.

(** A list comprehension or a [for] loop collecting one value per item;
    the first exception ends it. *)
Fixpoint map_result (f : T -> result U) (l : list T) : result (list U) :=
  match l with
  | [] => Ok []
  | a :: l' =>
      let* b := f a in
      let* bs := map_result f l' in
      Ok (b :: bs)
  end.

(** A [for] loop updating a state. *)
Fixpoint fold_result (f : U -> T -> result U) (l : list T) (s : U)
    : result U :=
  match l with
  | [] => Ok s
  | a :: l' => let* s' := f s a in fold_result f l' s'
  end.

Definition nth_or (l : list T) (i : nat) (e : exn) : result T :=
  match nth_error l i with
  | Some a => Ok a
  | None => Raise e
  end.
End Loops.

(** *** Output records *)

Section Outputs.
Context {A : Type} `{PyNum A}.
Local Open Scope num_scope.

(** The uncertainty of the measured y values handed to the band
    functions: one number or one per point. *)
Inductive sig_y : Type :=
| SigScalar (s : A)
| SigArray (l : list A).

(** What the entries of an output record hold. *)
Inductive Value : Type :=
| VNone
| VBool (b : bool)
| VInt (z : Z)
| VNum (a : A)
| VStr (s : string)
| VNames (l : list string)
| VArr (l : list A)
| VMat (m : list (list A))
| VData (x y ux uy : list A)
| VFun (f : A -> result A)
| VBand (f : A -> string -> result A)
| VFitFunc (f : A -> list A -> result A)
| VSampleFun (f : A -> nat -> result A).

(** Modelled from the spec: the output records of [out_curvefit] and
    [out_uncert], whose classes are not part of the sources.  A record is
    built from a method name and keyword arguments; [mean] and [uncert]
    are kept apart and the other keywords form the [properties] bag that
    [CurveFitParam] forwards.  A record of a fit also has the y-value
    function of the fit.  Reading an attribute finds [mean], [uncert],
    a function of the record or an entry of the bag; any other name is
    an [AttributeError]. *)
Record Output : Type := {
  method : string;
  out_mean : Value;
  out_uncert : Value;
  functions : gmap string Value;
  properties : gmap string Value
}.

Definition getattr (o : Output) (attr : string) : result Value :=
  if String.eqb attr "mean" then Ok (out_mean o)
  else if String.eqb attr "uncert" then Ok (out_uncert o)
  else match functions o !! attr with
       | Some v => Ok v
       | None =>
           match properties o !! attr with
           | Some v => Ok v
           | None => Raise AttributeError
           end
       end.

(** [f(x)] for an attribute [f]; a band function takes its default
    [mode='Syx']. *)
Definition call (f : Value) (x : A) : result Value :=
  match f with
  | VFun g => let* r := g x in Ok (VNum r)
  | VBand g => let* r := g x "Syx" in Ok (VNum r)
  | _ => Raise TypeError
  end.

(** [v[i]] *)
Definition index (v : Value) (i : nat) : result Value :=
  match v with
  | VArr l => match nth_error l i with
              | Some a => Ok (VNum a)
              | None => Raise IndexError
              end
  | VNum _ => Raise IndexError
  | _ => Raise TypeError
  end.

(** [out_uncert.create_output(method, mean=..., uncert=..., **kwargs)] *)
Definition create_output (method : string) (mean uncert : Value)
    (kwargs : gmap string Value) : Output :=
  {| method := method; out_mean := mean; out_uncert := uncert;
     functions := ∅; properties := kwargs |}.

(** [out_curvefit.create_output_curvefit(method, **params)] *)
Definition create_output_curvefit (method : string)
    (params : list (string * Value)) : result Output :=
  let params : gmap string Value := list_to_map params in
  match params !! "mean", params !! "uncert" with
  | Some mean, Some uncert =>
      let y : gmap string Value :=
        match params !! "func", params !! "coeffs" with
        | Some (VFitFunc f), Some (VArr coeffs) =>
            {[ "y" := VFun (fun x => f x coeffs) ]}
        | _, _ => ∅
        end in
      Ok {| method := method; out_mean := mean; out_uncert := uncert;
            functions := y;
            properties := delete "mean" (delete "uncert" params) |}
  | _, _ => Raise KeyError
  end.
End Outputs.
Arguments sig_y : clear implicits.
Arguments Value : clear implicits.
Arguments Output : clear implicits.

(** *** Fit functions and the choice of a solver *)

Section FitFunctions.
Context {A : Type} `{PyNum A}.
Variable L : libs A.
Local Open Scope num_scope.

(** A fit function [func(x, *params)] at one [x]; the wrong number of
    parameters is a [TypeError]. *)
Definition fitfn : Type := A -> list A -> result A.

(** [func(x, *coeff)] for an array [x]. *)
Fixpoint eval_func (f : fitfn) (xs coeff : list A) : result (list A) :=
  match xs with
  | [] => Ok []
  | xi :: xs' =>
      let* v := f xi coeff in
      let* vs := eval_func f xs' coeff in
      Ok (v :: vs)
  end.

Definition func_line : fitfn := fun x p =>
  match p with [b; a] => Ok (a + b * x) | _ => Raise TypeError end.
Definition func_exp : fitfn := fun x p =>
  match p with
  | [a; b; c] => Ok (c + a * np_exp L (x / b))
  | _ => Raise TypeError
  end.
Definition func_decay : fitfn := fun x p =>
  match p with
  | [a; b] => Ok (a * np_exp L (- x / b))
  | _ => Raise TypeError
  end.
Definition func_decay2 : fitfn := fun x p =>
  match p with
  | [a; b] => Ok (a * np_exp L (- x * b))
  | _ => Raise TypeError
  end.
Definition func_log : fitfn := fun x p =>
  match p with
  | [a; b; c] => Ok (a + b * np_log L (x - c))
  | _ => Raise TypeError
  end.
Definition func_logistic : fitfn := fun x p =>
  match p with
  | [a; b; c; d] => Ok (d + a / (lit 1 + np_exp L ((x - c) / b)))
  | _ => Raise TypeError
  end.
Definition func_quad : fitfn := fun x p =>
  match p with
  | [a; b; c] => Ok (a + b * x + c * x * x)
  | _ => Raise TypeError
  end.
Definition func_cubic : fitfn := fun x p =>
  match p with
  | [a; b; c; d] => Ok (a + b * x + c * x * x + d * x * x * x)
  | _ => Raise TypeError
  end.
(** [np.poly1d(p)(x)], for any number of coefficients *)
Definition func_poly : fitfn := fun x p =>
  Ok (fold_left (fun acc c => acc * x + c) p (lit 0)).

(** [all(u == 0)] *)
Definition all_zero (u : list A) : bool := forallb (fun v => v ==? lit 0) u.

(** York's fit for uncertainty in both coordinates, an iteration that
    runs until the slope settles. *)
Variable linefitYork :
  list A -> list A -> option (list A) -> option (list A) -> bool ->
  result (list A * list (list A)).

(** [odrfit(func, x, y, ux, uy, p0, absolute_sigma)] *)
Definition odrfit (func : fitfn) (x y : list A) (ux uy : option (list A))
    (p0 : option (list A)) (absolute_sigma : bool)
    : result (list A * list (list A)) :=
  let odrfunc := fun (B : list A) (x : A) => func x B in
  let ux := match ux with
            | Some u => if all_zero u then None else Some u
            | None => None
            end in
  let uy := match uy with
            | Some u => if all_zero u then None else Some u
            | None => None
            end in
  let* mout := odr_run L odrfunc x y ux uy p0 in
  let '(beta, cov_beta, res_var, info) := mout in
  let cov := if absolute_sigma then cov_beta
             else map (map (fun v => v * res_var)) cov_beta in
  Ok (beta, cov).

(** [genfit(func, x, y, ux, uy, p0, method, bounds, odr, absolute_sigma)] *)
Definition genfit (func : fitfn) (x y : list A) (ux uy : option (list A))
    (p0 : option (list A)) (bounds : option (list A * list A))
    (odr absolute_sigma : bool) : result (list A * list (list A)) :=
  if odr || negb (match ux with None => true | Some u => all_zero u end) then
    odrfit func x y ux uy p0 absolute_sigma
  else if match uy with None => true | Some u => all_zero u end then
    curve_fit L func x y None false p0 bounds
  else
    curve_fit L func x y uy absolute_sigma p0 bounds.

(** [genlinefit(x, y, ux, uy, absolute_sigma)]; [linefit] treats
    [sig=None] as it treats zero. *)
Definition genlinefit (x y : list A) (ux uy : option (list A))
    (absolute_sigma : bool) : result (list A * list (list A)) :=
  if match ux with None => true | Some u => all_zero u end then
    linefit x y (match uy with Some u => u | None => [lit 0] end)
      absolute_sigma
  else linefitYork x y ux uy absolute_sigma.
End FitFunctions.
Arguments fitfn : clear implicits.

(** *** Confidence and prediction bands *)

Section Bands.
Context {A : Type} `{PyNum A}.
Variable L : libs A.
Local Open Scope num_scope.

(** [_get_uconf(x, coeff, cov, func)] at one [x] *)
Definition _get_uconf (x : A) (coeff : list A) (cov : list (list A))
    (func : fitfn A) : result A :=
  let sigmas := map nsqrt (diag cov) in
  let dp := map (fun s => s / lit 1000000) sigmas in
  let* grad := approx_fprime L coeff (fun p => func x p) dp in
  Ok (nsqrt (dot (vecmat grad cov) grad)).

Definition band_mode_ok (mode : string) : bool :=
  String.eqb mode "Syx" || String.eqb mode "sigy" || String.eqb mode "sigylast".

(** The term [uy] that a band adds for the new measurement.
    With [always_sort] the data are sorted before every interpolation
    ([_get_upred_MC]); without it a constant [sigy] is read directly and
    the data are sorted only when [xdata] is not increasing.  On an
    empty [sigy], [sigy.min()] is a [ValueError] and [sigy[-1]] an
    [IndexError]; [sigy[idx]] is an [IndexError] when [sigy] is shorter
    than [xdata]; [interp1d] raises what the library raises. *)
Definition band_uy (always_sort : bool) (x Syx : A) (sigy : sig_y A)
    (xdata : list A) (mode : string) : result A :=
  match sigy with
  | SigScalar s =>
      Ok (if String.eqb mode "Syx" || (s ==? lit 0) then Syx else s)
  | SigArray l =>
      if String.eqb mode "Syx" then Ok Syx
      else if String.eqb mode "sigy" then
        let sorted :=
          let idx := np_argsort L xdata in
          let* xs := map_result (fun i => nth_or xdata i IndexError) idx in
          let* ss := map_result (fun i => nth_or l i IndexError) idx in
          interp1d L xs ss x in
        if always_sort then sorted
        else
          match l with
          | [] => Raise ValueError
          | s0 :: _ =>
              if np_min l ==? np_max l then Ok s0
              else
                let increasing :=
                  forallb (fun d => d >? lit 0)
                          (map2 (fun b a => b - a) (tl xdata) xdata) in
                if increasing then interp1d L xdata l x else sorted
          end
      else
        match l with
        | [] => Raise IndexError
        | _ => Ok (List.last l (lit 0))
        end
  end.

(** [_get_upred(x, coeff, cov, func, Syx, sigy, xdata, mode)]; [uy] is
    computed before [_get_uconf] is called. *)
Definition _get_upred (x : A) (coeff : list A) (cov : list (list A))
    (func : fitfn A) (Syx : A) (sigy : sig_y A) (xdata : list A)
    (mode : string) : result A :=
  if negb (band_mode_ok mode) then Raise ValueError
  else
    let* uy := band_uy false x Syx sigy xdata mode in
    let* uconf := _get_uconf x coeff cov func in
    Ok (nsqrt (sq uconf + sq uy)).

(** [_get_upred_MC(x, Syx, sigy, u_conf, xdata, mode)] *)
Definition _get_upred_MC (x Syx : A) (sigy : sig_y A)
    (u_conf : A -> result A) (xdata : list A) (mode : string) : result A :=
  if negb (band_mode_ok mode) then Raise ValueError
  else
    let* uy := band_uy true x Syx sigy xdata mode in
    let* uconf := u_conf x in
    Ok (nsqrt (sq uconf + sq uy)).
End Bands.

(** *** The [CurveFit] class *)

Section CurveFitClass.
Context {A : Type} `{PyNum A} {G : Type}.
Variable L : libs A.
Variable RNG : rng_api A G.
Variable linefitYork :
  list A -> list A -> option (list A) -> option (list A) -> bool ->
  result (list A * list (list A)).
Local Open Scope num_scope.

(** Modelled from the spec: the [Array] of module [uarray], which is not
    part of the sources: the measured points, their uncertainties, the
    estimate of [uy] from the residuals, and the Monte Carlo resamples,
    kept by column ([xsamples[:, i]] is the [i]-th list).  [has_ux] and
    [has_uy] are what the methods of these names return. *)
Record Array : Type := {
  arr_x : list A;
  arr_y : list A;
  arr_ux : list A;
  arr_uy : list A;
  uy_estimate : option (list A);
  xsamples : option (list (list A));
  ysamples : option (list (list A));
  has_ux : bool;
  has_uy : bool
}.

Definition with_uy_estimate (a : Array) (e : option (list A)) : Array :=
  {| arr_x := arr_x a; arr_y := arr_y a; arr_ux := arr_ux a;
     arr_uy := arr_uy a; uy_estimate := e;
     xsamples := xsamples a; ysamples := ysamples a;
     has_ux := has_ux a; has_uy := has_uy a |}.

(** [arr.clear()] and [arr.sample(n)], the second drawing from the
    global generator. *)
Variable arr_clear : Array -> Array.
Variable arr_sample : Array -> nat -> G -> Array * G.

(** The argument [func]: a name or an expression, or a callable given
    with the parameter names of its signature, [x] first. *)
Inductive func_arg : Type :=
| FuncName (s : string)
| FuncCallable (f : fitfn A) (signature : list string).

Record CurveFit : Type := {
  seed : option Z;
  samples : nat;
  outputs : gmap string (Output A);
  arr : Array;
  name : string;
  desc : string;
  xname : string;
  yname : string;
  xdates : bool;
  absolute_sigma : bool;
  fitname : string;
  polyorder : option Z;
  odr : bool;
  bounds : option (list A * list A);
  p0 : option (list A);
  expr : string;
  func : fitfn A;
  pnames : list string;
  numparams : nat;
  fit_line : bool;
  fit_absolute_sigma : bool;
  priors : option (list (option (A -> A)));
  samplecoeffs : list (list A);
  mcmccoeffs : list (list A);
  sig2trace : list A
}.

Definition with_outputs (self : CurveFit) (v_outputs : gmap string (Output A)) : CurveFit :=
  {| seed := seed self;
     samples := samples self;
     outputs := v_outputs;
     arr := arr self;
     name := name self;
     desc := desc self;
     xname := xname self;
     yname := yname self;
     xdates := xdates self;
     absolute_sigma := absolute_sigma self;
     fitname := fitname self;
     polyorder := polyorder self;
     odr := odr self;
     bounds := bounds self;
     p0 := p0 self;
     expr := expr self;
     func := func self;
     pnames := pnames self;
     numparams := numparams self;
     fit_line := fit_line self;
     fit_absolute_sigma := fit_absolute_sigma self;
     priors := priors self;
     samplecoeffs := samplecoeffs self;
     mcmccoeffs := mcmccoeffs self;
     sig2trace := sig2trace self |}.

Definition with_arr (self : CurveFit) (v_arr : Array) : CurveFit :=
  {| seed := seed self;
     samples := samples self;
     outputs := outputs self;
     arr := v_arr;
     name := name self;
     desc := desc self;
     xname := xname self;
     yname := yname self;
     xdates := xdates self;
     absolute_sigma := absolute_sigma self;
     fitname := fitname self;
     polyorder := polyorder self;
     odr := odr self;
     bounds := bounds self;
     p0 := p0 self;
     expr := expr self;
     func := func self;
     pnames := pnames self;
     numparams := numparams self;
     fit_line := fit_line self;
     fit_absolute_sigma := fit_absolute_sigma self;
     priors := priors self;
     samplecoeffs := samplecoeffs self;
     mcmccoeffs := mcmccoeffs self;
     sig2trace := sig2trace self |}.

Definition with_priors (self : CurveFit) (v_priors : option (list (option (A -> A)))) : CurveFit :=
  {| seed := seed self;
     samples := samples self;
     outputs := outputs self;
     arr := arr self;
     name := name self;
     desc := desc self;
     xname := xname self;
     yname := yname self;
     xdates := xdates self;
     absolute_sigma := absolute_sigma self;
     fitname := fitname self;
     polyorder := polyorder self;
     odr := odr self;
     bounds := bounds self;
     p0 := p0 self;
     expr := expr self;
     func := func self;
     pnames := pnames self;
     numparams := numparams self;
     fit_line := fit_line self;
     fit_absolute_sigma := fit_absolute_sigma self;
     priors := v_priors;
     samplecoeffs := samplecoeffs self;
     mcmccoeffs := mcmccoeffs self;
     sig2trace := sig2trace self |}.

Definition with_samplecoeffs (self : CurveFit) (v_samplecoeffs : list (list A)) : CurveFit :=
  {| seed := seed self;
     samples := samples self;
     outputs := outputs self;
     arr := arr self;
     name := name self;
     desc := desc self;
     xname := xname self;
     yname := yname self;
     xdates := xdates self;
     absolute_sigma := absolute_sigma self;
     fitname := fitname self;
     polyorder := polyorder self;
     odr := odr self;
     bounds := bounds self;
     p0 := p0 self;
     expr := expr self;
     func := func self;
     pnames := pnames self;
     numparams := numparams self;
     fit_line := fit_line self;
     fit_absolute_sigma := fit_absolute_sigma self;
     priors := priors self;
     samplecoeffs := v_samplecoeffs;
     mcmccoeffs := mcmccoeffs self;
     sig2trace := sig2trace self |}.

Definition with_mcmc (self : CurveFit) (v_mcmccoeffs : list (list A)) (v_sig2trace : list A) : CurveFit :=
  {| seed := seed self;
     samples := samples self;
     outputs := outputs self;
     arr := arr self;
     name := name self;
     desc := desc self;
     xname := xname self;
     yname := yname self;
     xdates := xdates self;
     absolute_sigma := absolute_sigma self;
     fitname := fitname self;
     polyorder := polyorder self;
     odr := odr self;
     bounds := bounds self;
     p0 := p0 self;
     expr := expr self;
     func := func self;
     pnames := pnames self;
     numparams := numparams self;
     fit_line := fit_line self;
     fit_absolute_sigma := fit_absolute_sigma self;
     priors := priors self;
     samplecoeffs := samplecoeffs self;
     mcmccoeffs := v_mcmccoeffs;
     sig2trace := v_sig2trace |}.

Definition with_fitfunc (self : CurveFit) (v_fitname : string) (v_polyorder : option Z) (v_odr : bool) (v_bounds : option (list A * list A)) (v_p0 : option (list A)) (v_expr : string) (v_func : fitfn A) (v_pnames : list string) (v_numparams : nat) (v_fit_line : bool) (v_priors : option (list (option (A -> A)))) : CurveFit :=
  {| seed := seed self;
     samples := samples self;
     outputs := outputs self;
     arr := arr self;
     name := name self;
     desc := desc self;
     xname := xname self;
     yname := yname self;
     xdates := xdates self;
     absolute_sigma := absolute_sigma self;
     fitname := v_fitname;
     polyorder := v_polyorder;
     odr := v_odr;
     bounds := v_bounds;
     p0 := v_p0;
     expr := v_expr;
     func := v_func;
     pnames := v_pnames;
     numparams := v_numparams;
     fit_line := v_fit_line;
     fit_absolute_sigma := absolute_sigma self;
     priors := v_priors;
     samplecoeffs := samplecoeffs self;
     mcmccoeffs := mcmccoeffs self;
     sig2trace := sig2trace self |}.

(** [self.fitfunc(x, y, ux, uy)]: the closure made by [set_fitfunc],
    which reads [self.func] and [self.p0] when it is called. *)
Definition fitfunc (self : CurveFit) (x y : list A)
    (ux uy : option (list A)) : result (list A * list (list A)) :=
  if fit_line self then
    genlinefit linefitYork x y ux uy (fit_absolute_sigma self)
  else
    genfit L (func self) x y ux uy (p0 self) (bounds self) (odr self)
      (fit_absolute_sigma self).

(** [set_mcmc_priors(priors)] *)
Definition set_mcmc_priors (self : CurveFit)
    (priors : list (option (A -> A))) : result CurveFit :=
  if Nat.eqb (length priors) (length (pnames self))
  then Ok (with_priors self (Some priors))
  else Raise AssertionError.

(** The parameter names [a], [b], ... of a polynomial of order [k]. *)
Definition varnames (k : nat) : list string :=
  map (fun i => String (Ascii.ascii_of_nat (97 + i)) EmptyString)
      (seq 0 (S k)).

(** [' + '.join] and friends. *)
Fixpoint join (sep : string) (l : list string) : string :=
  match l with
  | [] => ""
  | [a] => a
  | a :: l' => (a ++ sep ++ join sep l')%string
  end.

(** [set_fitfunc(func, polyorder, method, bounds, odr, p0)] *)
Definition set_fitfunc (self : CurveFit) (func : func_arg)
    (polyorder : option Z) (bounds : option (list A * list A))
    (odr : bool) (p0 : option (list A)) : result CurveFit :=
  let fitname := match func with
                 | FuncName s => s
                 | FuncCallable _ _ => "callable"
                 end in
  let is_poly k := match func, polyorder with
                   | FuncName s, Some o => String.eqb s "poly" && (o =? k)%Z
                   | _, _ => false
                   end in
  (* the function and its signature, the expression, the order once
     converted by [int], and [p0] *)
  let* chosen :=
    match func with
    | FuncCallable f signature => Ok (f, signature, "", polyorder, p0)
    | FuncName _ =>
        if String.eqb fitname "line" then
          Ok (func_line, ["x"; "b"; "a"], "a + b*x", polyorder, p0)
        else if String.eqb fitname "exp" then
          Ok (func_exp L, ["x"; "a"; "b"; "c"], "c + a * exp(x/b)",
              polyorder, p0)
        else if String.eqb fitname "decay" then
          Ok (func_decay L, ["x"; "a"; "b"], "a * exp(-x/b)", polyorder, p0)
        else if String.eqb fitname "decay2" then
          Ok (func_decay2 L, ["x"; "a"; "b"], "a * exp(-x*b)", polyorder, p0)
        else if String.eqb fitname "log" then
          Ok (func_log L, ["x"; "a"; "b"; "c"], "a + b * log(x-c)",
              polyorder, p0)
        else if String.eqb fitname "logistic" then
          Ok (func_logistic L, ["x"; "a"; "b"; "c"; "d"],
              "a / (1 + exp((x-c)/b)) + d", polyorder, p0)
        else if String.eqb fitname "quad" || is_poly 2%Z then
          Ok (func_quad, ["x"; "a"; "b"; "c"], "a + b*x + c*x**2",
              polyorder, p0)
        else if String.eqb fitname "cubic" || is_poly 3%Z then
          Ok (func_cubic, ["x"; "a"; "b"; "c"; "d"],
              "a + b*x + c*x**2 + d*x**3", polyorder, p0)
        else if String.eqb fitname "poly" then
          match polyorder with
          | None => Raise TypeError
          | Some o =>
              if (o <? 1)%Z || (o >? 12)%Z then Raise ValueError
              else
                let k := Z.to_nat o in
                let e := join "+"
                           (map (fun iv => (snd iv ++ "*x**" ++ pretty (fst iv))%string)
                                (combine (seq 0 (S k)) (varnames k))) in
                let p0 := match p0 with
                          | None => Some (repeat (lit 1) (S k))
                          | Some _ => p0
                          end in
                Ok (func_poly, ["x"; "p"], e, Some o, p0)
          end
        else
          let* fe := sympy_lambdify L fitname in
          Ok (fst fe, "x" :: snd fe, fitname, polyorder, p0)
    end in
  let '(f, signature, e, order, p0) := chosen in
  let pnames :=
    if String.eqb fitname "poly"
       && match order with Some o => (o >? 3)%Z | None => false end
    then varnames (Z.to_nat (default 0%Z order))
    else tl signature in
  let e := if String.eqb fitname "callable"
           then ("f(x, " ++ join ", " pnames ++ ")")%string else e in
  let self :=
    with_fitfunc self fitname polyorder odr bounds p0 e f pnames
      (length pnames) (String.eqb fitname "line" && negb odr)
      (priors self) in
  match bounds with
  | None => Ok self
  | Some (lo, hi) =>
      set_mcmc_priors self
        (map (fun ab => Some (fun x =>
                if (x >? fst ab) && (x <=? snd ab) then lit 1 else lit 0))
             (combine lo hi))
  end.

(** The attributes that [__init__] sets before it calls [set_fitfunc];
    those that [set_fitfunc] sets are not yet there and are given
    empty values. *)
Definition blank (arr : Array) (name desc : string) (seed : option Z)
    (xdates absolute_sigma : bool) : CurveFit :=
  {| seed := seed; samples := 5000; outputs := ∅; arr := arr;
     name := name; desc := desc; xname := "x"; yname := "y";
     xdates := xdates; absolute_sigma := absolute_sigma;
     fitname := ""; polyorder := None; odr := false; bounds := None;
     p0 := None; expr := ""; func := func_poly; pnames := [];
     numparams := 0; fit_line := false;
     fit_absolute_sigma := absolute_sigma; priors := None;
     samplecoeffs := []; mcmccoeffs := []; sig2trace := [] |}.

(** [CurveFit(arr, func, name, desc, polyorder, p0, method, bounds, odr,
    seed, xdates, absolute_sigma)] *)
Definition init (arr : Array) (func : func_arg) (name desc : string)
    (polyorder : option Z) (p0 : option (list A))
    (bounds : option (list A * list A)) (odr : bool) (seed : option Z)
    (xdates absolute_sigma : bool) : result CurveFit :=
  set_fitfunc (blank arr name desc seed xdates absolute_sigma)
    func polyorder bounds odr p0.
(** [estimate_uy()] *)
Definition estimate_uy (self : CurveFit) : result (list A) :=
  let a := arr self in
  let* (pcoeff, _) := fitfunc self (arr_x a) (arr_y a) None None in
  let* fx := eval_func (func self) (arr_x a) pcoeff in
  let uy := nsqrt (py_sum (map2 (fun f yi => sq (f - yi)) fx (arr_y a))
                   / num_of_Z (Z.of_nat (length (arr_x a))
                               - Z.of_nat (length pcoeff))) in
  Ok (repeat uy (length (arr_x a))).

(** [run_uyestimate()] *)
Definition run_uyestimate (self : CurveFit) : result CurveFit :=
  let a := arr self in
  if match uy_estimate a with None => true | Some _ => false end
     && (negb (has_ux a) && negb (has_uy a))
  then
    let* uy := estimate_uy self in
    Ok (with_arr self (with_uy_estimate a (Some uy)))
  else Ok self.

(** The residual statistics, which every method computes with the same
    lines: residuals, degrees of freedom, [SSres], [Syx], [SSreg], [r]
    and [F].  [calc_GUM] alone centres [SSreg] on the plain mean of [y]. *)
Record fit_stats : Type := {
  st_resids : list A;
  st_degf : Z;
  st_SSres : A;
  st_Syx : A;
  st_SSreg : A;
  st_r : A;
  st_F : A
}.

Definition residual_statistics (self : CurveFit) (gum : bool)
    (uy coeff : list A) : result fit_stats :=
  let a := arr self in
  let* fx := eval_func (func self) (arr_x a) coeff in
  let resids := map2 nsub (arr_y a) fx in
  let degf := (Z.of_nat (length (arr_x a)) - Z.of_nat (length coeff))%Z in
  let w :=
    if absolute_sigma self || negb (has_uy a)
    then repeat (lit 1) (length (arr_x a))
    else
      let w := map (fun u => lit 1 / sq u) uy in
      map (fun wi => wi / py_sum w * len (arr_y a)) w in
  let SSres := py_sum (map2 (fun wi ri => wi * sq ri) w resids) in
  let Syx := nsqrt (SSres / num_of_Z degf) in
  let centre := if gum then np_mean (arr_y a)
                else py_sum (map2 nmul w (arr_y a)) / py_sum w in
  let SSreg := py_sum (map2 (fun wi f => wi * sq (f - centre)) w fx) in
  let r := nsqrt (lit 1 - SSres / (SSres + SSreg)) in
  Ok {| st_resids := resids; st_degf := degf; st_SSres := SSres;
        st_Syx := Syx; st_SSreg := SSreg; st_r := r;
        st_F := SSreg * num_of_Z degf / SSres |}.

(** The entries of [params] that every method writes. *)
Definition common_params (self : CurveFit) (coeff sigmas : list A)
    (st : fit_stats) (cov cor : list (list A)) (uy : list A)
    : list (string * Value A) :=
  let a := arr self in
  [("coeffs", VArr coeff); ("sigmas", VArr sigmas);
   ("mean", VArr coeff); ("uncert", VArr sigmas);
   ("resids", VArr (st_resids st)); ("Syx", VNum (st_Syx st));
   ("r", VNum (st_r st)); ("F", VNum (st_F st));
   ("func", VFitFunc (func self)); ("fitname", VStr (fitname self));
   ("expr", VStr (expr self)); ("pnames", VNames (pnames self));
   ("cov", VMat cov); ("cor", VMat cor); ("degf", VInt (st_degf st));
   ("data", VData (arr_x a) (arr_y a) (arr_ux a) uy);
   ("axnames", VNames [xname self; yname self]);
   ("has_uy", VBool (has_uy a)); ("xdates", VBool (xdates self))].

(** [calc_LSQ()]: the record, and the object with the record cached. *)
Definition calc_LSQ (self : CurveFit) : result (Output A * CurveFit) :=
  let a := arr self in
  let uy := if negb (has_uy a) then repeat (lit 0) (length (arr_x a))
            else arr_uy a in
  let* (coeff, cov) :=
    fitfunc self (arr_x a) (arr_y a) (Some (arr_ux a)) (Some uy) in
  let* st := residual_statistics self false uy coeff in
  let sigmas := map nsqrt (diag cov) in
  let cor := correlation cov sigmas in
  let f := func self in
  let params :=
    common_params self coeff sigmas st cov cor (arr_uy a)
    ++ [("SSres", VNum (st_SSres st)); ("SSreg", VNum (st_SSreg st));
        ("u_conf", VFun (fun x => _get_uconf L x coeff cov f));
        ("u_pred", VBand (fun x mode =>
           _get_upred L x coeff cov f (st_Syx st) (SigArray (arr_uy a))
             (arr_x a) mode))] in
  let* out := create_output_curvefit "lsq" params in
  Ok (out, with_outputs self (<["lsq" := out]> (outputs self))).

(** [sample(samples)] *)
Definition sample (self : CurveFit) (samples : nat) (g : G)
    : CurveFit * G :=
  let '(a, g) := arr_sample (arr_clear (arr self)) samples g in
  (with_arr self a, g).

(** The records of the two sampling methods share their band functions
    and entries. *)
Definition sampled_params (self : CurveFit) (coeff sigma : list A)
    (st : fit_stats) (rows : list (list A)) (uy : list A)
    : list (string * Value A) :=
  let a := arr self in
  let f := func self in
  let y_vs_x_sample := fun (x : A) (i : nat) =>
    let* row := nth_or rows i IndexError in f x row in
  let u_conf := fun (x : A) =>
    let* ys := map_result (y_vs_x_sample x) (seq 0 (length rows)) in
    Ok (np_std_ddof1 ys) in
  common_params self coeff sigma st (np_cov L rows) (np_corrcoef L rows) uy
  ++ [("samples", VMat rows);
      ("y_vs_x_sample", VSampleFun y_vs_x_sample);
      ("u_conf", VFun u_conf);
      ("u_pred", VBand (fun x mode =>
         _get_upred_MC L x (st_Syx st) (SigArray (arr_uy a)) u_conf
           (arr_x a) mode))].

(** [calc_MC(samples)] *)
Definition calc_MC (self : CurveFit) (samples : nat) (g : G)
    : result (Output A * CurveFit * G) :=
  let* self := run_uyestimate self in
  let uy := match uy_estimate (arr self) with
            | None => arr_uy (arr self)
            | Some e => e
            end in
  let '(self, g) :=
    match xsamples (arr self), ysamples (arr self) with
    | Some xs, Some _ =>
        if negb (Nat.eqb (length xs) samples) then sample self samples g
        else (self, g)
    | _, _ => sample self samples g
    end in
  let* xs := match xsamples (arr self) with
             | Some xs => Ok xs | None => Raise TypeError end in
  let* ys := match ysamples (arr self) with
             | Some ys => Ok ys | None => Raise TypeError end in
  let* rows :=
    map_result (fun i =>
        let* cx := nth_or xs i IndexError in
        let* cy := nth_or ys i IndexError in
        let* (coeff, _) := fitfunc self cx cy None None in
        assign_row (numparams self) coeff)
      (seq 0 samples) in
  let self := with_samplecoeffs self rows in
  let coeff := mean_axis0 (numparams self) rows in
  let sigma := std_axis0 (numparams self) rows in
  let* st := residual_statistics self false uy coeff in
  let* out :=
    create_output_curvefit "mc" (sampled_params self coeff sigma st rows uy) in
  Ok (out, with_outputs self (<["mc" := out]> (outputs self)), g).

(** [calc_GUM()] *)
Definition calc_GUM (self : CurveFit) : result (Output A * CurveFit) :=
  let* self := run_uyestimate self in
  let a := arr self in
  let uy := match uy_estimate a with None => arr_uy a | Some e => e end in
  let* (coeff, cov, grad) :=
    uarray_GUM L
      (fun x y => let* (c, _) := fitfunc self x y None None in Ok c)
      (arr_x a) (arr_y a) (arr_ux a) uy in
  let sigmas := map nsqrt (diag cov) in
  let* st := residual_statistics self true uy coeff in
  let cor := correlation cov sigmas in
  let f := func self in
  let params :=
    common_params self coeff sigmas st cov cor uy
    ++ [("grad", VMat grad);
        ("u_conf", VFun (fun x => _get_uconf L x coeff cov f));
        ("u_pred", VBand (fun x mode =>
           _get_upred L x coeff cov f (st_Syx st) (SigArray (arr_uy a))
             (arr_x a) mode))] in
  let* out := create_output_curvefit "gum" params in
  Ok (out, with_outputs self (<["gum" := out]> (outputs self))).
(** [sum((y - Y)**2)] *)
Definition sum_sq_dev (y Y : list A) : A :=
  py_sum (map2 (fun yi Yi => sq (yi - Yi)) y Y).

(** One pass of the inner loop of [calc_MCMC]: a move of parameter
    [pidx] is proposed and accepted or not.  The state is the parameter
    vector, the acceptance counts and the generator. *)
Definition mcmc_param_step (self : CurveFit) (priors : list (A -> A))
    (up : list A) (sig2 : A) (st : list A * list A * G) (pidx : nat)
    : result (list A * list A * G) :=
  let '(p, accepts, g) := st in
  let a := arr self in
  let* p_i := nth_or p pidx IndexError in
  let* up_i := nth_or up pidx IndexError in
  let '(z, g) := rng_normal RNG g up_i in
  let pnew := set_nth pidx (p_i + z) p in
  let* Y := eval_func (func self) (arr_x a) p in
  let* Ynew := eval_func (func self) (arr_x a) pnew in
  let problog := - lit 1 / (lit 2 * sig2) * sum_sq_dev (arr_y a) Y in
  let problognew := - lit 1 / (lit 2 * sig2) * sum_sq_dev (arr_y a) Ynew in
  let* prior := nth_or priors pidx IndexError in
  let r := np_exp L (problognew - problog) * prior (p_i + z) / prior p_i in
  let '(u, g) := rng_uniform RNG g in
  if r >=? u then
    let* n := nth_or accepts pidx IndexError in
    Ok (pnew, set_nth pidx (n + lit 1) accepts, g)
  else Ok (p, accepts, g).

(** The move of [sig2], made when the variance is not known. *)
Definition mcmc_sigma_step (self : CurveFit) (sig2sig : A)
    (sig2lim : A * A) (p : list A) (sig2 : A) (g : G) : result (A * G) :=
  let a := arr self in
  let '(z, g) := rng_normal RNG g sig2sig in
  let sig2new := sig2 + z in
  if (sig2new <? snd sig2lim) && (sig2new >? fst sig2lim) then
    let* Y := eval_func (func self) (arr_x a) p in
    let ss2 := sum_sq_dev (arr_y a) Y in
    let problog := - lit 1 / (lit 2 * sig2) * ss2 in
    let problognew := - lit 1 / (lit 2 * sig2new) * ss2 in
    let '(u, g) := rng_uniform RNG g in
    if np_exp L (problognew - problog) >=? u then Ok (sig2new, g)
    else Ok (sig2, g)
  else Ok (sig2, g).

(** The chain after some sweeps; the rows of [mcmccoeffs] and the
    entries of [sig2trace] written so far are kept in order. *)
Record chain : Type := {
  ch_p : list A;
  ch_accepts : list A;
  ch_sig2 : A;
  ch_rng : G;
  ch_coeffs : list (list A);
  ch_sig2trace : list A
}.

(** One sweep: every parameter in turn, then [sig2], then the row. *)
Definition mcmc_sweep (self : CurveFit) (priors : list (A -> A))
    (up : list A) (varysigma : option (A * (A * A))) (st : chain)
    : result chain :=
  let* (p, accepts, g) :=
    fold_result (mcmc_param_step self priors up (ch_sig2 st))
      (seq 0 (length (ch_p st))) (ch_p st, ch_accepts st, ch_rng st) in
  let* (sig2, g) :=
    match varysigma with
    | Some (sig2sig, sig2lim) =>
        mcmc_sigma_step self sig2sig sig2lim p (ch_sig2 st) g
    | None => Ok (ch_sig2 st, g)
    end in
  let* row := assign_row (numparams self) p in
  Ok {| ch_p := p; ch_accepts := accepts; ch_sig2 := sig2; ch_rng := g;
        ch_coeffs := ch_coeffs st ++ [row];
        ch_sig2trace := ch_sig2trace st ++ [sig2] |}.

(** [for i in range(n)] on a state. *)
Fixpoint iterate_result {T : Type} (n : nat) (f : T -> result T) (s : T)
    : result T :=
  match n with
  | O => Ok s
  | S n' => let* s' := f s in iterate_result n' f s'
  end.

(** [calc_MCMC(samples, burnin)] *)
Definition calc_MCMC (self : CurveFit) (samples : nat) (burnin : A)
    (g : G) : result (Output A * CurveFit * G) :=
  let g := match seed self with
           | Some s => rng_seed RNG s
           | None => g
           end in
  let* self := run_uyestimate self in
  let a := arr self in
  let uy := match uy_estimate a with None => arr_uy a | Some e => e end in
  let* (p, cov) :=
    fitfunc self (arr_x a) (arr_y a) (Some (arr_ux a)) (Some uy) in
  let up := map nsqrt (diag cov) in
  if negb (forallb (np_isfinite L) up) then Raise ValueError
  else
    let* (sig2, varysigma) :=
      if all_zero uy then
        let* fx := eval_func (func self) (arr_x a) p in
        let resids := map2 nsub (arr_y a) fx in
        let sig2 := np_var_ddof1 resids in
        let sresid := map2 (fun yi f => np_std [yi; f]) (arr_y a) fx in
        let sig2sig := lit 2 * nsqrt sig2 in
        let sig2lim := (sq (np_percentile L sresid (lit 5)),
                        sq (np_percentile L sresid (lit 95))) in
        Ok (sig2, Some (sig2sig, sig2lim))
      else Ok (sq (np_mean uy), None) in
    let one : A -> A := fun _ => lit 1 in
    let priors :=
      match priors self with
      | None => repeat one (length (pnames self))
      | Some ps => map (fun q => default one q) ps
      end in
    let* _ :=
      fold_result (fun (_ : unit) pidx =>
          let* prior := nth_or priors pidx IndexError in
          let* p_i := nth_or p pidx IndexError in
          if prior p_i <=? lit 0 then Raise ValueError else Ok tt)
        (seq 0 (length p)) tt in
    let* st :=
      iterate_result samples (mcmc_sweep self priors up varysigma)
        {| ch_p := p; ch_accepts := repeat (lit 0) (length p);
           ch_sig2 := sig2; ch_rng := g;
           ch_coeffs := []; ch_sig2trace := [] |} in
    let burnin := py_int L (burnin * num_of_Z (Z.of_nat samples)) in
    let rows := slice_from burnin (ch_coeffs st) in
    let self := with_mcmc self rows (slice_from burnin (ch_sig2trace st)) in
    let coeff := mean_axis0 (numparams self) rows in
    let sigma := std_axis0 (numparams self) rows in
    let* stats := residual_statistics self false uy coeff in
    let params :=
      sampled_params self coeff sigma stats rows uy
      ++ [("acceptance",
           VArr (map (fun n => n / num_of_Z (Z.of_nat samples))
                     (ch_accepts st)))] in
    let* out := create_output_curvefit "mcmc" params in
    Ok (out, with_outputs self (<["mcmc" := out]> (outputs self)),
        ch_rng st).
(** *** The [CurveFitParam] class *)

(** [pidx]: a coefficient index in mode ['param'], an x value in mode
    ['pred']. *)
Inductive selector : Type :=
| Index (i : nat)
| XValue (x : A).

Definition as_x (s : selector) : A :=
  match s with
  | Index i => num_of_Z (Z.of_nat i)
  | XValue x => x
  end.

(** [v[pidx]] *)
Definition select (v : Value A) (s : selector) : result (Value A) :=
  match s with
  | Index i => index v i
  | XValue _ => Raise IndexError
  end.

Record CurveFitParam : Type := {
  pidx : selector;
  ifunc : CurveFit;
  mode : string;
  param_name : string;
  param_desc : string;
  param_outputs : gmap string (Output A)
}.

Definition with_param_outputs (self : CurveFitParam) (ifunc : CurveFit)
    (outputs : gmap string (Output A)) : CurveFitParam :=
  {| pidx := pidx self; ifunc := ifunc; mode := mode self;
     param_name := param_name self; param_desc := param_desc self;
     param_outputs := outputs |}.

(** [CurveFitParam(ifunc, pidx, mode, name, desc)] *)
Definition param_init (ifunc : CurveFit) (pidx : selector)
    (mode name desc : string) : CurveFitParam :=
  {| pidx := pidx; ifunc := ifunc; mode := mode; param_name := name;
     param_desc := desc; param_outputs := ∅ |}.

(** [o.attr(x)] *)
Definition call_attr (o : Output A) (attr : string) (x : A)
    : result (Value A) :=
  let* f := getattr o attr in call f x.

(** The record that the [calc_*] methods of [CurveFitParam] derive from
    the record [out] of the fit, stored under [key]. *)
Definition project (self : CurveFitParam) (ifunc : CurveFit)
    (key : string) (out : Output A) (kwargs : gmap string (Value A))
    : result (Output A * CurveFitParam) :=
  let* outputs :=
    if String.eqb (mode self) "param" then
      let* m := getattr out "mean" in
      let* mean := select m (pidx self) in
      let* u := getattr out "uncert" in
      let* uncert := select u (pidx self) in
      Ok (<[key := create_output key mean uncert kwargs]>
            (param_outputs self))
    else if String.eqb (mode self) "pred" then
      let* mean := call_attr out "y" (as_x (pidx self)) in
      let* uncert := call_attr out "u_pred" (as_x (pidx self)) in
      Ok (<[key := create_output key mean uncert kwargs]>
            (param_outputs self))
    else Ok (param_outputs self) in
  match outputs !! key with
  | Some o => Ok (o, with_param_outputs self ifunc outputs)
  | None => Raise KeyError
  end.

(** [CurveFitParam.calc_LSQ()] *)
Definition param_calc_LSQ (self : CurveFitParam)
    : result (Output A * CurveFitParam) :=
  let* (lsqout, ifunc) := calc_LSQ (ifunc self) in
  project self ifunc "lsq" lsqout (properties lsqout).

(** [CurveFitParam.calc_GUM()] *)
Definition param_calc_GUM (self : CurveFitParam)
    : result (Output A * CurveFitParam) :=
  let* (gumout, ifunc) := calc_GUM (ifunc self) in
  project self ifunc "gum" gumout (properties gumout).

(** [mcout.properties.pop('samples')[:, pidx]], made a column *)
Definition pop_samples (out : Output A) (s : selector)
    : result (Value A * gmap string (Value A)) :=
  match properties out !! "samples" with
  | Some (VMat rows) =>
      match s with
      | Index i =>
          let* col := map_result (fun row => nth_or row i IndexError) rows in
          Ok (VMat (map (fun v => [v]) col), delete "samples" (properties out))
      | XValue _ => Raise IndexError
      end
  | Some _ => Raise TypeError
  | None => Raise KeyError
  end.

(** [CurveFitParam.calc_MC(samples)] *)
Definition param_calc_MC (self : CurveFitParam) (samples : nat) (g : G)
    : result (Output A * CurveFitParam * G) :=
  let* (mcout, ifunc, g) := calc_MC (ifunc self) samples g in
  let* (column, rest) := pop_samples mcout (pidx self) in
  let* (o, self) :=
    project self ifunc "mc" mcout (<["samples" := column]> rest) in
  Ok (o, self, g).

(** [stdunc()]: the value returned and the object, whose cache the call
    may have filled. *)
Definition stdunc (self : CurveFitParam)
    : result (Value A * CurveFitParam) :=
  let outputs := param_outputs self in
  if String.eqb (mode self) "param" then
    match outputs !! "lsq", outputs !! "mc", outputs !! "gum" with
    | Some o, _, _ | None, Some o, _ | None, None, Some o =>
        let* u := getattr o "uncert" in
        let* v := index u 0 in
        Ok (v, self)
    | None, None, None =>
        let* (_, self) := param_calc_LSQ self in
        let* o := match param_outputs self !! "lsq" with
                  | Some o => Ok o | None => Raise KeyError end in
        let* u := getattr o "uncert" in
        let* v := index u 0 in
        Ok (v, self)
    end
  else if String.eqb (mode self) "pred" then
    match outputs !! "lsq", outputs !! "mc", outputs !! "gum" with
    | Some o, _, _ | None, Some o, _ | None, None, Some o =>
        let* v := call_attr o "u_pred" (as_x (pidx self)) in
        Ok (v, self)
    | None, None, None =>
        let* (_, self) := param_calc_LSQ self in
        let* o := match param_outputs self !! "lsq" with
                  | Some o => Ok o | None => Raise KeyError end in
        let* v := call_attr o "u_predy" (as_x (pidx self)) in
        Ok (v, self)
    end
  else Raise RuntimeError.
End CurveFitClass.
Arguments Array : clear implicits.
Arguments CurveFit : clear implicits.
Arguments CurveFitParam : clear implicits.
Arguments selector : clear implicits.
Arguments chain : clear implicits.
Arguments fit_stats : clear implicits.
Arguments func_arg : clear implicits.

End curvefit.

(** ** Examples of the data and of the libraries *)

Module examples.
Import curvefit.

Section Generic.
Context {A : Type} `{PyNum A}.
Local Open Scope num_scope.

(** The forward difference that [approx_fprime] computes. *)
Definition forward_difference (xk : list A) (f : list A -> result A)
    (epsilon : list A) : result (list A) :=
  let* f0 := f xk in
  map_result (fun i =>
      let e := nth i epsilon (lit 0) in
      let* fi := f (set_nth i (nth i xk (lit 0) + e) xk) in
      Ok ((fi - f0) / e))
    (seq 0 (length xk)).

(** The sample covariance and correlation of the columns of a matrix. *)
Definition sample_cov (rows : list (list A)) : list (list A) :=
  let k := length (hd [] rows) in
  let centred j := let c := column j rows in
                   map (fun v => v - np_mean c) c in
  map (fun i =>
         map (fun j => dot (centred i) (centred j)
                       / num_of_Z (Z.of_nat (length rows) - 1))
             (seq 0 k))
      (seq 0 k).
Definition sample_corrcoef (rows : list (list A)) : list (list A) :=
  let c := sample_cov rows in
  correlation c (map nsqrt (diag c)).

(** A solver that answers with the initial guess and a zero covariance:
    what a least-squares solver returns on data that the initial guess
    fits exactly. *)
Definition exact_guess_solver (func : A -> list A -> result A)
    (x y : list A) (sigma : option (list A)) (absolute_sigma : bool)
    (p0 : option (list A)) (bounds : option (list A * list A))
    : result (list A * list (list A)) :=
  match p0 with
  | Some p => Ok (p, map (fun _ => map (fun _ => lit 0) p) p)
  | None => Raise ValueError
  end.

(** An array without resamples. *)
Definition measured (x y ux uy : list A) (has_ux has_uy : bool) : Array A :=
  {| arr_x := x; arr_y := y; arr_ux := ux; arr_uy := uy;
     uy_estimate := None; xsamples := None; ysamples := None;
     has_ux := has_ux; has_uy := has_uy |}.
End Generic.

(** *** Binary64 *)

(** The exponential by the first terms of its series; exact at [0]. *)
Fixpoint exp_terms (fuel : nat) (k term acc x : float) : float :=
  match fuel with
  | O => acc
  | S fuel' =>
      let term' := (term * x / k)%float in
      exp_terms fuel' (k + 1)%float term' (acc + term')%float x
  end.
Definition float_exp (x : float) : float := exp_terms 30 1%float 1%float 1%float x.

(** The builtin [int] on floats of small magnitude: counting up to the
    last integer not above the absolute value. *)
Fixpoint count_up (fuel : nat) (k : Z) (x : float) : Z :=
  match fuel with
  | O => k
  | S fuel' =>
      if PrimFloat.leb (float_of_Z (k + 1)) x then count_up fuel' (k + 1)%Z x
      else k
  end.
Definition float_int (x : float) : Z :=
  if PrimFloat.ltb x 0%float then (- count_up 4096 0 (- x)%float)%Z
  else count_up 4096 0 x.

(** The libraries for the examples.  The entries that no example reaches
    answer with an exception or with not-a-number. *)
Definition float_libs : libs float :=
  {| np_exp := float_exp;
     np_log := fun _ => PrimFloat.nan;
     np_isfinite := fun v => PrimFloat.eqb (v - v)%float 0%float;
     np_argsort := fun l => seq 0 (length l);
     np_percentile := fun _ _ => PrimFloat.nan;
     np_cov := sample_cov;
     np_corrcoef := sample_corrcoef;
     approx_fprime := forward_difference;
     interp1d := fun _ _ _ => Ok PrimFloat.nan;
     curve_fit := exact_guess_solver;
     odr_run := fun _ _ _ _ _ _ => Raise RuntimeError;
     uarray_GUM := fun _ _ _ _ _ => Raise RuntimeError;
     sympy_lambdify := fun _ => Raise ValueError;
     py_int := float_int |}.

(** York's fit is not reached either: no example has uncertainty in x. *)
Definition no_york (x y : list float) (ux uy : option (list float))
    (absolute_sigma : bool) : result (list float * list (list float)) :=
  Raise RuntimeError.

(** A generator that repeats fixed draws; its state counts the calls. *)
Definition float_rng : rng_api float nat :=
  {| rng_seed := fun z => Z.to_nat z;
     rng_normal := fun g scale =>
       ((scale * nth (g mod 4) [0.5; -1; 0.25; 1.5] 0)%float, S g);
     rng_uniform := fun g => (nth (g mod 3) [0.5; 0.125; 0.875]%float 0%float, S g) |}.

(** Three points, no uncertainty given: a line is fitted. *)
Definition three_points : Array float :=
  measured [0; 1; 2]%float [0; 1; 3]%float [0; 0; 0]%float [0; 0; 0]%float
    false false.

Definition line_fit : result (CurveFit float) :=
  init float_libs three_points (FuncName "line") "curvefit" ""
    None None None false None false true.

(** The same points with the uncertainty [0.125] on each y value. *)
Definition three_points_uy : Array float :=
  measured [0; 1; 2]%float [0; 1; 3]%float [0; 0; 0]%float
    [0.125; 0.125; 0.125]%float false true.

Definition line_fit_uy : result (CurveFit float) :=
  init float_libs three_points_uy (FuncName "line") "curvefit" ""
    None None None false None false true.

(** Three points on the line [y = x + 1], fitted by a polynomial of
    order 1: [CurveFit(arr, 'poly', polyorder=1)]. *)
Definition on_a_line : Array float :=
  measured [0; 1; 2]%float [1; 2; 3]%float [0; 0; 0]%float [0; 0; 0]%float
    false false.

Definition poly1_fit : result (CurveFit float) :=
  init float_libs on_a_line (FuncName "poly") "curvefit" ""
    (Some 1%Z) None None false None false true.

(** *** Exact arithmetic *)

(** The builtin [int]: truncation toward zero. *)
Definition R_int (r : R) : Z :=
  if Rle_dec 0 r then Int_part r else (- Int_part (- r))%Z.

Definition real_libs : libs R :=
  {| np_exp := exp;
     np_log := ln;
     np_isfinite := fun _ => true;
     np_argsort := fun l => seq 0 (length l);
     np_percentile := fun l _ => hd 0%R l;
     np_cov := sample_cov;
     np_corrcoef := sample_corrcoef;
     approx_fprime := forward_difference;
     interp1d := fun _ _ _ => Ok 0%R;
     curve_fit := exact_guess_solver;
     odr_run := fun _ _ _ _ _ _ => Raise RuntimeError;
     uarray_GUM := fun _ _ _ _ _ => Raise RuntimeError;
     sympy_lambdify := fun _ => Raise ValueError;
     py_int := R_int |}.

Definition real_rng : rng_api R nat :=
  {| rng_seed := fun z => Z.to_nat z;
     rng_normal := fun g scale =>
       ((scale * nth (g mod 4) [1 / 2; -1; 1 / 4; 3 / 2] 0)%R, S g);
     rng_uniform := fun g => (nth (g mod 3) [1 / 2; 1 / 8; 7 / 8]%R 0%R, S g) |}.

Definition real_no_york (x y : list R) (ux uy : option (list R))
    (absolute_sigma : bool) : result (list R * list (list R)) :=
  Raise RuntimeError.

Definition real_three_points_uy : Array R :=
  measured [0; 1; 2]%R [0; 1; 3]%R [0; 0; 0]%R [1 / 8; 1 / 8; 1 / 8]%R
    false true.


End examples.

(** ** [suncal/risk.py]: process risk and the [Risk] object *)

Module riskcalc.
Import risk.

Section Functions.
Context {A : Type} `{PyNum A}.
Local Open Scope num_scope.
Local Abbreviation rv_frozen := (@risk.rv_frozen A).
Local Abbreviation Risk := (@risk.Risk A).

(** [scipy.stats.norm.ppf] and the constructor
    [scipy.stats.norm(loc=..., scale=...)]. *)
Variable norm_ppf : A -> A.
Variable stats_norm : A -> A -> rv_frozen.

(** [process_risk(dist, LL, UL)]: the tuple
    [(cpk, risk_total, risk_lower, risk_upper)]. *)
Definition process_risk (dist : rv_frozen) (LL UL : A) : A * A * A * A :=
  let '(LL, UL) := (py_min LL UL, py_max LL UL) in
  let risk_lower := cdf dist LL in
  let risk_upper := lit 1 - cdf dist UL in
  let risk_total := risk_lower + risk_upper in
  let cpk :=
    if String.eqb (dist_name dist) "norm" then
      py_min ((UL - mean dist) / (lit 3 * std dist))
             ((mean dist - LL) / (lit 3 * std dist))
    else
      let cpk := py_max (lit 0)
                   (py_min (nabs (norm_ppf risk_lower) / lit 3)
                           (nabs (norm_ppf risk_upper) / lit 3)) in
      if (risk_lower >? frac 5 10) || (risk_upper >? frac 5 10)
      then - cpk else cpk in
  (cpk, risk_total, risk_lower, risk_upper).

(** *** Setters and getters of [Risk] *)

(** [set_testdist(testdist)] and [set_procdist(procdist)]; the argument
    may be [None]. *)
Definition set_testdist (self : Risk) (d : option rv_frozen) : Risk :=
  {| name := name self; description := description self;
     procdist := procdist self; testdist := d;
     speclimits := speclimits self; guardband := guardband self |}.

Definition set_procdist (self : Risk) (d : option rv_frozen) : Risk :=
  {| name := name self; description := description self;
     procdist := d; testdist := testdist self;
     speclimits := speclimits self; guardband := guardband self |}.

(** [cpk()] and [proc_risk()]; on [procdist = None] the call
    [dist.cdf] inside [process_risk] raises. *)
Definition cpk (self : Risk) : result (A * A * A * A) :=
  match procdist self with
  | None => Raise AttributeError
  | Some d => Ok (process_risk d (fst (speclimits self)) (snd (speclimits self)))
  end.

Definition proc_risk (self : Risk) : result A :=
  let* r := cpk self in
  let '(_, risk_total, _, _) := r in Ok risk_total.

(** [get_itp()] *)
Definition get_itp (self : Risk) : result A :=
  let* r := proc_risk self in Ok (lit 1 - r).

(** [get_tur()] *)
Definition get_tur (self : Risk) : result A :=
  let rng := (snd (speclimits self) - fst (speclimits self)) / lit 2 in
  match testdist self with
  | None => Raise AttributeError
  | Some d => let TL := std d * lit 2 in Ok (rng / TL)
  end.

(** [get_testmedian()] *)
Definition get_testmedian (self : Risk) : result A :=
  match testdist self with
  | None => Raise AttributeError
  | Some d => Ok (median d)
  end.

(** [set_testmedian(median)] *)
Definition set_testmedian (self : Risk) (m : A) : result Risk :=
  match testdist self with
  | None => Raise AttributeError
  | Some d =>
      let sigma := std d in
      Ok (set_testdist self (Some (stats_norm m sigma)))
  end.

(** [is_simple()] *)
Definition is_simple (self : Risk) : bool :=
  match procdist self, testdist self with
  | Some p, Some t =>
      if negb (median p ==? lit 0) then false
      else if negb (String.eqb (dist_name p) "norm")
              || negb (String.eqb (dist_name t) "norm") then false
      else if negb (snd (speclimits self) ==? lit 1)
              || negb (fst (speclimits self) ==? lit (-1)) then false
      else if negb (snd (guardband self) ==? fst (guardband self)) then false
      else true
  | _, _ => false
  end.

(** [to_simple()] *)
Definition to_simple (self : Risk) : result Risk :=
  if is_simple self then Ok self
  else
    let* tur := match testdist self with
                | Some _ => get_tur self
                | None => Ok (lit 4)
                end in
    let* itp := match procdist self with
                | Some _ => get_itp self
                | None => Ok (frac 95 100)
                end in
    let m := match testdist self with
             | Some d => median d
             | None => lit 0
             end in
    let gbf := get_gbf self in
    let self := set_speclimits self (lit (-1)) (lit 1) in
    let sigma0 := snd (speclimits self) / norm_ppf ((lit 1 + itp) / lit 2) in
    let self := set_procdist self (Some (stats_norm (lit 0) sigma0)) in
    let sigmat := lit 1 / tur / lit 2 in
    let self := set_testdist self (Some (stats_norm m sigmat)) in
    Ok (set_gbf self gbf).

(** [set_itp(itp)] *)
Definition set_itp (self : Risk) (itp : A) : result Risk :=
  let* self := to_simple self in
  let sigma := snd (speclimits self) / norm_ppf ((lit 1 + itp) / lit 2) in
  Ok (set_procdist self (Some (stats_norm (lit 0) sigma))).

(** [set_tur(tur)] *)
Definition set_tur (self : Risk) (tur : A) : result Risk :=
  let* self := to_simple self in
  let sigma := lit 1 / tur / lit 2 in
  let* m := get_testmedian self in
  Ok (set_testdist self (Some (stats_norm m sigma))).

(** *** Guard bands *)

(** Library functions of [guardband_norm]; the module's [PFA] with
    [approx=True], whose first step is [dist_proc.median()]; and
    [scipy.optimize.brentq], which answers with the root and whether it
    converged, or raises when the function does not change sign. *)
Variable np_exp np_log : A -> A.
Variable PFA_norm : A -> A -> A -> A.
Variable fsolve : (A -> A) -> A -> A.
Variable PFA_approx : rv_frozen -> rv_frozen -> A -> A -> A -> A -> A.
Variable brentq : (A -> A) -> A -> A -> result (A * bool).
Variable nan : A.

(** [guardband(dist_proc, dist_test, LL, UL, target_PFA, approx=True)] *)
Definition guardband (dist_proc dist_test : rv_frozen) (LL UL target_PFA : A)
    : result A :=
  let w := UL - (LL + UL) / lit 2 in
  match brentq (fun x => PFA_approx dist_proc dist_test LL UL x x - target_PFA)
               (- w / lit 2) (w / lit 2) with
  | Raise ValueError => Ok nan
  | Raise e => Raise e
  | Ok (gb, converged) => Ok (if converged then gb else nan)
  end.

(** [calc_guardband(method, pfa=None)].  The keyword [pfa] is always
    handed on, so with [pfa=None] method ['pfa'] subtracts [None] from a
    number at the first evaluation of the function to solve, a
    [TypeError]; the other methods do not read it. *)
Definition calc_guardband (self : Risk) (method : string) (pfa : option A)
    : result Risk :=
  if is_simple self || negb (String.eqb method "pfa") then
    let* tur := get_tur self in
    let* itp := get_itp self in
    match pfa with
    | None =>
        if String.eqb method "pfa" then Raise TypeError
        else
          let* gbf := guardband_norm np_exp np_log PFA_norm fsolve method tur
                        {[ "itp" := itp ]} in
          Ok (set_gbf self gbf)
    | Some target =>
        let* gbf := guardband_norm np_exp np_log PFA_norm fsolve method tur
                      {[ "pfa" := target; "itp" := itp ]} in
        Ok (set_gbf self gbf)
    end
  else
    match procdist self, testdist self, pfa with
    | Some p, Some t, Some target =>
        let* gb := guardband p t (fst (speclimits self))
                     (snd (speclimits self)) target in
        Ok (set_guardband self gb gb)
    | Some _, Some _, None => Raise TypeError
    | _, _, _ => Raise AttributeError
    end.

(** *** Configuration dictionaries *)

(** [customdists.get_config] and [customdists.from_config], on the
    dictionaries of type [D] that describe a distribution. *)
Context {D : Type}.
Variable dist_get_config : rv_frozen -> D.
Variable dist_from_config : D -> result rv_frozen.

(** A configuration dictionary whose entries, where present, have the
    types that [get_config] writes. *)
Record config : Type := {
  c_mode : option string;
  c_name : option string;
  c_desc : option string;
  c_distproc : option D;
  c_disttest : option D;
  c_GBL : option A;
  c_GBU : option A;
  c_LL : option A;
  c_UL : option A
}.

(** [get_config()] *)
Definition get_config (self : Risk) : config :=
  {| c_mode := Some "risk";
     c_name := Some (name self);
     c_desc := Some (description self);
     c_distproc := option_map dist_get_config (procdist self);
     c_disttest := option_map dist_get_config (testdist self);
     c_GBL := Some (fst (risk.guardband self));
     c_GBU := Some (snd (risk.guardband self));
     c_LL := Some (fst (speclimits self));
     c_UL := Some (snd (speclimits self)) |}.

(** [Risk(name)]: the object that [__init__] builds. *)
Variable customdists_normal : A -> rv_frozen.
Definition init (name : string) : Risk :=
  {| name := name; description := "";
     procdist := Some (customdists_normal (frac 51021346 100000000));
     testdist := Some (customdists_normal (frac 125 1000));
     speclimits := (lit (-1), lit 1);
     risk.guardband := (lit 0, lit 0) |}.

(** [from_config(config)] *)
Definition from_config (c : config) : result Risk :=
  let newrisk := init (default "risk" (c_name c)) in
  let newrisk :=
    {| name := name newrisk; description := default "" (c_desc c);
       procdist := procdist newrisk; testdist := testdist newrisk;
       speclimits := speclimits newrisk; risk.guardband := risk.guardband newrisk |} in
  let newrisk := set_speclimits newrisk (default (lit 0) (c_LL c))
                   (default (lit 0) (c_UL c)) in
  let newrisk := set_guardband newrisk (default (lit 0) (c_GBL c))
                   (default (lit 0) (c_GBU c)) in
  let* newrisk :=
    match c_distproc c with
    | Some dproc =>
        let* dist_proc := dist_from_config dproc in
        Ok (set_procdist newrisk (Some dist_proc))
    | None => Ok (set_procdist newrisk None)
    end in
  match c_disttest c with
  | Some dtest =>
      let* dist_test := dist_from_config dtest in
      Ok (set_testdist newrisk (Some dist_test))
  | None => Ok (set_testdist newrisk None)
  end.
End Functions.

End riskcalc.

(** ** [suncal/risk.py]: risk from sampled or tabulated distributions *)

Module riskdiscrete.
Import curvefit.

Section Discrete.
Context {A : Type} `{PyNum A}.
Local Open Scope num_scope.

(** [np.median] and [np.histogram(samples, bins='auto', density=True)],
    which answers with the densities and the bin edges. *)
Variable np_median : list A -> A.
Variable np_histogram : list A -> list A * list A.

(** A distribution argument: a tuple [(x, pdf(x))] on a grid, or an
    array of samples. *)
Inductive dist_arg : Type :=
| Grid (x y : list A)
| Samples (s : list A).

(** [np.trapz(y, dx=dx)]: the terms [dx * (y[i+1] + y[i]) / 2.0], added
    up (by numpy in its own order, here from left to right). *)
Definition np_trapz (y : list A) (dx : A) : A :=
  py_sum (map2 (fun b a => dx * (b + a) / lit 2) (tl y) y).

(** [ys[np.where(mask(xs))]]: the entries of [ys] at the positions where
    [xs] passes [mask]; a position past the end of [ys] is an
    [IndexError]. *)
Fixpoint take_where (mask : A -> bool) (xs ys : list A) : result (list A) :=
  match xs with
  | [] => Ok []
  | x :: xs' =>
      if mask x then
        match ys with
        | y :: ys' => let* r := take_where mask xs' ys' in Ok (y :: r)
        | [] => Raise IndexError
        end
      else take_where mask xs' (tl ys)
  end.

(** The first lines of both functions: the grid, the densities and the
    grid spacing of one argument. *)
Definition grid (d : dist_arg) : result (list A * list A * A) :=
  match d with
  | Grid x y =>
      let* x1 := nth_or x 1 IndexError in
      let* x0 := nth_or x 0 IndexError in
      Ok (x, y, x1 - x0)
  | Samples s =>
      let '(y, x) := np_histogram s in
      let* x1 := nth_or x 1 IndexError in
      let* x0 := nth_or x 0 IndexError in
      let d := x1 - x0 in
      Ok (map (fun v => v - d / lit 2) (tl x), y, d)
  end.

(** One pass of a loop [for t, ut in zip(...)]: the test densities at
    the grid points that [accept] selects once the test distribution is
    centred on [t], weighted by [ut] and integrated. *)
Definition add_mass (testx testy : list A) (testmed dx : A)
    (accept : A -> bool) (c : A) (tu : A * A) : result A :=
  let '(t, ut) := tu in
  let* sel := take_where (fun tx => accept (tx + t - testmed)) testx testy in
  Ok (c + np_trapz (map (fun ty => ut * ty) sel) dx).

(** [zip(procx[np.where(mask)], procy[np.where(mask)])] *)
Definition zip_where (mask : A -> bool) (procx procy : list A)
    : result (list (A * A)) :=
  let* ys := take_where mask procx procy in
  Ok (combine (filter mask procx) ys).

(** [_PFA_discrete(dist_proc, dist_test, LL, UL, GBL, GBU)] *)
Definition _PFA_discrete (dist_proc dist_test : dist_arg)
    (LL UL GBL GBU : A) : result A :=
  let* (procx, procy, dy) := grid dist_proc in
  let* (testx, testy, dx) := grid dist_test in
  let testmed := np_median testx in
  let c := lit 0 in
  let* above := zip_where (fun t => t >? UL) procx procy in
  let* c := fold_result
              (add_mass testx testy testmed dx (fun v => v <? UL - GBU))
              above c in
  let* below := zip_where (fun t => t <? LL) procx procy in
  let* c := fold_result
              (add_mass testx testy testmed dx (fun v => v >? LL + GBL))
              below c in
  Ok (c * dy).

(** [_PFR_discrete(dist_proc, dist_test, LL, UL, GBL, GBU)] *)
Definition _PFR_discrete (dist_proc dist_test : dist_arg)
    (LL UL GBL GBU : A) : result A :=
  let* (procx, procy, dy) := grid dist_proc in
  let* (testx, testy, dx) := grid dist_test in
  let testmed := np_median testx in
  let c := lit 0 in
  let* inside := zip_where (fun t => (t >? LL) && (t <? UL)) procx procy in
  let* c := fold_result
              (fun c tu =>
                 let* c := add_mass testx testy testmed dx
                             (fun v => v >? UL - GBU) c tu in
                 add_mass testx testy testmed dx
                   (fun v => v <? LL + GBL) c tu)
              inside c in
  Ok (c * dy).
End Discrete.
Arguments dist_arg : clear implicits.

End riskdiscrete.

(** ** Examples of distributions *)

Module risk_examples.
Import risk.

(** A location-scale family: the distribution of [loc + scale * Z] for a
    variable [Z] with median and mean [0], standard deviation [1] and
    distribution function [Phi].  [scipy.stats.norm(loc, scale)] is such
    a family, with [Phi] the standard normal distribution function. *)
Definition location_scale {A : Type} `{PyNum A} (family : string)
    (Phi : A -> A) (loc scale : A) : rv_frozen :=
  {| dist_name := family;
     dist_loc := loc;
     median := loc;
     mean := loc;
     std := scale;
     cdf := fun x => Phi ((x - loc) / scale)%num |}.

(** The distribution function of a variable spread evenly over
    [[-r, r]], and its inverse on [(0, 1)].  For [r = sqrt 3] the
    variable has standard deviation [1]. *)
Definition ramp (r x : R) : R :=
  if Rle_dec x (- r) then 0%R
  else if Rle_dec r x then 1%R
  else ((x / r + 1) / 2)%R.

Definition ramp_ppf (r p : R) : R := (r * (2 * p - 1))%R.

(** A stand-in for scipy's normal family in the examples: it has the
    name, the median, the mean and the standard deviation of
    [norm(loc, scale)]; its distribution function is that of the even
    spread with the same standard deviation, which is symmetric and has
    an inverse as the normal one has. *)
Definition even_norm (loc scale : R) : rv_frozen :=
  location_scale "norm" (ramp (sqrt 3)) loc scale.

Definition even_ppf (p : R) : R := ramp_ppf (sqrt 3) p.

(** A [Risk] object with both distributions of that family. *)
Definition even_risk : Risk :=
  {| name := "risk"; description := "";
     procdist := Some (even_norm 0 (1 / 2));
     testdist := Some (even_norm 0 (1 / 8));
     speclimits := ((-2)%R, 2%R);
     guardband := (0%R, 0%R) |}.

End risk_examples.

(** ** Examples of fits *)

Module fit_examples.
Import curvefit examples.

(** The line fit of [three_points_uy] as an object; [set_fitfunc] does
    not fail on the name ['line']. *)
Definition float_line_fit_uy : CurveFit float :=
  match line_fit_uy with
  | Ok fit => fit
  | Raise _ => blank three_points_uy "curvefit" "" None false true
  end.

(** A sampler that draws nothing: every resample is the measured data. *)
Definition no_clear (a : Array float) : Array float := a.
Definition repeat_sample (a : Array float) (n : nat) (g : nat)
    : Array float * nat :=
  ({| arr_x := arr_x a; arr_y := arr_y a; arr_ux := arr_ux a;
      arr_uy := arr_uy a; uy_estimate := uy_estimate a;
      xsamples := Some (repeat (arr_x a) n);
      ysamples := Some (repeat (arr_y a) n);
      has_ux := has_ux a; has_uy := has_uy a |}, g).

End fit_examples.

(** ** Invariants of the chain *)

Module chain_invariants.
Import curvefit.

Section Shapes.
Context {A : Type} `{PyNum A} {G : Type}.

(** The chain during the loop of [calc_MCMC]: the trace and the matrix
    grow together, every row has [numparams] entries, there are [n]
    acceptance counts, and a variance that is not varied stays [sig2]. *)
Definition well_shaped (self : CurveFit A) (n : nat)
    (varysigma : option (A * (A * A))) (sig2 : A) (st : chain A G) : Prop :=
  length (ch_sig2trace st) = length (ch_coeffs st)
  /\ List.Forall (fun row => length row = numparams self) (ch_coeffs st)
  /\ length (ch_accepts st) = n
  /\ (varysigma = None ->
      ch_sig2 st = sig2 /\ List.Forall (fun s => s = sig2) (ch_sig2trace st)).
End Shapes.

End chain_invariants.

(** ** Priors and bounds of the chain *)

Module prior_invariants.
Import curvefit.

Section Bounds.
Local Open Scope R_scope.

(** A prior as [set_fitfunc] makes it from one pair of bounds. *)
Definition bound_prior (ab : R * R) : R -> R :=
  fun x => (if (x >? fst ab) && (x <=? snd ab) then lit 1 else lit 0)%num.

(** Every entry of [row] lies in the interval [(lo_j, hi_j]] of its
    parameter. *)
Definition inside_bounds (lo hi row : list R) : Prop :=
  forall (j : nat) (v a b : R),
    nth_error row j = Some v -> nth_error lo j = Some a ->
    nth_error hi j = Some b -> a < v <= b.

(** Every entry of [p] has a positive prior. *)
Definition admitted (priors : list (R -> R)) (p : list R) : Prop :=
  forall (j : nat) (f : R -> R) (v : R),
    nth_error priors j = Some f -> nth_error p j = Some v -> 0 < f v.

(** A row that numpy made by repeating the one entry of a parameter
    vector over [k] columns. *)
Definition broadcast_row (k : nat) (row : list R) : Prop :=
  k <> 1%nat /\ exists a : R, row = repeat a k.

(** The chain during the loop of [calc_MCMC]: the parameter vector has
    [n] entries of positive prior, and each row written so far is what
    [row[:] = p] made of such a vector. *)
Definition rows_admitted {G : Type} (self : CurveFit R)
    (priors : list (R -> R)) (n : nat) (st : chain R G) : Prop :=
  admitted priors (ch_p st) /\ length (ch_p st) = n
  /\ List.Forall
       (fun row => exists p, admitted priors p /\ length p = n
                             /\ assign_row (numparams self) p = Ok row)
       (ch_coeffs st).
End Bounds.

End prior_invariants.

(** * Closed forms and invariants *)

(** The quantities that the properties below compare the code with. *)

Module closed_forms.
Import curvefit.

Section LineFitArith.
Context {A : Type} `{PyNum A}.
Local Open Scope num_scope.

(** The arithmetic of [linefit] on arrays of one length, where no
    operation raises: what [linefit] returns there. *)
Definition linefit_arith (x y sig : list A) (absolute_sigma : bool)
    : list A * list (list A) :=
  let sig := broadcast_sig x sig in
  let '(ss, sx, sy, sxoss, st2, b) :=
    if bool_gt_0 (py_all sig) then
      let wt := map (fun s => lit 1 / sq s) sig in
      let ss := py_sum wt in
      let sx := py_sum (map2 nmul x wt) in
      let sy := py_sum (map2 nmul y wt) in
      let sxoss := sx / ss in
      let t := map2 ndiv (map (fun xi => xi - sxoss) x) sig in
      let st2 := py_sum (map2 nmul t t) in
      let b := py_sum (map2 ndiv (map2 nmul t y) sig) / st2 in
      (ss, sx, sy, sxoss, st2, b)
    else
      let sx := py_sum x in
      let sy := py_sum y in
      let ss := len x in
      let sxoss := sx / ss in
      let t := map (fun xi => xi - sxoss) x in
      let st2 := py_sum (map2 nmul t t) in
      let b := py_sum (map2 nmul t y) / st2 in
      (ss, sx, sy, sxoss, st2, b) in
  let a := (sy - sx * b) / ss in
  let siga := nsqrt ((lit 1 + sx * sx / (ss * st2)) / ss) in
  let sigb := nsqrt (lit 1 / st2) in
  let resid := py_sum (map2 (fun yi xi => sq (yi - a - b * xi)) y x) in
  let syx := nsqrt (resid / num_of_Z (Z.of_nat (length x) - 2)) in
  let cov := - sxoss * sq sigb in
  let '(siga, sigb, cov) :=
    if negb (bool_gt_0 (py_all sig)) then
      (siga * syx, sigb * syx, cov * syx * syx)
    else if negb absolute_sigma then
      let chi2 :=
        py_sum (map2 (fun r s => sq (r / s))
                  (map2 (fun yi xi => yi - a - b * xi) y x) sig)
        / num_of_Z (Z.of_nat (length x) - 2) in
      (nsqrt (sq siga * chi2), nsqrt (sq sigb * chi2), cov * chi2)
    else (siga, sigb, cov) in
  ([b; a], [[sq sigb; cov]; [cov; sq siga]]).


(** The fit without weights, as the specification words it: the sums
    are plain sums, and [siga], [sigb] and [cov] are multiplied by the
    residual estimate [syx] (by its square for [cov]).  It reads neither
    [sig] nor [absolute_sigma]. *)
Definition unweighted_line (x y : list A)
    : result (list A * list (list A)) :=
  let sx := py_sum x in
  let sy := py_sum y in
  let ss := len x in
  let* sxoss := match x with
                | [] => Raise ZeroDivisionError
                | _ => Ok (sx / ss)
                end in
  let t := map (fun xi => xi - sxoss) x in
  let tt := map2 nmul t t in
  let st2 := py_sum tt in
  let* ty := np_map2 nmul t y in
  let* b := div_sums ty tt in
  let a := (sy - sx * b) / ss in
  let siga := nsqrt ((lit 1 + sx * sx / (ss * st2)) / ss) in
  let sigb := nsqrt (lit 1 / st2) in
  let* r2 := np_map2 (fun yi xi => sq (yi - a - b * xi)) y x in
  let* var := div_sum_int r2 (Z.of_nat (length x) - 2) in
  let syx := nsqrt var in
  let cov := - sxoss * sq sigb in
  Ok ([b; a],
      [[sq (sigb * syx); cov * syx * syx];
       [cov * syx * syx; sq (siga * syx)]]).
End LineFitArith.

Section LineFitExact.
Local Open Scope R_scope.
Variables x y : list R.

(** The unweighted fit as the specification words it: sums without
    weights, then [siga], [sigb] and [cov] multiplied by the residual
    estimate [syx] (by its square for the covariance entries). *)
Definition line_mean : R := py_sum x / len x.
Definition line_t : list R := map (fun xi => xi - line_mean) x.
Definition line_st2 : R := py_sum (map2 Rmult line_t line_t).
Definition line_slope : R := py_sum (map2 Rmult line_t y) / line_st2.
Definition line_intercept : R :=
  (py_sum y - py_sum x * line_slope) / len x.
Definition line_syx : R :=
  sqrt (py_sum (map2 (fun yi xi =>
                        (yi - line_intercept - line_slope * xi)
                        * (yi - line_intercept - line_slope * xi)) y x)
        / IZR (Z.of_nat (length x) - 2)).
Definition line_var_slope : R := 1 / line_st2.
Definition line_var_intercept : R :=
  (1 + py_sum x * py_sum x / (len x * line_st2)) / len x.
Definition line_covar : R := - line_mean * line_var_slope.

(** The covariance matrix with every entry multiplied by [k]. *)
Definition scaled_cov (k : R) : list (list R) :=
  [[line_var_slope * k; line_covar * k];
   [line_covar * k; line_var_intercept * k]].

Definition unweighted_fit : list R * list (list R) :=
  ([line_slope; line_intercept], scaled_cov (line_syx * line_syx)).
End LineFitExact.

Section ChainInvariants.
Context {G : Type}.
Local Open Scope R_scope.

(** Within one sweep, after the parameters below [j]: every count is
    the count [old] at the start of the sweep, or one more, and only the
    counts below [j] can have grown. *)
Definition bumped (j : nat) (old cur : list R) : Prop :=
  forall k : nat,
    nth k cur 0 = nth k old 0
    \/ ((k < j)%nat /\ nth k cur 0 = nth k old 0 + 1).

(** The counts of a chain lie between [0] and [m]. *)
Definition counts_within (m : R) (st : chain R G) : Prop :=
  forall k : nat, 0 <= nth k (ch_accepts st) 0 <= m.
End ChainInvariants.
End closed_forms.

(** * Properties *)

(** ** Results *)

Lemma Ok_inv {T : Type} (a b : T) : Ok a = Ok b -> a = b.
Proof. intros Heq. now injection Heq. Qed.

Lemma Ok_pair_inv {T U : Type} (a a' : T) (b b' : U) :
  Ok (a, b) = Ok (a', b') -> a = a' /\ b = b'.
Proof. intros Heq. injection Heq as -> ->. now split. Qed.

(** ** Comparisons of real numbers *)

Lemma Rltb_true (a b : R) : Rltb a b = true <-> (a < b)%R.
Proof. unfold Rltb. destruct (Rlt_dec a b); split; intros; congruence || lra. Qed.

Lemma Rleb_true (a b : R) : Rleb a b = true <-> (a <= b)%R.
Proof. unfold Rleb. destruct (Rle_dec a b); split; intros; congruence || lra. Qed.

Lemma Reqb_true (a b : R) : Reqb a b = true <-> a = b.
Proof. unfold Reqb. destruct (Req_dec_T a b); split; intros; congruence. Qed.

Lemma Rltb_false (a b : R) : Rltb a b = false <-> (b <= a)%R.
Proof. unfold Rltb. destruct (Rlt_dec a b); split; intros; congruence || lra. Qed.

Lemma Rleb_false (a b : R) : Rleb a b = false <-> (b < a)%R.
Proof. unfold Rleb. destruct (Rle_dec a b); split; intros; congruence || lra. Qed.

Lemma Reqb_false (a b : R) : Reqb a b = false <-> a <> b.
Proof. unfold Reqb. destruct (Req_dec_T a b); split; intros; congruence. Qed.

(** Unfolds the number interface at [R]. *)
Ltac at_R :=
  cbn [num_of_Z nadd nsub nmul ndiv nneg nsqrt nabs nltb nleb neqb R_PyNum
       lit frac sq] in *.

(** ** Sums and elementwise operations *)

Section Map2Facts.
Context {A : Type} `{PyNum A}.

Lemma map2_combine (f : A -> A -> A) (l1 l2 : list A) :
  map2 f l1 l2 = map (fun p => f (fst p) (snd p)) (combine l1 l2).
Proof.
  revert l2. induction l1 as [| a l1 IH]; intros [| b l2]; cbn; try reflexivity.
  now rewrite IH.
Qed.

Lemma map2_repeat_r (f : A -> A -> A) (l : list A) (v : A) :
  map2 f l (repeat v (length l)) = map (fun a => f a v) l.
Proof. induction l as [| a l IH]; cbn; [reflexivity | now rewrite IH]. Qed.

Lemma map2_map_l (f : A -> A -> A) (g : A -> A) (l1 l2 : list A) :
  map2 f (map g l1) l2 = map2 (fun a b => f (g a) b) l1 l2.
Proof.
  revert l2. induction l1 as [| a l1 IH]; intros [| b l2]; cbn; try reflexivity.
  now rewrite IH.
Qed.

Lemma map2_map2_l (f g : A -> A -> A) (l1 l2 : list A) :
  map2 f (map2 g l1 l2) l2 = map2 (fun a b => f (g a b) b) l1 l2.
Proof.
  revert l2. induction l1 as [| a l1 IH]; intros [| b l2]; cbn; try reflexivity.
  now rewrite IH.
Qed.

Lemma map2_diag (f : A -> A -> A) (l : list A) :
  map2 f l l = map (fun a => f a a) l.
Proof. induction l as [| a l IH]; cbn; [reflexivity | now rewrite IH]. Qed.

Lemma map2_swap (f : A -> A -> A) (l1 l2 : list A) :
  map2 f l1 l2 = map2 (fun b a => f a b) l2 l1.
Proof.
  revert l2. induction l1 as [| a l1 IH]; intros [| b l2]; cbn; try reflexivity.
  now rewrite IH.
Qed.

Lemma map2_ext (f g : A -> A -> A) (l1 l2 : list A) :
  (forall a b, f a b = g a b) -> map2 f l1 l2 = map2 g l1 l2.
Proof.
  intros Hfg. revert l2.
  induction l1 as [| a l1 IH]; intros [| b l2]; cbn; try reflexivity.
  now rewrite Hfg, IH.
Qed.
End Map2Facts.

Section RealSums.
Local Open Scope R_scope.

Lemma fold_left_Rplus_acc (l : list R) (a : R) :
  fold_left Rplus l a = a + fold_left Rplus l 0.
Proof.
  revert a. induction l as [| v l IH]; intros a; cbn.
  - lra.
  - rewrite IH, (IH (0 + v)). lra.
Qed.

Lemma py_sum_nil : py_sum (A := R) [] = 0.
Proof. reflexivity. Qed.

Lemma py_sum_cons (v : R) (l : list R) : py_sum (v :: l) = v + py_sum l.
Proof.
  unfold py_sum. cbn. rewrite fold_left_Rplus_acc. at_R. lra.
Qed.

Lemma py_sum_map_scale {T : Type} (f g : T -> R) (k : R) (l : list T) :
  (forall v, f v = g v * k) ->
  py_sum (map f l) = py_sum (map g l) * k.
Proof.
  intros Hfg. induction l as [| v l IH]; cbn [map].
  - rewrite py_sum_nil. lra.
  - rewrite !py_sum_cons, IH, Hfg. lra.
Qed.

Lemma py_sum_map_ext {T : Type} (f g : T -> R) (l : list T) :
  (forall v, f v = g v) -> py_sum (map f l) = py_sum (map g l).
Proof. intros Hfg. f_equal. apply map_ext, Hfg. Qed.

Lemma py_sum_repeat (v : R) (n : nat) : py_sum (repeat v n) = INR n * v.
Proof.
  induction n as [| n IH].
  - cbn [repeat INR]. rewrite py_sum_nil. lra.
  - cbn [repeat]. rewrite py_sum_cons, IH, S_INR. lra.
Qed.

Lemma py_sum_map_nonneg {T : Type} (f : T -> R) (l : list T) :
  (forall v, 0 <= f v) -> 0 <= py_sum (map f l).
Proof.
  intros Hf. induction l as [| v l IH]; cbn [map].
  - rewrite py_sum_nil. lra.
  - rewrite py_sum_cons. specialize (Hf v). lra.
Qed.

Lemma len_INR (l : list R) : len l = INR (length l).
Proof. unfold len. at_R. now rewrite INR_IZR_INZ. Qed.
End RealSums.

(** ** Loading a configuration file *)

Module configfile_facts.
Import configfile.

Section LoaderFacts.
Context {T : Type}.
Variable open_read : string -> result string.
Variable safe_load : string -> result yaml.
Variable from_config : yaml -> result T.

(** X3: [from_configfile] answers [None] in two cases only: the text
    could not be decoded, or the YAML scanner rejected it. *)
Lemma from_configfile_none_iff (fname : file_arg) :
  from_configfile open_read safe_load from_config fname = Ok None
  <-> read_text open_read fname = Raise UnicodeDecodeError
      \/ exists yml, read_text open_read fname = Ok yml
                     /\ safe_load yml = Raise YamlScannerError.
Proof.
  unfold from_configfile. split.
  - destruct (read_text open_read fname) as [yml | e] eqn:Hread.
    + destruct (safe_load yml) as [config | e] eqn:Hload.
      * destruct (getitem0 config) as [c0 | e]; cbn; [| discriminate].
        destruct (from_config c0); cbn; discriminate.
      * destruct e; try discriminate. intros _. right. now exists yml.
    + destruct e; try discriminate. intros _. now left.
  - intros [-> | (yml & -> & ->)]; reflexivity.
Qed.

(** Every other exception of the YAML library leaves [from_configfile]
    as it was raised. *)
Lemma from_configfile_yaml_error_escapes (fname : file_arg) (yml : string) (e : exn) :
  read_text open_read fname = Ok yml ->
  safe_load yml = Raise e ->
  e <> YamlScannerError ->
  from_configfile open_read safe_load from_config fname = Raise e.
Proof.
  intros Hread Hload Hne. unfold from_configfile. rewrite Hread, Hload.
  destruct e; try reflexivity. contradiction.
Qed.
End LoaderFacts.

(** C4 at a failing input: a text file holding [[1, 2] without the
    closing bracket, opened by path or passed as an open file.  The text
    is decodable and is not valid YAML; the parser's [ParserError] is not
    caught and leaves [from_configfile], for whichever class loads it. *)
Theorem from_configfile_parser_error_escapes :
  forall (T : Type) (from_config : yaml -> result T),
    from_configfile sample_open_read sample_safe_load from_config
      (FilePath "broken.yaml") = Raise YamlParserError
    /\ from_configfile sample_open_read sample_safe_load from_config
         (FileObj (Ok "[1, 2")) = Raise YamlParserError.
Proof. intros T from_config. split; reflexivity. Qed.

End configfile_facts.

(** ** Guard-band factors *)

Module risk_facts.
Import risk.




(** ** Guard-band factor and offsets *)

(** C6, in exact arithmetic: with [LL < UL], [set_gbf g] installs the
    offsets [GBL = GBU = ((UL - LL)/2) * (1 - g)] and [get_gbf] then
    returns [g]. *)
Theorem set_gbf_get_gbf_exact :
  forall (self : Risk (A := R)) (g : R),
    (fst (speclimits self) < snd (speclimits self))%R ->
    let gb := ((snd (speclimits self) - fst (speclimits self)) / 2 * (1 - g))%R in
    guardband (set_gbf self g) = (gb, gb)
    /\ speclimits (set_gbf self g) = speclimits self
    /\ get_gbf (set_gbf self g) = g.
Proof.
  intros self g Hlim gb. subst gb.
  unfold get_gbf, set_gbf, set_guardband. cbn [guardband speclimits fst snd].
  at_R. repeat split. field. lra.
Qed.

Lemma set_gbf_get_gbf_exact_witness :
  get_gbf (set_gbf (default_risk (A := R) None None) (1 / 2)%R) = (1 / 2)%R.
Proof.
  refine (proj2 (proj2 (set_gbf_get_gbf_exact (default_risk None None) (1 / 2)%R _))).
  cbn. lra.
Defined.

(** C6, in binary64: on the default limits [(-1, 1)] the factor [0.1]
    comes back as [0.09999999999999998], which [==] tells apart from
    [0.1]. *)
Lemma set_gbf_get_gbf_rounds :
  let r := default_risk (A := float) None None in
  (fst (speclimits r) <? snd (speclimits r))%num = true
  /\ get_gbf (set_gbf r 0.1%float) = 0.09999999999999998%float
  /\ (get_gbf (set_gbf r 0.1%float) ==? 0.1%float)%num = false
  /\ get_gbf (set_gbf r 0.1%float) <> 0.1%float.
Proof.
  repeat split; try (vm_compute; reflexivity).
  intros Heq.
  apply (f_equal (PrimFloat.eqb 0.1%float)) in Heq.
  vm_compute in Heq. discriminate Heq.
Qed.

(** ** Risk of one test measurement *)

(** What [test_risk] compares the median with: both ends of the interval
    are moved by the lower offset [GBL]. *)
Lemma test_risk_accept_iff :
  forall (self : Risk (A := R)) (d : rv_frozen) (PFx : R) (accept : bool),
    testdist self = Some d ->
    test_risk self = Ok (PFx, accept) ->
    let LL := Rmin (fst (speclimits self)) (snd (speclimits self)) in
    let UL := Rmax (fst (speclimits self)) (snd (speclimits self)) in
    let GBL := fst (guardband self) in
    (accept = true <-> (LL + GBL <= median d <= UL - GBL)%R)
    /\ PFx = (if accept then cdf d LL + (1 - cdf d UL)
              else Rabs (cdf d LL - cdf d UL))%R.
Proof.
  intros self d PFx accept Hd Hrun LL UL GBL.
  unfold test_risk in Hrun. rewrite Hd in Hrun.
  destruct (speclimits self) as [l u] eqn:Hsl.
  cbn [fst snd] in *. at_R.
  assert (Hmin : py_min l u = LL).
  { subst LL. unfold py_min. at_R. unfold Rmin.
    destruct (Rle_dec l u) as [Hle | Hnle].
    - assert (Hf : Rltb u l = false) by (apply Rltb_false; lra).
      now rewrite Hf.
    - assert (Ht : Rltb u l = true) by (apply Rltb_true; lra).
      now rewrite Ht. }
  assert (Hmax : py_max l u = UL).
  { subst UL. unfold py_max. at_R. unfold Rmax.
    destruct (Rle_dec l u) as [Hle | Hnle].
    - destruct (Rlt_dec l u) as [Hlt | Hnlt].
      + assert (Ht : Rltb l u = true) by (apply Rltb_true; lra).
        now rewrite Ht.
      + assert (Hf : Rltb l u = false) by (apply Rltb_false; lra).
        rewrite Hf. lra.
    - assert (Hf : Rltb l u = false) by (apply Rltb_false; lra).
      now rewrite Hf. }
  rewrite Hmin, Hmax in Hrun. fold GBL in Hrun.
  injection Hrun as HP Ha. split.
  - rewrite <- Ha, andb_true_iff, !Rleb_true. tauto.
  - rewrite <- HP, <- Ha. reflexivity.
Qed.

(** C1 at a failing input, binary64: limits [(-1, 1)], guard band
    [(GBL, GBU) = (0, 0.5)], test median [0.75].  The median is above
    [UL - GBU = 0.5], yet the measurement is accepted, and the risk
    reported is the accept-side [CDF(LL) + (1 - CDF(UL))]. *)
Theorem test_risk_ignores_upper_offset :
  let d := uniform_dist (A := float) 0.5%float 0.5%float in
  let r := set_guardband (default_risk None (Some d)) 0%float 0.5%float in
  median d = 0.75%float
  /\ (median d <=? snd (speclimits r) - snd (guardband r))%num = false
  /\ test_risk r = Ok ((cdf d (-1) + (1 - cdf d 1))%float, true).
Proof. repeat split; vm_compute; reflexivity. Qed.

(** ** Monte Carlo risk *)

(** The false-accept mask of [PFAR_MC], read as a condition on a
    sample pair: the process sample is beyond one specification limit
    and the test sample is on the accepting side of that limit's
    acceptance limit. *)
Lemma FA_mask_iff (LL UL GBL GBU p t : R) :
  FA_mask LL UL GBL GBU p t = true
  <-> ((UL < p /\ t < UL - GBU) \/ (p < LL /\ LL + GBL < t))%R.
Proof.
  unfold FA_mask. at_R.
  rewrite orb_true_iff, !andb_true_iff, !Rltb_true. tauto.
Qed.

(** The false-reject mask of [PFAR_MC]: the process sample is on
    the inner side of one specification limit and the test sample is
    beyond that limit's acceptance limit. *)
Lemma FR_mask_iff (LL UL GBL GBU p t : R) :
  FR_mask LL UL GBL GBU p t = true
  <-> ((p < UL /\ UL - GBU < t) \/ (LL < p /\ t < LL + GBL))%R.
Proof.
  unfold FR_mask. at_R.
  rewrite orb_true_iff, !andb_true_iff, !Rltb_true. tauto.
Qed.

(** C2 at a failing input, binary64: one draw, process sample [-2], test
    sample [2], limits [(-1, 1)], no guard band.  The process sample is
    below [LL], so it is not inside the limits, and the pair is counted
    as a false reject all the same: [PFR = 1] (it is counted as a false
    accept as well, the test sample being above [LL + GBL]). *)
Theorem PFAR_MC_counts_out_of_tolerance_reject :
  let d := uniform_dist (A := float) (-4)%float 8%float in
  let LL := (-1)%float in
  let UL := 1%float in
  let p := (-2)%float in
  let t := 2%float in
  (p >? LL)%num = false
  /\ (t >? UL - 0%float)%num = true
  /\ PFAR_MC (fun _ => [p]) (fun _ => [t]) d LL UL 0%float 0%float 1
     = (1%float, 1%float, [p], [t]).
Proof. repeat split; vm_compute; reflexivity. Qed.

End risk_facts.

(** ** The line fit in exact arithmetic *)

Module curvefit_facts.
Import curvefit closed_forms.

(** *** Arrays of one length *)

Section SameLength.
Context {A : Type} `{PyNum A}.
Local Open Scope num_scope.

Lemma length_map2 (f : A -> A -> A) (l1 l2 : list A) :
  length (map2 f l1 l2) = Nat.min (length l1) (length l2).
Proof.
  revert l2. induction l1 as [| a l1 IH]; intros [| b l2]; cbn [map2 length];
    try reflexivity.
  now rewrite IH.
Qed.

Lemma np_map2_same_length (f : A -> A -> A) (l1 l2 : list A) :
  length l2 = length l1 -> np_map2 f l1 l2 = Ok (map2 f l1 l2).
Proof.
  intros Hlen. unfold np_map2. now rewrite Hlen, Nat.eqb_refl.
Qed.

Lemma nonempty_length {T : Type} (l : list T) :
  l <> [] <-> length l <> 0%nat.
Proof. destruct l; cbn; split; intros Hl; congruence || lia. Qed.

Lemma div_sums_nonempty (u v : list A) :
  u <> [] -> div_sums u v = Ok (py_sum u / py_sum v).
Proof. intros Hu. destruct u; [contradiction | reflexivity]. Qed.

Lemma div_sum_int_nonempty (u : list A) (n : Z) :
  u <> [] -> div_sum_int u n = Ok (py_sum u / num_of_Z n).
Proof. intros Hu. destruct u; [contradiction | reflexivity]. Qed.

(** On arrays of one length, not empty, [linefit] does not raise: it
    returns the arithmetic of the branch it takes. *)
Lemma linefit_same_length (x y sig : list A) (absolute_sigma : bool) :
  x <> [] ->
  length y = length x ->
  (bool_gt_0 (py_all (broadcast_sig x sig)) = true ->
   length (broadcast_sig x sig) = length x) ->
  linefit x y sig absolute_sigma = Ok (linefit_arith x y sig absolute_sigma).
Proof.
  intros Hx Hy Hs. unfold linefit, linefit_by, linefit_arith.
  set (s := broadcast_sig x sig) in *.
  apply nonempty_length in Hx.
  assert (Hne : forall (f : A -> A -> A) (l1 l2 : list A),
            length l1 = length x -> length l2 = length x ->
            map2 f l1 l2 <> []).
  { intros f l1 l2 H1 H2. apply nonempty_length.
    rewrite length_map2, H1, H2, Nat.min_id. exact Hx. }
  assert (Hl2 : forall (f : A -> A -> A) (l1 l2 : list A),
            length l1 = length x -> length l2 = length x ->
            length (map2 f l1 l2) = length x).
  { intros f l1 l2 H1 H2. now rewrite length_map2, H1, H2, Nat.min_id. }
  destruct (bool_gt_0 (py_all s)) eqn:Hall.
  - specialize (Hs eq_refl).
    rewrite (np_map2_same_length nmul x) by (rewrite length_map; exact Hs).
    cbn [bind].
    rewrite (np_map2_same_length nmul y)
      by (rewrite length_map; congruence).
    cbn [bind].
    rewrite div_sums_nonempty
      by (apply Hne; [reflexivity | rewrite length_map; exact Hs]).
    cbn [bind].
    rewrite (np_map2_same_length ndiv) by (rewrite length_map; exact Hs).
    cbn [bind].
    set (t := map2 ndiv _ s).
    assert (Ht : length t = length x).
    { unfold t. apply Hl2; [apply length_map | exact Hs]. }
    rewrite (np_map2_same_length nmul t y) by congruence. cbn [bind].
    rewrite (np_map2_same_length ndiv (map2 nmul t y) s)
      by (rewrite Hl2; congruence).
    cbn [bind].
    rewrite div_sums_nonempty
      by (apply Hne; [now apply Hl2 | exact Hs]).
    cbn [bind negb].
    rewrite (np_map2_same_length _ y x) by congruence. cbn [bind].
    rewrite div_sum_int_nonempty by (apply Hne; [exact Hy | reflexivity]).
    cbn [bind].
    destruct absolute_sigma; cbn [negb bind]; [reflexivity |].
    rewrite (np_map2_same_length _ y x) by congruence. cbn [bind].
    rewrite np_map2_same_length by (rewrite Hl2; congruence).
    cbn [bind].
    rewrite div_sum_int_nonempty
      by (apply Hne; [now apply Hl2 | exact Hs]).
    reflexivity.
  - destruct x as [| x0 x']; [cbn in Hx; congruence |].
    cbn [bind].
    set (t := map (fun xi => xi - _) (x0 :: x')).
    assert (Ht : length t = length (x0 :: x')) by apply length_map.
    rewrite (np_map2_same_length nmul t y) by congruence. cbn [bind].
    rewrite div_sums_nonempty by (apply Hne; congruence).
    cbn [bind negb].
    rewrite (np_map2_same_length _ y (x0 :: x')) by congruence.
    cbn [bind].
    rewrite div_sum_int_nonempty by (apply Hne; [exact Hy | reflexivity]).
    reflexivity.
Qed.

(** *** The branch of [linefit] *)

Lemma bool_gt_0_id (b : bool) : bool_gt_0 b = b.
Proof. now destruct b. Qed.

Lemma py_all_true_iff_tests (s : list A) :
  bool_gt_0 (py_all s) = true
  <-> Forall (fun v => (v ==? lit 0) = false) s.
Proof.
  rewrite bool_gt_0_id. unfold py_all.
  induction s as [| v s IH]; cbn [forallb].
  - split; [constructor | reflexivity].
  - rewrite andb_true_iff, IH. unfold truthy. rewrite negb_true_iff. split.
    + intros [Hv Hs]. now constructor.
    + intros Hs. inversion Hs. now split.
Qed.

Lemma py_all_false_of_zero_test (s : list A) :
  Exists (fun v => (v ==? lit 0) = true) s -> bool_gt_0 (py_all s) = false.
Proof.
  intros Hex. destruct (bool_gt_0 (py_all s)) eqn:Hall; [| reflexivity].
  apply py_all_true_iff_tests in Hall. rewrite List.Forall_forall in Hall.
  apply List.Exists_exists in Hex as (v & Hin & Hv).
  specialize (Hall v Hin). congruence.
Qed.


(** With a zero among the uncertainties [linefit] is the fit without
    weights, whatever the other uncertainties, [absolute_sigma] and the
    division by elements of [sig] are. *)
Lemma linefit_by_zero_branch (dv : A -> A -> A) (x y sig : list A)
    (absolute_sigma : bool) :
  bool_gt_0 (py_all (broadcast_sig x sig)) = false ->
  linefit_by dv x y sig absolute_sigma = unweighted_line x y.
Proof.
  intros Hall. unfold linefit_by, unweighted_line. rewrite Hall.
  destruct x as [| x0 x']; [reflexivity |]. cbn [bind].
  destruct (np_map2 nmul _ y) as [ty | e]; [| reflexivity]. cbn [bind].
  destruct (div_sums ty _) as [b | e]; [| reflexivity]. cbn [bind].
  destruct (np_map2 _ y (x0 :: x')) as [r2 | e]; [| reflexivity].
  cbn [bind].
  destruct (div_sum_int r2 _) as [var | e]; reflexivity.
Qed.

End SameLength.

Section LineFitExact.
Local Open Scope R_scope.
Variables x y : list R.

Local Abbreviation line_mean := (closed_forms.line_mean x).
Local Abbreviation line_t := (closed_forms.line_t x).
Local Abbreviation line_st2 := (closed_forms.line_st2 x).
Local Abbreviation line_slope := (closed_forms.line_slope x y).
Local Abbreviation line_intercept := (closed_forms.line_intercept x y).
Local Abbreviation line_syx := (closed_forms.line_syx x y).
Local Abbreviation line_var_slope := (closed_forms.line_var_slope x).
Local Abbreviation line_var_intercept := (closed_forms.line_var_intercept x).
Local Abbreviation line_covar := (closed_forms.line_covar x).
Local Abbreviation scaled_cov := (closed_forms.scaled_cov x).
Local Abbreviation unweighted_fit := (closed_forms.unweighted_fit x y).

Lemma line_st2_nonneg : 0 <= line_st2.
Proof.
  unfold line_st2. rewrite map2_diag.
  apply py_sum_map_nonneg. intros v. at_R. nra.
Qed.

Lemma Rdiv_nonneg_total (a b : R) : 0 <= a -> 0 <= b -> 0 <= a / b.
Proof.
  intros Ha Hb. destruct (Req_dec b 0) as [-> | Hnz].
  - rewrite Rdiv_0_r. lra.
  - apply Rmult_le_pos; [assumption |].
    apply Rlt_le, Rinv_0_lt_compat. lra.
Qed.

Lemma len_nonneg : 0 <= len x.
Proof. rewrite len_INR. apply pos_INR. Qed.

Lemma line_var_slope_nonneg : 0 <= line_var_slope.
Proof.
  unfold line_var_slope.
  apply Rdiv_nonneg_total; [lra | apply line_st2_nonneg].
Qed.

Lemma line_var_intercept_nonneg : 0 <= line_var_intercept.
Proof.
  unfold line_var_intercept.
  apply Rdiv_nonneg_total; [| apply len_nonneg].
  assert (0 <= py_sum x * py_sum x / (len x * line_st2)).
  { apply Rdiv_nonneg_total; [nra |].
    apply Rmult_le_pos; [apply len_nonneg | apply line_st2_nonneg]. }
  lra.
Qed.

Lemma linefit_zero_branch (sig : list R) (absolute_sigma : bool) :
  bool_gt_0 (py_all (broadcast_sig x sig)) = false ->
  linefit_arith x y sig absolute_sigma = unweighted_fit.
Proof.
  intros Hbranch. unfold linefit_arith. rewrite Hbranch.
  cbv beta iota zeta delta [negb]. at_R.
  fold line_mean. fold line_t. fold line_st2. fold line_slope.
  fold line_intercept. fold line_syx. fold line_var_slope.
  fold line_var_intercept.
  unfold unweighted_fit, scaled_cov, line_covar.
  pose proof (sqrt_sqrt _ line_var_slope_nonneg) as Hb.
  pose proof (sqrt_sqrt _ line_var_intercept_nonneg) as Ha.
  set (sb := sqrt line_var_slope) in *.
  set (sa := sqrt line_var_intercept) in *.
  set (s := line_syx).
  replace (sb * s * (sb * s)) with (sb * sb * (s * s)) by ring.
  replace (sa * s * (sa * s)) with (sa * sa * (s * s)) by ring.
  replace (- line_mean * (sb * sb) * s * s)
    with (- line_mean * (sb * sb) * (s * s)) by ring.
  rewrite Ha, Hb. reflexivity.
Qed.
End LineFitExact.

Section UniformWeights.
Local Open Scope R_scope.
Variable c : R.
Hypothesis c_nonzero : c <> 0.
Let w : R := 1 / (c * c).

Lemma weight_cancel (a b : R) : a * w / (b * w) = a / b.
Proof.
  unfold Rdiv. rewrite Rinv_mult.
  assert (Hw : w * / w = 1).
  { apply Rinv_r. unfold w. unfold Rdiv. rewrite Rmult_1_l.
    apply Rinv_neq_0_compat. nra. }
  replace (a * w * (/ b * / w)) with (a * / b * (w * / w)) by ring.
  rewrite Hw. ring.
Qed.

Lemma weight_inverse (a b : R) : a / (b * w) = a / b * (c * c).
Proof.
  assert (Hw : / w = c * c) by (unfold w; field; exact c_nonzero).
  unfold Rdiv. rewrite Rinv_mult, Hw. ring.
Qed.

Lemma sum_weighted (l : list R) (n : nat) :
  length l = n ->
  py_sum (map2 Rmult l (map (fun s => 1 / (s * s)) (repeat c n))) = py_sum l * w.
Proof.
  intros <-. rewrite map_repeat. fold w. rewrite map2_repeat_r.
  rewrite (py_sum_map_scale _ (fun a => a) w) by reflexivity.
  now rewrite map_id.
Qed.

Lemma sum_weights (n : nat) :
  py_sum (map (fun s => 1 / (s * s)) (repeat c n)) = INR n * w.
Proof. rewrite map_repeat. apply py_sum_repeat. Qed.

Lemma sum_squares_weighted (l : list R) (n : nat) :
  length l = n ->
  py_sum (map2 Rmult (map2 Rdiv l (repeat c n)) (map2 Rdiv l (repeat c n)))
  = py_sum (map2 Rmult l l) * w.
Proof.
  intros <-. rewrite map2_repeat_r, !map2_diag, map_map.
  apply py_sum_map_scale. intros v. unfold w. field. exact c_nonzero.
Qed.

Lemma sum_products_weighted (l1 l2 : list R) :
  length l2 = length l1 ->
  py_sum (map2 Rdiv (map2 Rmult (map2 Rdiv l1 (repeat c (length l1))) l2)
            (repeat c (length l1)))
  = py_sum (map2 Rmult l1 l2) * w.
Proof.
  revert l2. induction l1 as [| a l1 IH]; intros [| b l2] Hlen;
    cbn [length repeat map2] in *; try discriminate.
  - rewrite py_sum_nil. lra.
  - rewrite !py_sum_cons, IH by congruence. unfold w. field. exact c_nonzero.
Qed.

Lemma sum_products_weighted_n (n : nat) (l1 l2 : list R) :
  length l1 = n -> length l2 = n ->
  py_sum (map2 Rdiv (map2 Rmult (map2 Rdiv l1 (repeat c n)) l2) (repeat c n))
  = py_sum (map2 Rmult l1 l2) * w.
Proof. intros <- Hlen. now apply sum_products_weighted. Qed.

Lemma broadcast_repeat (x : list R) (v : R) :
  broadcast_sig x (repeat v (length x)) = repeat v (length x).
Proof. unfold broadcast_sig. destruct (length x) as [| [| n]]; reflexivity. Qed.

Lemma py_all_repeat_nonzero (n : nat) : py_all (repeat c n) = true.
Proof.
  unfold py_all. induction n as [| n IH]; cbn [repeat forallb]; [reflexivity |].
  rewrite IH, andb_true_r. unfold truthy. at_R.
  apply negb_true_iff, Reqb_false, c_nonzero.
Qed.

Lemma linefit_uniform_branch (x y : list R) :
  length y = length x ->
  linefit_arith x y (repeat c (length x)) true
  = ([line_slope x y; line_intercept x y], scaled_cov x (c * c)).
Proof.
  intros Hlen. unfold linefit_arith.
  rewrite broadcast_repeat, py_all_repeat_nonzero.
  change (bool_gt_0 true) with true.
  cbv beta iota zeta delta [negb]. at_R.
  rewrite sum_weights, !sum_weighted by auto. fold w.
  rewrite <- len_INR, weight_cancel. fold (line_mean x). fold (line_t x).
  rewrite sum_squares_weighted by (unfold line_t; apply length_map).
  rewrite sum_products_weighted_n
    by (try (unfold line_t; apply length_map); assumption).
  fold (line_st2 x).
  rewrite weight_cancel. fold (line_slope x y).
  replace (py_sum y * w - py_sum x * w * line_slope x y)
    with ((py_sum y - py_sum x * line_slope x y) * w) by ring.
  rewrite weight_cancel. fold (line_intercept x y).
  replace (py_sum x * w * (py_sum x * w))
    with (py_sum x * py_sum x * w * w) by ring.
  replace (len x * w * (line_st2 x * w))
    with (len x * line_st2 x * w * w) by ring.
  rewrite !weight_cancel, !weight_inverse.
  fold (line_var_slope x). fold (line_var_intercept x).
  assert (Hcc : 0 <= c * c) by nra.
  rewrite !sqrt_sqrt
    by (apply Rmult_le_pos;
        [apply line_var_slope_nonneg || apply line_var_intercept_nonneg
        | exact Hcc]).
  unfold scaled_cov, line_covar.
  replace (- line_mean x * (line_var_slope x * (c * c)))
    with (- line_mean x * line_var_slope x * (c * c)) by ring.
  reflexivity.
Qed.
End UniformWeights.

Section LineFitClaims.
Local Open Scope R_scope.

Lemma py_all_true_iff (s : list R) :
  bool_gt_0 (py_all s) = true <-> Forall (fun v => v <> 0) s.
Proof.
  unfold py_all. induction s as [| v s IH]; cbn [forallb].
  - split; [constructor | reflexivity].
  - destruct (truthy v) eqn:Hv; unfold truthy in Hv; at_R.
    + apply negb_true_iff, Reqb_false in Hv. cbn [andb].
      rewrite IH. split.
      * intros Hs. now constructor.
      * intros Hs. now inversion Hs.
    + apply negb_false_iff, Reqb_true in Hv. cbn [andb]. split.
      * discriminate.
      * intros Hs. inversion Hs. contradiction.
Qed.

Lemma py_all_false_of_zero (s : list R) :
  Exists (fun v => v = 0) s -> bool_gt_0 (py_all s) = false.
Proof.
  intros Hex. destruct (bool_gt_0 (py_all s)) eqn:Hall; [| reflexivity].
  apply py_all_true_iff in Hall. rewrite Forall_forall in Hall.
  apply Exists_exists in Hex as (v & Hin & Hv).
  specialize (Hall v Hin).
  contradiction.
Qed.

(** The coefficients do not depend on [absolute_sigma]. *)
Lemma linefit_coefficients_any_mode (x y sig : list R) (m1 m2 : bool) :
  fst (linefit_arith x y sig m1) = fst (linefit_arith x y sig m2).
Proof.
  unfold linefit_arith.
  destruct (bool_gt_0 (py_all (broadcast_sig x sig))), m1, m2; reflexivity.
Qed.

(** A single uncertainty stands for the array that repeats it. *)
Lemma linefit_scalar_sigma (x y : list R) (c : R) (m : bool) :
  linefit_arith x y [c] m = linefit_arith x y (repeat c (length x)) m.
Proof. unfold linefit_arith. now rewrite broadcast_repeat. Qed.

(** C5, in exact arithmetic.  For at least three points whose [x] are
    not all equal, with the same uncertainty [c > 0] on every point
    [linefit] does not raise and returns the slope and the intercept of
    the fit with all-zero uncertainty, whatever [absolute_sigma] is;
    the covariance matrices are one matrix multiplied by [c^2] in the
    first case ([absolute_sigma=True]) and by the residual estimate
    [syx^2] in the second. *)
Theorem linefit_uniform_sigma_same_coefficients :
  forall (x y : list R) (c : R) (mode mode' : bool),
    length y = length x -> (3 <= length x)%nat ->
    (exists u v, In u x /\ In v x /\ u <> v) ->
    0 < c ->
    let n := length x in
    let coeff := [line_slope x y; line_intercept x y] in
    linefit x y (repeat c n) true = Ok (coeff, scaled_cov x (c * c))
    /\ linefit x y (repeat 0 n) mode'
       = Ok (coeff, scaled_cov x (line_syx x y * line_syx x y))
    /\ match linefit x y (repeat c n) mode with
       | Ok (coeff', _) => coeff' = coeff
       | Raise _ => False
       end.
Proof.
  intros x y c mode mode' Hlen Hn _ Hc n coeff. subst n coeff.
  assert (Hx : x <> []) by (destruct x; [cbn in Hn; lia | discriminate]).
  assert (Hzero : linefit_arith x y (repeat 0 (length x)) mode'
                  = unweighted_fit x y).
  { apply linefit_zero_branch. rewrite broadcast_repeat.
    apply py_all_false_of_zero.
    destruct (length x) as [| k]; [lia |]. cbn [repeat]. now constructor. }
  assert (Hunif : linefit_arith x y (repeat c (length x)) true
                  = ([line_slope x y; line_intercept x y],
                     scaled_cov x (c * c))).
  { apply linefit_uniform_branch; [lra | assumption]. }
  assert (Hbridge : forall (v : R) (m : bool),
            linefit x y (repeat v (length x)) m
            = Ok (linefit_arith x y (repeat v (length x)) m)).
  { intros v m. apply linefit_same_length; [exact Hx | exact Hlen |].
    intros _. rewrite broadcast_repeat. apply repeat_length. }
  rewrite !Hbridge, Hunif, Hzero.
  split; [reflexivity |]. split; [reflexivity |].
  pose proof (linefit_coefficients_any_mode x y (repeat c (length x))
                mode true) as Hmode.
  rewrite Hunif in Hmode.
  destruct (linefit_arith x y (repeat c (length x)) mode) as [coeff' cov'].
  exact Hmode.
Qed.

Lemma linefit_uniform_sigma_same_coefficients_witness :
  linefit [0; 1; 2] [0; 1; 3] (repeat 3 3) true
  = Ok ([line_slope [0; 1; 2] [0; 1; 3]; line_intercept [0; 1; 2] [0; 1; 3]],
        scaled_cov [0; 1; 2] (3 * 3)).
Proof.
  refine (proj1 (linefit_uniform_sigma_same_coefficients
                   [0; 1; 2] [0; 1; 3] 3 true true _ _ _ _)).
  - reflexivity.
  - cbn. lia.
  - exists 0, 1. cbn. repeat split; auto; lra.
  - lra.
Defined.
End LineFitClaims.


(** One zero among nonzero uncertainties, in binary64 and over the real
    numbers: the fit is the one without weights. *)
Example linefit_one_zero_sigma :
  linefit [0; 1; 2]%float [0; 1; 3]%float [1; 0; 2]%float true
  = linefit [0; 1; 2]%float [0; 1; 3]%float [0]%float true
  /\ linefit [0; 1; 2]%R [0; 1; 3]%R [1; 0; 2]%R true
     = unweighted_line [0; 1; 2]%R [0; 1; 3]%R.
Proof.
  split; [vm_compute; reflexivity |].
  apply linefit_by_zero_branch, py_all_false_of_zero_test.
  cbn [broadcast_sig].
  apply Exists_cons_tl, Exists_cons_hd. apply Reqb_true. reflexivity.
Qed.

(** The edges of [linefit] in binary64.  Empty data are a
    [ZeroDivisionError] (the integers [0/0]), arrays that numpy cannot
    broadcast a [ValueError]; equal [x] values give not-a-number
    without an exception, and so does an uncertainty whose square
    underflows to zero. *)
Example linefit_edges :
  linefit []%float []%float [0; 0]%float true = Raise ZeroDivisionError
  /\ linefit [1; 2]%float [1; 2; 3]%float [0]%float true = Raise ValueError
  /\ linefit [1; 1; 1]%float [0; 1; 3]%float [1; 0; 2]%float true
     = Ok ([nan; nan], [[nan; nan]; [nan; nan]])%float
  /\ linefit [1; 2; 3; 4]%float [1; 3; 2; 5]%float
       (repeat 1e-200%float 4) true
     = Ok ([nan; nan], [[nan; nan]; [nan; nan]])%float.
Proof. repeat split; vm_compute; reflexivity. Qed.

(** C5, in binary64: four points, uncertainty [3] on each.  The slope is
    [1.0999999999999988], against [1.1000000000000001] with all-zero
    uncertainty, and the intercepts differ as well. *)
Lemma linefit_uniform_sigma_rounds :
  let x := [1; 2; 3; 4]%float in
  let y := [1; 3; 2; 5]%float in
  match linefit x y (repeat 3%float 4) true,
        linefit x y (repeat 0%float 4) true with
  | Ok (coeff, _), Ok (coeff0, _) =>
      coeff = [1.0999999999999988; 2.9976021664879227e-15]%float
      /\ coeff0 = [1.1000000000000001; 0]%float
      /\ coeff <> coeff0
  | _, _ => False
  end.
Proof.
  vm_compute. repeat split.
  intros Heq.
  apply (f_equal (fun l => match l with
                           | v :: _ => PrimFloat.eqb v 1.1000000000000001%float
                           | [] => false
                           end)) in Heq.
  vm_compute in Heq. discriminate Heq.
Qed.

End curvefit_facts.

(** ** Output records of the least-squares fit *)

Module record_facts.
Import curvefit.

Section Records.
Context {A : Type} `{PyNum A} {G : Type}.
Variable L : libs A.
Variable RNG : rng_api A G.
Variable linefitYork :
  list A -> list A -> option (list A) -> option (list A) -> bool ->
  result (list A * list (list A)).
Variable arr_clear : Array A -> Array A.
Variable arr_sample : Array A -> nat -> G -> Array A * G.

(** What a successful [calc_LSQ] returns: the record holds the
    coefficients of the fit function, and [degf] is the number of points
    less the number of coefficients. *)
Lemma calc_LSQ_record (self self' : CurveFit A) (out : Output A) :
  calc_LSQ L linefitYork self = Ok (out, self') ->
  exists coeff cov,
    out_mean out = VArr coeff
    /\ out_uncert out = VArr (map nsqrt (diag cov))
    /\ properties out !! "coeffs" = Some (VArr coeff)
    /\ properties out !! "degf"
       = Some (VInt (Z.of_nat (length (arr_x (arr self)))
                     - Z.of_nat (length coeff)))
    /\ properties out !! "pnames" = Some (VNames (pnames self))
    /\ properties out !! "u_predy" = None
    /\ functions out !! "u_predy" = None
    /\ (exists band, properties out !! "u_pred" = Some (VBand band))
    /\ self' = with_outputs self (<["lsq" := out]> (outputs self)).
Proof.
  unfold calc_LSQ. intros Hrun.
  destruct (fitfunc L linefitYork self _ _ _ _) as [[coeff cov] | e];
    [| discriminate]. cbn [bind] in Hrun.
  destruct (residual_statistics self false _ coeff) as [st | e] eqn:Hst;
    [| discriminate]. cbn [bind] in Hrun.
  assert (Hdegf : st_degf st = (Z.of_nat (length (arr_x (arr self)))
                                - Z.of_nat (length coeff))%Z).
  { unfold residual_statistics in Hst.
    destruct (eval_func _ _ _) as [fx | e]; [| discriminate].
    cbn [bind] in Hst. injection Hst as <-. reflexivity. }
  clear Hst.
  unfold create_output_curvefit in Hrun.
  match type of Hrun with
  | context [list_to_map ?p] => set (params := p) in Hrun
  end.
  assert (Hm : (list_to_map params : gmap string (Value A)) !! "mean"
               = Some (VArr coeff)) by reflexivity.
  assert (Hu : (list_to_map params : gmap string (Value A)) !! "uncert"
               = Some (VArr (map nsqrt (diag cov)))) by reflexivity.
  assert (Hf : (list_to_map params : gmap string (Value A)) !! "func"
               = Some (VFitFunc (func self))) by reflexivity.
  assert (Hc : (list_to_map params : gmap string (Value A)) !! "coeffs"
               = Some (VArr coeff)) by reflexivity.
  cbv zeta in Hrun. rewrite Hm, Hu, Hf, Hc in Hrun.
  cbn [bind] in Hrun. apply Ok_pair_inv in Hrun as [<- <-].
  exists coeff, cov. cbn [out_mean out_uncert properties functions].
  rewrite <- Hdegf.
  repeat split; try reflexivity. eexists. reflexivity.
Qed.

(** X2: the degrees of freedom of the least-squares record.  Whenever
    [calc_LSQ] completes, [degf] is the number of data points less the
    number of fitted coefficients. *)
Lemma calc_LSQ_degf (self : CurveFit A) :
  match calc_LSQ L linefitYork self with
  | Ok (out, _) =>
      exists coeff : list A,
        properties out !! "coeffs" = Some (VArr coeff)
        /\ properties out !! "degf"
           = Some (VInt (Z.of_nat (length (arr_x (arr self)))
                         - Z.of_nat (length coeff)))
  | Raise _ => True
  end.
Proof.
  destruct (calc_LSQ L linefitYork self) as [[out self'] | e] eqn:Hrun;
    [| exact I].
  apply calc_LSQ_record in Hrun as (coeff & cov & _ & _ & Hc & Hd & _).
  exists coeff. now split.
Qed.

(** ** The standard uncertainty of a predicted value *)

(** With a cached record, [stdunc] in mode ['pred'] evaluates the
    [u_pred] entry of the first of the records [lsq], [mc], [gum]. *)
Lemma stdunc_pred_cached (self : CurveFitParam A) :
  mode self = "pred" ->
  forall o : Output A,
    (param_outputs self !! "lsq" = Some o
     \/ (param_outputs self !! "lsq" = None
         /\ param_outputs self !! "mc" = Some o)
     \/ (param_outputs self !! "lsq" = None
         /\ param_outputs self !! "mc" = None
         /\ param_outputs self !! "gum" = Some o)) ->
    stdunc L linefitYork self
    = (let* v := call_attr o "u_pred" (as_x (pidx self)) in Ok (v, self)).
Proof.
  intros Hmode o Hcache. unfold stdunc. rewrite Hmode.
  cbn [String.eqb Ascii.eqb Bool.eqb].
  destruct Hcache as [-> | [[-> ->] | (-> & -> & ->)]]; reflexivity.
Qed.

(** The record that [CurveFitParam.calc_LSQ] stores in mode ['pred'] has
    the entry [u_pred] and no attribute [u_predy]. *)
Lemma param_calc_LSQ_pred (self self' : CurveFitParam A) (o : Output A) :
  mode self = "pred" ->
  param_calc_LSQ L linefitYork self = Ok (o, self') ->
  param_outputs self' !! "lsq" = Some o
  /\ mode self' = "pred"
  /\ pidx self' = pidx self
  /\ (exists band, getattr o "u_pred" = Ok (VBand band))
  /\ getattr o "u_predy" = Raise AttributeError.
Proof.
  intros Hmode Hrun. unfold param_calc_LSQ in Hrun.
  destruct (calc_LSQ L linefitYork (ifunc self)) as [[lsqout fit'] | e] eqn:Hlsq;
    [| discriminate].
  cbn [bind] in Hrun.
  apply calc_LSQ_record in Hlsq
    as (coeff & cov & _ & _ & _ & _ & _ & Hnone & _ & [band Hband] & _).
  unfold project in Hrun. rewrite Hmode in Hrun.
  cbn [String.eqb Ascii.eqb Bool.eqb] in Hrun.
  destruct (call_attr lsqout "y" _) as [mean | e]; [| discriminate].
  cbn [bind] in Hrun.
  destruct (call_attr lsqout "u_pred" _) as [uncert | e]; [| discriminate].
  cbn [bind] in Hrun.
  rewrite lookup_insert_eq in Hrun.
  apply Ok_pair_inv in Hrun as [<- <-].
  cbn [param_outputs with_param_outputs mode pidx].
  rewrite lookup_insert_eq.
  repeat split; try assumption.
  - exists band. unfold getattr, create_output.
    cbn [String.eqb Ascii.eqb Bool.eqb functions properties].
    rewrite lookup_empty, Hband. reflexivity.
  - unfold getattr, create_output.
    cbn [String.eqb Ascii.eqb Bool.eqb functions properties].
    rewrite lookup_empty, Hnone. reflexivity.
Qed.

(** With nothing cached, [stdunc] in mode ['pred'] computes the
    least-squares record and then reads [u_predy] from it: whenever the
    fit succeeds the call ends in an [AttributeError]. *)
Lemma stdunc_pred_uncached (self : CurveFitParam A) :
  mode self = "pred" ->
  param_outputs self !! "lsq" = None ->
  param_outputs self !! "mc" = None ->
  param_outputs self !! "gum" = None ->
  stdunc L linefitYork self
  = match param_calc_LSQ L linefitYork self with
    | Ok _ => Raise AttributeError
    | Raise e => Raise e
    end.
Proof.
  intros Hmode Hl Hm Hg. unfold stdunc. rewrite Hmode, Hl, Hm, Hg.
  cbn [String.eqb Ascii.eqb Bool.eqb].
  destruct (param_calc_LSQ L linefitYork self) as [[o self'] | e] eqn:Hrun;
    [| reflexivity].
  cbn [bind].
  apply param_calc_LSQ_pred in Hrun as (Hcached & _ & _ & _ & Hattr);
    [| assumption].
  rewrite Hcached. cbn [bind]. unfold call_attr. rewrite Hattr. reflexivity.
Qed.
End Records.
End record_facts.

(** ** The fallback of [stdunc], and the names of the coefficients *)

Module curvefitparam_facts.
Import curvefit examples.

(** C3.  A [CurveFitParam] in mode ['pred'] with an empty cache: [stdunc]
    computes the least-squares record and then asks it for [u_predy], a
    name no record has, so that the call returns nothing.  This holds for
    every fit and every number type; on the three points of the example
    the least-squares fit succeeds and [stdunc] raises [AttributeError],
    while the same call after [calc_LSQ] has filled the cache returns the
    prediction band [0.4930066486464263] at [x = 1.5]. *)
Theorem stdunc_pred_fallback_raises :
  (forall (A : Type) (HA : PyNum A) (L : libs A)
          (york : list A -> list A -> option (list A) -> option (list A) ->
                  bool -> result (list A * list (list A)))
          (fit : CurveFit A) (pidx : selector A) (name desc : string),
      let fresh := param_init fit pidx "pred" name desc in
      stdunc L york fresh
      = match param_calc_LSQ L york fresh with
        | Ok _ => Raise AttributeError
        | Raise e => Raise e
        end)
  /\ match line_fit with
     | Ok fit =>
         let fresh := param_init fit (XValue 1.5%float) "pred" "" "" in
         match param_calc_LSQ float_libs no_york fresh with
         | Ok (_, filled) =>
             stdunc float_libs no_york fresh = Raise AttributeError
             /\ match stdunc float_libs no_york filled with
                | Ok (v, _) => v = VNum 0.4930066486464263%float
                | Raise _ => False
                end
         | Raise _ => False
         end
     | Raise _ => False
     end.
Proof.
  split.
  - intros A HA L york fit pidx name desc fresh.
    apply record_facts.stdunc_pred_uncached; reflexivity.
  - vm_compute. split; reflexivity.
Qed.

(** C8 at a failing input, binary64: [CurveFit(arr, 'poly', polyorder=1)]
    on three points of the line [y = x + 1].  The parameter names are
    read from the signature [func(x, *p)], which gives the one name [p];
    the initial guess has two entries and the least-squares fit returns
    two coefficients.  The record has [degf = 3 - 2], two coefficients
    and one name. *)
Theorem calc_LSQ_poly1_coefficient_names :
  match poly1_fit with
  | Ok fit =>
      pnames fit = ["p"] /\ numparams fit = 1%nat
      /\ p0 fit = Some [1; 1]%float
      /\ match calc_LSQ float_libs no_york fit with
         | Ok (out, _) =>
             properties out !! "coeffs" = Some (VArr [1; 1]%float)
             /\ properties out !! "pnames" = Some (VNames ["p"])
             /\ properties out !! "degf" = Some (VInt 1)
         | Raise _ => False
         end
  | Raise _ => False
  end.
Proof. vm_compute. repeat split; reflexivity. Qed.

End curvefitparam_facts.

(** ** The Markov chain *)

Module mcmc_facts.
Import curvefit examples closed_forms.

Lemma Ok_triple_inv {T U V : Type} (a a' : T) (b b' : U) (c c' : V) :
  Ok (a, b, c) = Ok (a', b', c') -> a = a' /\ b = b' /\ c = c'.
Proof. intros Heq. injection Heq as -> -> ->. now repeat split. Qed.

Section SetNth.
Context {A : Type} `{PyNum A}.

Lemma nth_set_nth (a : list A) (i k : nat) (n v d : A) :
  nth_error a i = Some n ->
  nth k (set_nth i v a) d = if Nat.eqb k i then v else nth k a d.
Proof.
  revert i k. induction a as [| x a IH]; intros [| i] [| k] Hn;
    try discriminate; try reflexivity.
  apply (IH i k Hn).
Qed.

Lemma length_set_nth (a : list A) (i : nat) (n v : A) :
  nth_error a i = Some n -> length (set_nth i v a) = length a.
Proof.
  revert i. induction a as [| x a IH]; intros [| i] Hn;
    try discriminate; try reflexivity.
  cbn. f_equal. apply (IH i Hn).
Qed.

Lemma nth_or_Some {T : Type} (l : list T) (i : nat) (e : exn) (v : T) :
  nth_or l i e = Ok v -> nth_error l i = Some v.
Proof.
  unfold nth_or. destruct (nth_error l i); [| discriminate].
  intros Heq. f_equal. now apply Ok_inv.
Qed.
End SetNth.

Section Chain.
Context {G : Type}.
Variable L : libs R.
Variable RNG : rng_api R G.
Variable york :
  list R -> list R -> option (list R) -> option (list R) -> bool ->
  result (list R * list (list R)).
Local Open Scope R_scope.

Lemma mcmc_param_step_bumped (self : CurveFit R) (priors : list (R -> R))
    (up : list R) (sig2 : R) (p accepts p' accepts' old : list R)
    (g g' : G) (j : nat) :
  mcmc_param_step L RNG self priors up sig2 (p, accepts, g) j
  = Ok (p', accepts', g') ->
  bumped j old accepts ->
  bumped (S j) old accepts' /\ length p' = length p.
Proof.
  unfold mcmc_param_step. intros Hstep Hold.
  destruct (nth_or p j IndexError) as [p_j | e] eqn:Hp; [| discriminate].
  cbn [bind] in Hstep.
  destruct (nth_or up j IndexError) as [up_j | e]; [| discriminate].
  cbn [bind] in Hstep.
  destruct (rng_normal RNG g up_j) as [z g1].
  destruct (eval_func _ _ p) as [Y | e]; [| discriminate].
  cbn [bind] in Hstep.
  destruct (eval_func _ _ _) as [Ynew | e]; [| discriminate].
  cbn [bind] in Hstep.
  destruct (nth_or priors j IndexError) as [prior | e]; [| discriminate].
  cbn [bind] in Hstep.
  destruct (rng_uniform RNG g1) as [u g2].
  match type of Hstep with
  | (if ?c then _ else _) = _ => destruct c
  end.
  - destruct (nth_or accepts j IndexError) as [n | e] eqn:Hn; [| discriminate].
    cbn [bind] in Hstep. apply Ok_triple_inv in Hstep as (<- & <- & <-).
    apply nth_or_Some in Hn, Hp. split.
    + intros k. rewrite (nth_set_nth _ _ _ _ _ _ Hn). at_R.
      destruct (Nat.eqb_spec k j) as [-> | Hkj].
      * right. split; [lia |].
        destruct (Hold j) as [Heq | [Hlt _]]; [| lia].
        rewrite <- Heq. now rewrite (nth_error_nth _ _ 0 Hn).
      * destruct (Hold k) as [Heq | [Hlt Heq]]; [now left |].
        right. split; [lia | assumption].
    + apply (length_set_nth _ _ _ _ Hp).
  - apply Ok_triple_inv in Hstep as (<- & <- & <-). split; [| reflexivity].
    intros k. destruct (Hold k) as [Heq | [Hlt Heq]]; [now left |].
    right. split; [lia | assumption].
Qed.

Lemma fold_param_steps_bumped (self : CurveFit R) (priors : list (R -> R))
    (up : list R) (sig2 : R) (old : list R) (len : nat) :
  forall (start : nat) (p accepts p' accepts' : list R) (g g' : G),
    fold_result (mcmc_param_step L RNG self priors up sig2)
      (seq start len) (p, accepts, g) = Ok (p', accepts', g') ->
    bumped start old accepts ->
    bumped (start + len) old accepts' /\ length p' = length p.
Proof.
  induction len as [| len IH]; intros start p accepts p' accepts' g g' Hfold Hold.
  - cbn in Hfold. apply Ok_triple_inv in Hfold as (<- & <- & <-).
    rewrite Nat.add_0_r. now split.
  - cbn [seq fold_result] in Hfold.
    destruct (mcmc_param_step L RNG self priors up sig2 (p, accepts, g) start)
      as [[[p1 a1] g1] | e] eqn:Hstep; [| discriminate].
    cbn [bind] in Hfold.
    apply (mcmc_param_step_bumped _ _ _ _ _ _ _ _ old) in Hstep
      as [Hb1 Hl1]; [| assumption].
    apply IH in Hfold as [Hb Hl]; [| assumption].
    replace (start + S len)%nat with (S start + len)%nat by lia.
    split; [assumption | congruence].
Qed.

Lemma mcmc_sweep_counts (self : CurveFit R) (priors : list (R -> R))
    (up : list R) (varysigma : option (R * (R * R)))
    (st st' : chain R G) (m : R) :
  mcmc_sweep L RNG self priors up varysigma st = Ok st' ->
  counts_within m st ->
  counts_within (m + 1) st'
  /\ length (ch_coeffs st') = S (length (ch_coeffs st))
  /\ length (ch_p st') = length (ch_p st).
Proof.
  unfold mcmc_sweep. intros Hsweep Hm.
  destruct (fold_result _ _ _) as [[[p accepts] g] | e] eqn:Hfold;
    [| discriminate].
  cbn [bind] in Hsweep.
  apply (fold_param_steps_bumped _ _ _ _ (ch_accepts st)) in Hfold
    as [Hb Hl]; [| intros k; now left].
  match type of Hsweep with
  | bind ?r _ = _ => destruct r as [[sig2 g1] | e]; [| discriminate]
  end.
  cbn [bind] in Hsweep.
  destruct (assign_row _ p) as [row | e]; [| discriminate].
  cbn [bind] in Hsweep. apply Ok_inv in Hsweep. subst st'.
  unfold counts_within. cbn [ch_accepts ch_coeffs ch_p].
  split; [| split].
  - intros k. destruct (Hm k) as [Hlo Hhi].
    destruct (Hb k) as [Heq | [_ Heq]]; rewrite Heq; lra.
  - rewrite length_app. cbn. lia.
  - assumption.
Qed.

Lemma iterate_sweeps_counts (self : CurveFit R) (priors : list (R -> R))
    (up : list R) (varysigma : option (R * (R * R))) (n : nat) :
  forall (st st' : chain R G) (i : nat),
    iterate_result n (mcmc_sweep L RNG self priors up varysigma) st = Ok st' ->
    counts_within (INR i) st ->
    length (ch_coeffs st) = i ->
    counts_within (INR (i + n)) st'
    /\ length (ch_coeffs st') = (i + n)%nat.
Proof.
  induction n as [| n IH]; intros st st' i Hrun Hcount Hrows.
  - cbn in Hrun. apply Ok_inv in Hrun. subst st'.
    rewrite Nat.add_0_r. now split.
  - cbn [iterate_result] in Hrun.
    destruct (mcmc_sweep L RNG self priors up varysigma st) as [st1 | e] eqn:Hsweep;
      [| discriminate].
    cbn [bind] in Hrun.
    apply (mcmc_sweep_counts _ _ _ _ _ _ (INR i)) in Hsweep
      as (Hc1 & Hr1 & _); [| assumption].
    rewrite <- S_INR in Hc1.
    apply (IH _ _ (S i)) in Hrun as [Hc Hr]; [| assumption | lia].
    replace (i + S n)%nat with (S i + n)%nat by lia. now split.
Qed.

Lemma initial_counts (p : list R) (sig2 : R) (g : G) :
  counts_within (INR 0)
    {| ch_p := p; ch_accepts := repeat 0 (length p); ch_sig2 := sig2;
       ch_rng := g; ch_coeffs := []; ch_sig2trace := [] |}.
Proof.
  intros k. cbn [ch_accepts INR].
  destruct (Nat.lt_ge_cases k (length p)) as [Hlt | Hge].
  - rewrite nth_repeat_lt by assumption. lra.
  - rewrite nth_overflow by (now rewrite repeat_length). lra.
Qed.

(** What a completed [calc_MCMC] leaves: the chain after [N] sweeps has
    [N] rows and counts between [0] and [N]; the record's [acceptance]
    is the counts over [N], its [samples] the rows from [int(b * N)] on,
    which are also the object's [mcmccoeffs]. *)
Lemma calc_MCMC_record (self self' : CurveFit R) (out : Output R)
    (N : nat) (b : R) (g g' : G) :
  calc_MCMC L RNG york self N b g = Ok (out, self', g') ->
  exists st : chain R G,
    counts_within (INR N) st
    /\ length (ch_coeffs st) = N
    /\ properties out !! "acceptance"
       = Some (VArr (map (fun n => n / IZR (Z.of_nat N)) (ch_accepts st)))
    /\ properties out !! "samples"
       = Some (VMat (slice_from (py_int L (b * IZR (Z.of_nat N)))
                       (ch_coeffs st)))
    /\ mcmccoeffs self'
       = slice_from (py_int L (b * IZR (Z.of_nat N))) (ch_coeffs st).
Proof.
  unfold calc_MCMC. intros Hrun.
  destruct (run_uyestimate L york self) as [self1 | e]; [| discriminate].
  cbn [bind] in Hrun. cbv zeta in Hrun.
  destruct (fitfunc L york self1 _ _ _ _) as [[p cov] | e]; [| discriminate].
  cbn [bind] in Hrun.
  destruct (negb _); [discriminate |].
  match type of Hrun with
  | bind ?r _ = _ => destruct r as [[sig2 varysigma] | e]; [| discriminate]
  end.
  cbn [bind] in Hrun.
  match type of Hrun with
  | bind ?r _ = _ => destruct r as [[] | e]; [| discriminate]
  end.
  cbn [bind] in Hrun.
  match type of Hrun with
  | bind ?r _ = _ => destruct r as [st | e] eqn:Hchain; [| discriminate]
  end.
  cbn [bind] in Hrun.
  apply (iterate_sweeps_counts _ _ _ _ _ _ _ 0%nat) in Hchain
    as [Hcount Hrows]; [| apply initial_counts | reflexivity].
  cbn [Nat.add] in Hcount, Hrows.
  match type of Hrun with
  | bind ?r _ = _ => destruct r as [stats | e]; [| discriminate]
  end.
  cbn [bind] in Hrun.
  unfold create_output_curvefit in Hrun.
  match type of Hrun with
  | context [list_to_map ?ps] => set (params := ps) in Hrun
  end.
  assert (Hm : exists v, (list_to_map params : gmap string (Value R)) !! "mean"
                         = Some v) by (eexists; reflexivity).
  assert (Hu : exists v, (list_to_map params : gmap string (Value R)) !! "uncert"
                         = Some v) by (eexists; reflexivity).
  destruct Hm as [m Hm], Hu as [u Hu].
  rewrite Hm, Hu in Hrun. cbn [bind] in Hrun.
  apply Ok_triple_inv in Hrun as (<- & <- & <-).
  exists st. cbn [properties mcmccoeffs with_outputs with_mcmc].
  repeat match goal with |- _ /\ _ => split end;
    try assumption; reflexivity.
Qed.

(** ** The slice and the builtin [int] *)

Lemma slice_from_length {T : Type} (k : Z) (m : list T) :
  length (slice_from k m)
  = if (0 <=? k)%Z then (length m - Z.to_nat k)%nat
    else Nat.min (length m) (Z.to_nat (- k)).
Proof.
  unfold slice_from. destruct (0 <=? k)%Z; rewrite length_skipn; lia.
Qed.



Lemma fraction_within (n d : R) : 0 < d -> 0 <= n <= d -> 0 <= n / d <= 1.
Proof.
  intros Hd [Hlo Hhi]. unfold Rdiv.
  assert (Hinv : 0 < / d) by now apply Rinv_0_lt_compat.
  assert (Hone : d * / d = 1) by (apply Rinv_r; lra).
  split; nra.
Qed.



(** X1: the retained rows for any [burnin].  With [k = int(b * N)], a
    completed [calc_MCMC(samples=N, burnin=b)] keeps [N - k] rows when
    [0 <= k <= N], none when [k > N], and the last [min(N, -k)] rows
    when [k < 0]; the record's [samples] is the object's [mcmccoeffs]. *)
Lemma calc_MCMC_rows_any_burnin (self : CurveFit R) (N : nat) (b : R)
    (g : G) :
  match calc_MCMC L RNG york self N b g with
  | Ok (out, self', _) =>
      let k := py_int L (b * IZR (Z.of_nat N)) in
      properties out !! "samples" = Some (VMat (mcmccoeffs self'))
      /\ length (mcmccoeffs self')
         = if (0 <=? k)%Z then (N - Z.to_nat k)%nat
           else Nat.min N (Z.to_nat (- k))
  | Raise _ => True
  end.
Proof.
  destruct (calc_MCMC L RNG york self N b g) as [[[out self'] g'] | e] eqn:Hrun;
    [| exact I].
  apply calc_MCMC_record in Hrun as (st & _ & Hlen & _ & Hsamples & Hcoeffs).
  cbv zeta. rewrite Hcoeffs, slice_from_length, Hlen. now split.
Qed.
End Chain.


(** In binary64 the same call completes: five sweeps with the default
    fraction keep [5 - int(0.2 * 5) = 4] rows, and the two acceptance
    fractions are [2/5] and [3/5]. *)
Example calc_MCMC_default_burnin :
  match line_fit_uy with
  | Ok fit =>
      match calc_MCMC float_libs float_rng no_york fit 5 0.2%float 0%nat with
      | Ok (out, self', _) =>
          properties out !! "acceptance" = Some (VArr [0.4; 0.6]%float)
          /\ length (mcmccoeffs self') = 4%nat
          /\ properties out !! "samples" = Some (VMat (mcmccoeffs self'))
      | Raise _ => False
      end
  | Raise _ => False
  end.
Proof. vm_compute. repeat split; reflexivity. Qed.


(** The integer is that of the computed product: in binary64
    [0.7 * 10] is [7.0], so [calc_MCMC(samples=10, burnin=0.7)] keeps
    [10 - 7 = 3] rows (the exact product of the binary64 number nearest
    to [0.7] by [10] lies below [7]). *)
Example calc_MCMC_burnin_computed_product :
  match line_fit_uy with
  | Ok fit =>
      match calc_MCMC float_libs float_rng no_york fit 10 0.7%float
              0%nat with
      | Ok (_, self', _) =>
          py_int float_libs (0.7 * 10)%float = 7%Z
          /\ length (mcmccoeffs self') = 3%nat
      | Raise _ => False
      end
  | Raise _ => False
  end.
Proof. vm_compute. split; reflexivity. Qed.

(** A negative [burnin] keeps the last rows: with [burnin = -0.2] the
    slice [mcmccoeffs[-1:, :]] has one row, not [5 + 1]. *)
Example calc_MCMC_burnin_negative :
  match line_fit_uy with
  | Ok fit =>
      match calc_MCMC float_libs float_rng no_york fit 5 (-0.2)%float 0%nat with
      | Ok (_, self', _) =>
          py_int float_libs (-0.2 * 5)%float = (-1)%Z
          /\ length (mcmccoeffs self') = 1%nat
      | Raise _ => False
      end
  | Raise _ => False
  end.
Proof. vm_compute. repeat split; reflexivity. Qed.

End mcmc_facts.

(** ** Minimum and maximum of two real numbers *)

Lemma py_min_Rmin (a b : R) : py_min a b = Rmin a b.
Proof.
  unfold py_min, Rmin. at_R. unfold Rltb.
  destruct (Rlt_dec b a), (Rle_dec a b); lra.
Qed.

Lemma py_max_Rmax (a b : R) : py_max a b = Rmax a b.
Proof.
  unfold py_max, Rmax. at_R. unfold Rltb.
  destruct (Rlt_dec a b), (Rle_dec a b); lra.
Qed.

(** ** The even spread of the examples *)

Section Ramp.
Local Open Scope R_scope.
Variable r : R.
Hypothesis r_pos : 0 < r.

Lemma ramp_range (x : R) : 0 <= risk_examples.ramp r x <= 1.
Proof.
  unfold risk_examples.ramp.
  destruct (Rle_dec x (- r)), (Rle_dec r x); try lra.
  assert (Hinv : 0 < / r) by now apply Rinv_0_lt_compat.
  assert (Hone : r * / r = 1) by (apply Rinv_r; lra).
  unfold Rdiv. split; nra.
Qed.

Lemma ramp_monotone (x y : R) :
  x <= y -> risk_examples.ramp r x <= risk_examples.ramp r y.
Proof.
  intros Hle. unfold risk_examples.ramp.
  assert (Hinv : 0 < / r) by now apply Rinv_0_lt_compat.
  assert (Hone : r * / r = 1) by (apply Rinv_r; lra).
  destruct (Rle_dec x (- r)), (Rle_dec r x), (Rle_dec y (- r)), (Rle_dec r y);
    try lra; unfold Rdiv; nra.
Qed.

Lemma ramp_symmetric (x : R) :
  risk_examples.ramp r (- x) = 1 - risk_examples.ramp r x.
Proof.
  unfold risk_examples.ramp.
  destruct (Rle_dec (- x) (- r)), (Rle_dec r (- x)), (Rle_dec x (- r)),
           (Rle_dec r x); lra.
Qed.

Lemma ramp_ppf_inverse (q : R) :
  0 < q < 1 -> risk_examples.ramp r (risk_examples.ramp_ppf r q) = q.
Proof.
  intros [Hq0 Hq1]. unfold risk_examples.ramp, risk_examples.ramp_ppf.
  destruct (Rle_dec (r * (2 * q - 1)) (- r)); [nra |].
  destruct (Rle_dec r (r * (2 * q - 1))); [nra |].
  field. lra.
Qed.

Lemma ramp_ppf_positive (q : R) :
  1 / 2 < q < 1 -> 0 < risk_examples.ramp_ppf r q.
Proof. intros [Hq0 Hq1]. unfold risk_examples.ramp_ppf. nra. Qed.
End Ramp.

Lemma sqrt3_positive : (0 < sqrt 3)%R.
Proof. apply sqrt_lt_R0. lra. Qed.

(** ** Process risk *)

Module riskcalc_facts.
Import risk riskcalc risk_examples.
Local Open Scope R_scope.

Section ProcessRisk.
Variable norm_ppf : R -> R.
Variable d : rv_frozen (A := R).

(** X6: the limits may come in either order.  [process_risk] sorts its
    two limits, so exchanging them changes none of the four results. *)
Theorem process_risk_limits_order (LL UL : R) :
  process_risk norm_ppf d LL UL = process_risk norm_ppf d UL LL.
Proof.
  unfold process_risk.
  rewrite (py_min_Rmin LL UL), (py_max_Rmax LL UL),
          (py_min_Rmin UL LL), (py_max_Rmax UL LL).
  now rewrite (Rmin_comm LL UL), (Rmax_comm LL UL).
Qed.

(** X7: the total risk is a probability.  For a distribution function
    that is monotone with values in [[0, 1]], the total risk is the sum
    of the two tail risks and lies in [[0, 1]], in whichever order the
    limits are given. *)
Theorem process_risk_total_within (LL UL : R) :
  (forall x, 0 <= cdf d x <= 1) ->
  (forall x y, x <= y -> cdf d x <= cdf d y) ->
  match process_risk norm_ppf d LL UL with
  | (_, risk_total, risk_lower, risk_upper) =>
      risk_total = risk_lower + risk_upper
      /\ 0 <= risk_lower <= 1 /\ 0 <= risk_upper <= 1
      /\ 0 <= risk_total <= 1
  end.
Proof.
  intros Hrange Hmono. unfold process_risk.
  rewrite py_min_Rmin, py_max_Rmax. at_R.
  destruct (Hrange (Rmin LL UL)) as [Hlo0 Hlo1].
  destruct (Hrange (Rmax LL UL)) as [Hhi0 Hhi1].
  assert (Hle : cdf d (Rmin LL UL) <= cdf d (Rmax LL UL)).
  { apply Hmono. apply Rle_trans with LL; [apply Rmin_l | apply Rmax_l]. }
  repeat split; lra.
Qed.

(** X8: the capability index of a normal process, in exact
    arithmetic.  With the limits in order and a positive standard
    deviation, over the real numbers [cpk] is the distance from the
    mean to the nearer limit over three standard deviations: it is not
    negative exactly when the mean lies between the limits, and for a
    mean half way between them it is [(UL - LL) / (6 * std)]. *)
Theorem process_risk_normal_cpk (LL UL : R) :
  dist_name d = "norm" ->
  0 < std d ->
  LL <= UL ->
  match process_risk norm_ppf d LL UL with
  | (cpk, _, _, _) =>
      cpk = Rmin ((UL - mean d) / (3 * std d)) ((mean d - LL) / (3 * std d))
      /\ (0 <= cpk <-> LL <= mean d <= UL)
      /\ (mean d = (LL + UL) / 2 -> cpk = (UL - LL) / (6 * std d))
  end.
Proof.
  intros Hname Hstd Hle. unfold process_risk. rewrite Hname.
  cbn [String.eqb Ascii.eqb Bool.eqb].
  rewrite !py_min_Rmin, py_max_Rmax. at_R.
  rewrite (Rmin_left LL UL Hle), (Rmax_right LL UL Hle).
  assert (H3 : 0 < 3 * std d) by lra.
  assert (Hinv : 0 < / (3 * std d)) by now apply Rinv_0_lt_compat.
  split; [reflexivity |]. split.
  - unfold Rdiv. split.
    + intros Hmin.
      pose proof (Rmin_l ((UL - mean d) * / (3 * std d))
                         ((mean d - LL) * / (3 * std d))) as Hl.
      pose proof (Rmin_r ((UL - mean d) * / (3 * std d))
                         ((mean d - LL) * / (3 * std d))) as Hr.
      split; nra.
    + intros [Hlo Hhi]. apply Rmin_glb; nra.
  - intros Hmid. rewrite Hmid.
    replace ((UL - (LL + UL) / 2) / (3 * std d))
      with ((UL - LL) / (6 * std d)) by (field; lra).
    replace (((LL + UL) / 2 - LL) / (3 * std d))
      with ((UL - LL) / (6 * std d)) by (field; lra).
    apply Rmin_left. lra.
Qed.

(** X9: the sign of the capability index of any other process.  It is
    computed from the two tail risks; it is not positive when one of
    them exceeds one half and not negative otherwise. *)
Theorem process_risk_other_cpk_sign (LL UL : R) :
  dist_name d <> "norm" ->
  match process_risk norm_ppf d LL UL with
  | (cpk, _, risk_lower, risk_upper) =>
      (1 / 2 < risk_lower \/ 1 / 2 < risk_upper -> cpk <= 0)
      /\ (risk_lower <= 1 / 2 /\ risk_upper <= 1 / 2 -> 0 <= cpk)
  end.
Proof.
  intros Hname. unfold process_risk.
  destruct (String.eqb_spec (dist_name d) "norm") as [Heq | _];
    [contradiction |].
  rewrite !py_max_Rmax, !py_min_Rmin. unfold frac. at_R.
  set (lower := cdf d _). set (upper := 1 - cdf d _).
  set (m := Rmin (Rabs _ / 3) _).
  pose proof (Rmax_l 0 m) as Hmax.
  unfold Rltb.
  destruct (Rlt_dec (5 / 10) lower) as [Hl | Hl];
    destruct (Rlt_dec (5 / 10) upper) as [Hu | Hu]; cbn [orb];
    split; intros Hcase; destruct Hcase; lra.
Qed.
End ProcessRisk.

Lemma process_risk_total_within_witness :
  match process_risk even_ppf (even_norm 0 1) (-1) 1 with
  | (_, risk_total, risk_lower, risk_upper) =>
      risk_total = risk_lower + risk_upper
      /\ 0 <= risk_lower <= 1 /\ 0 <= risk_upper <= 1
      /\ 0 <= risk_total <= 1
  end.
Proof.
  apply (process_risk_total_within even_ppf (even_norm 0 1) (-1) 1).
  - intros x. apply ramp_range, sqrt3_positive.
  - intros x y Hle. apply ramp_monotone; [apply sqrt3_positive |]. at_R. lra.
Defined.

Lemma process_risk_normal_cpk_witness :
  let d := even_norm 0 (1 / 2) in
  match process_risk even_ppf d (-2) 2 with
  | (cpk, _, _, _) =>
      cpk = Rmin ((2 - mean d) / (3 * std d)) ((mean d - -2) / (3 * std d))
      /\ (0 <= cpk <-> -2 <= mean d <= 2)
      /\ (mean d = (-2 + 2) / 2 -> cpk = (2 - -2) / (6 * std d))
  end.
Proof.
  apply (process_risk_normal_cpk even_ppf (even_norm 0 (1 / 2)) (-2) 2).
  - reflexivity.
  - cbn. lra.
  - lra.
Defined.

Lemma process_risk_other_cpk_sign_witness :
  match process_risk even_ppf (uniform_dist 0 1) (-1) 1 with
  | (cpk, _, risk_lower, risk_upper) =>
      (1 / 2 < risk_lower \/ 1 / 2 < risk_upper -> cpk <= 0)
      /\ (risk_lower <= 1 / 2 /\ risk_upper <= 1 / 2 -> 0 <= cpk)
  end.
Proof.
  apply (process_risk_other_cpk_sign even_ppf (uniform_dist 0 1) (-1) 1).
  discriminate.
Defined.

End riskcalc_facts.

(** ** The [Risk] object *)

Module riskobject_facts.
Import risk riskcalc risk_examples.
Local Open Scope R_scope.

Section RiskObject.
Variable norm_ppf : R -> R.
Variable stats_norm : R -> R -> rv_frozen (A := R).

Lemma is_simple_true (self : Risk) :
  is_simple self = true ->
  exists p t,
    procdist self = Some p /\ testdist self = Some t
    /\ median p = 0
    /\ dist_name p = "norm" /\ dist_name t = "norm"
    /\ speclimits self = (-1, 1)
    /\ snd (risk.guardband self) = fst (risk.guardband self).
Proof.
  unfold is_simple.
  destruct (procdist self) as [p |]; [| discriminate].
  destruct (testdist self) as [t |]; [| discriminate].
  destruct (speclimits self) as [LL UL]. cbn [fst snd]. at_R.
  destruct (Reqb (median p) 0) eqn:Hm; [| discriminate].
  destruct (String.eqb_spec (dist_name p) "norm") as [Hp |]; [| discriminate].
  destruct (String.eqb_spec (dist_name t) "norm") as [Ht |]; [| discriminate].
  destruct (Reqb UL 1) eqn:HU; [| discriminate].
  destruct (Reqb LL (-1)) eqn:HL; [| discriminate].
  destruct (Reqb (snd (risk.guardband self)) (fst (risk.guardband self))) eqn:Hg;
    [| discriminate].
  intros _. apply Reqb_true in Hm, HU, HL, Hg. subst LL UL.
  exists p, t. repeat split; assumption.
Qed.

Lemma get_gbf_set_gbf_unit (s : Risk) (g : R) :
  speclimits s = (-1, 1) -> get_gbf (set_gbf s g) = g.
Proof.
  intros Hsl. unfold get_gbf, set_gbf, set_guardband.
  cbn [speclimits risk.guardband fst snd]. rewrite Hsl. cbn [fst snd]. at_R.
  field.
Qed.

(** [to_simple] does not raise; what it returns is in the simple form
    but for the distributions, whose family is the library's. *)
Lemma to_simple_inv (self : Risk) :
  exists s' p t,
    to_simple norm_ppf stats_norm self = Ok s'
    /\ speclimits s' = (-1, 1)
    /\ fst (risk.guardband s') = snd (risk.guardband s')
    /\ get_gbf s' = get_gbf self
    /\ procdist s' = Some p /\ testdist s' = Some t
    /\ name s' = name self /\ description s' = description self.
Proof.
  unfold to_simple. destruct (is_simple self) eqn:Hsimple.
  - destruct (is_simple_true self Hsimple)
      as (p & t & Hp & Ht & _ & _ & _ & Hsl & Hg).
    exists self, p, t. repeat split; auto.
  - assert (Htur : exists tur,
               match testdist self with
               | Some _ => get_tur self
               | None => Ok (lit 4)
               end = Ok tur).
    { unfold get_tur. destruct (testdist self); eexists; reflexivity. }
    assert (Hitp : exists itp,
               match procdist self with
               | Some _ => get_itp norm_ppf self
               | None => Ok (frac 95 100)
               end = Ok itp).
    { unfold get_itp, proc_risk, cpk.
      destruct (procdist self) as [p |]; [| eexists; reflexivity].
      cbn [bind]. destruct (process_risk _ _ _ _) as [[[c total] lo] up].
      eexists. reflexivity. }
    destruct Htur as [tur ->], Hitp as [itp ->]. cbn [bind].
    eexists _, _, _. split; [reflexivity |].
    split; [reflexivity |]. split; [reflexivity |].
    split; [apply get_gbf_set_gbf_unit; reflexivity |].
    repeat split; reflexivity.
Qed.


(** X11: [set_tur] and [get_tur], in exact arithmetic.  For a library
    whose normal distribution of scale [s > 0] has standard deviation
    [s], on an object whose limits differ, [set_tur(tur)] with
    [tur > 0] does not raise and, over the real numbers, [get_tur()]
    then returns [tur]. *)
Theorem set_tur_get_tur (self : Risk) (tur : R) :
  (forall loc scale, 0 < scale -> std (stats_norm loc scale) = scale) ->
  fst (speclimits self) <> snd (speclimits self) ->
  0 < tur ->
  match set_tur norm_ppf stats_norm self tur with
  | Ok s' => get_tur s' = Ok tur
  | Raise _ => False
  end.
Proof.
  intros Hstd _ Htur. unfold set_tur.
  destruct (to_simple_inv self)
    as (s1 & p & t & -> & Hsl & _ & _ & _ & Ht & _).
  cbn [bind]. unfold get_testmedian. rewrite Ht. cbn [bind].
  unfold get_tur, set_testdist. cbn [speclimits testdist]. rewrite Hsl.
  cbn [fst snd]. at_R.
  assert (Hscale : 0 < 1 / tur / 2).
  { unfold Rdiv. rewrite Rmult_1_l.
    apply Rmult_lt_0_compat; [now apply Rinv_0_lt_compat | lra]. }
  rewrite (Hstd _ _ Hscale). f_equal. field. lra.
Qed.

(** X12: [set_testmedian] and [get_testmedian].  For a library whose
    normal distribution of scale [s > 0] has median [loc] and standard
    deviation [s], on an object whose test distribution has a positive
    standard deviation, [set_testmedian(m)] makes [get_testmedian()]
    return [m] and leaves [get_tur()] as it was. *)
Theorem set_testmedian_get_testmedian (self : Risk) (d : rv_frozen) (m : R) :
  (forall loc scale, 0 < scale ->
     median (stats_norm loc scale) = loc
     /\ std (stats_norm loc scale) = scale) ->
  testdist self = Some d ->
  0 < std d ->
  match set_testmedian stats_norm self m with
  | Ok s' => get_testmedian s' = Ok m /\ get_tur s' = get_tur self
  | Raise _ => False
  end.
Proof.
  intros Hnorm Hd Hpos. unfold set_testmedian. rewrite Hd.
  destruct (Hnorm m (std d) Hpos) as [Hmed Hstd].
  unfold get_testmedian, get_tur, set_testdist.
  cbn [testdist speclimits]. rewrite Hd, Hmed, Hstd. now split.
Qed.

(** X13: [set_itp] and [get_itp], in exact arithmetic.  For a library
    whose centred normal distribution of scale [s > 0] has the
    distribution function [Phi(x / s)], with [Phi(-x) = 1 - Phi(x)],
    and whose [ppf] inverts [Phi] on [(0, 1)] and is positive above one
    half: on an object whose limits differ, [set_itp(itp)] with
    [0 < itp < 1] does not raise and, over the real numbers,
    [get_itp()] then returns [itp]. *)
Theorem set_itp_get_itp (Phi : R -> R) (self : Risk) (itp : R) :
  (forall s x, 0 < s -> cdf (stats_norm 0 s) x = Phi (x / s)) ->
  (forall x, Phi (- x) = 1 - Phi x) ->
  (forall q, 0 < q < 1 -> Phi (norm_ppf q) = q) ->
  (forall q, 1 / 2 < q < 1 -> 0 < norm_ppf q) ->
  fst (speclimits self) <> snd (speclimits self) ->
  0 < itp < 1 ->
  match set_itp norm_ppf stats_norm self itp with
  | Ok s' => get_itp norm_ppf s' = Ok itp
  | Raise _ => False
  end.
Proof.
  intros Hcdf Hsym Hinv Hpos _ [Hitp0 Hitp1]. unfold set_itp.
  destruct (to_simple_inv self)
    as (s1 & p & t & -> & Hsl & _ & _ & _ & _ & _).
  cbn [bind]. unfold get_itp, proc_risk, cpk, set_procdist.
  cbn [procdist speclimits bind]. rewrite Hsl. cbn [fst snd].
  unfold process_risk. rewrite py_min_Rmin, py_max_Rmax.
  rewrite Rmin_left, Rmax_right by lra.
  cbn [bind]. at_R. f_equal.
  set (q := (1 + itp) / 2).
  assert (Hq : 1 / 2 < q < 1) by (unfold q; lra).
  pose proof (Hpos q Hq) as Hz.
  assert (Hs : 0 < 1 / norm_ppf q).
  { unfold Rdiv. rewrite Rmult_1_l. now apply Rinv_0_lt_compat. }
  rewrite !(Hcdf _ _ Hs).
  replace (-1 / (1 / norm_ppf q)) with (- norm_ppf q) by (field; lra).
  replace (1 / (1 / norm_ppf q)) with (norm_ppf q) by (field; lra).
  rewrite Hsym, Hinv by lra. unfold q. lra.
Qed.
End RiskObject.


Lemma set_tur_get_tur_witness :
  match set_tur even_ppf even_norm even_risk 4 with
  | Ok s' => get_tur s' = Ok 4
  | Raise _ => False
  end.
Proof.
  apply (set_tur_get_tur even_ppf even_norm even_risk 4).
  - intros loc scale Hscale. reflexivity.
  - cbn. lra.
  - lra.
Defined.

Lemma set_testmedian_get_testmedian_witness :
  match set_testmedian even_norm even_risk (1 / 4) with
  | Ok s' => get_testmedian s' = Ok (1 / 4) /\ get_tur s' = get_tur even_risk
  | Raise _ => False
  end.
Proof.
  apply (set_testmedian_get_testmedian even_norm even_risk
           (even_norm 0 (1 / 8)) (1 / 4)).
  - intros loc scale Hscale. split; reflexivity.
  - reflexivity.
  - cbn. lra.
Defined.

Lemma set_itp_get_itp_witness :
  match set_itp even_ppf even_norm even_risk (9 / 10) with
  | Ok s' => get_itp even_ppf s' = Ok (9 / 10)
  | Raise _ => False
  end.
Proof.
  apply (set_itp_get_itp even_ppf even_norm (ramp (sqrt 3)) even_risk (9 / 10)).
  - intros s x Hs. unfold even_norm, location_scale. cbn [cdf]. at_R.
    now replace (x - 0) with x by lra.
  - intros x. apply ramp_symmetric; try apply sqrt3_positive.
  - intros q. apply ramp_ppf_inverse, sqrt3_positive.
  - intros q. apply ramp_ppf_positive, sqrt3_positive.
  - cbn. lra.
  - lra.
Defined.

(** ** Guard bands of the [Risk] object *)

Section GuardBand.
Variable norm_ppf np_exp np_log : R -> R.
Variable PFA_norm : R -> R -> R -> R.
Variable fsolve : (R -> R) -> R -> R.
Variable PFA_approx :
  rv_frozen (A := R) -> rv_frozen (A := R) -> R -> R -> R -> R -> R.
Variable brentq : (R -> R) -> R -> R -> result (R * bool).
Variable nan : R.

Lemma guardband_norm_test (tur : R) (kwargs : gmap string R) :
  tur <> 0 ->
  guardband_norm np_exp np_log PFA_norm fsolve "test" tur kwargs
  = Ok (if Rle_dec tur 4 then 1 - 1 / tur else 1).
Proof.
  intros Hz. apply Reqb_false in Hz.
  unfold guardband_norm, py_inverse.
  cbn [String.eqb Ascii.eqb Bool.eqb]. at_R. rewrite Hz.
  unfold Rleb. now destruct (Rle_dec tur 4).
Qed.

(** X14: the guard band of method ['test'], in exact arithmetic.  On
    an object with both distributions, limits that differ and a test
    distribution of positive standard deviation (so that the test
    uncertainty ratio is not zero), [calc_guardband('test')] does not
    raise; over the real numbers it sets both guard-band offsets to
    twice the standard deviation of the test distribution when the test
    uncertainty ratio is at most [4], and to [0] otherwise, and changes
    nothing else. *)
Theorem calc_guardband_test (self : Risk) (p t : rv_frozen)
    (pfa : option R) :
  procdist self = Some p ->
  testdist self = Some t ->
  fst (speclimits self) <> snd (speclimits self) ->
  0 < std t ->
  match calc_guardband norm_ppf np_exp np_log PFA_norm fsolve PFA_approx
          brentq nan self "test" pfa with
  | Ok s' =>
      exists tur,
        get_tur self = Ok tur
        /\ (tur <= 4 ->
            risk.guardband s' = (2 * std t, 2 * std t))
        /\ (4 < tur -> risk.guardband s' = (0, 0))
        /\ s' = set_guardband self (fst (risk.guardband s'))
                  (snd (risk.guardband s'))
  | Raise _ => False
  end.
Proof.
  intros Hp Ht Hsl Hstd. unfold calc_guardband.
  rewrite orb_true_r.
  unfold get_tur, get_itp, proc_risk, cpk. rewrite Hp, Ht. cbn [bind].
  destruct (process_risk _ _ _ _) as [[[c total] lo] up]. cbn [bind].
  cbn [String.eqb Ascii.eqb Bool.eqb]. at_R.
  set (rng := (snd (speclimits self) - fst (speclimits self)) / 2).
  assert (Hrng : rng <> 0) by (unfold rng; lra).
  set (tur := rng / (std t * 2)).
  assert (Htur : tur <> 0).
  { unfold tur, Rdiv. apply Rmult_integral_contrapositive_currified;
      [exact Hrng | apply Rinv_neq_0_compat; lra]. }
  assert (Hgbf : exists gbf,
            (if Rle_dec tur 4 then gbf = 1 - 1 / tur else gbf = 1)
            /\ match pfa with
               | Some target =>
                   let* gbf := guardband_norm np_exp np_log PFA_norm fsolve
                                 "test" tur
                                 {[ "pfa" := target; "itp" := 1 - total ]} in
                   Ok (set_gbf self gbf)
               | None =>
                   let* gbf := guardband_norm np_exp np_log PFA_norm fsolve
                                 "test" tur {[ "itp" := 1 - total ]} in
                   Ok (set_gbf self gbf)
               end = Ok (set_gbf self gbf)).
  { exists (if Rle_dec tur 4 then 1 - 1 / tur else 1).
    split; [now destruct (Rle_dec tur 4) |].
    destruct pfa; now rewrite (guardband_norm_test _ _ Htur). }
  destruct Hgbf as (gbf & Hgbf & ->).
  exists tur. split; [reflexivity |].
  unfold set_gbf, set_guardband. cbn [risk.guardband fst snd]. at_R.
  fold rng.
  destruct (Rle_dec tur 4) as [Hle | Hgt]; subst gbf;
    (split; [intros Hcase | split; [intros Hcase | reflexivity]]);
    try lra; f_equal; unfold tur; field; lra.
Qed.
End GuardBand.

Lemma calc_guardband_test_witness :
  match calc_guardband even_ppf exp ln (fun _ _ _ => 0) (fun _ x0 => x0)
          (fun _ _ _ _ _ _ => 0) (fun _ _ _ => Raise ValueError) 0
          even_risk "test" None with
  | Ok s' =>
      exists tur,
        get_tur even_risk = Ok tur
        /\ (tur <= 4 ->
            risk.guardband s'
            = (2 * std (even_norm 0 (1 / 8)), 2 * std (even_norm 0 (1 / 8))))
        /\ (4 < tur -> risk.guardband s' = (0, 0))
        /\ s' = set_guardband even_risk (fst (risk.guardband s'))
                  (snd (risk.guardband s'))
  | Raise _ => False
  end.
Proof.
  apply (calc_guardband_test even_ppf exp ln (fun _ _ _ => 0) (fun _ x0 => x0)
           (fun _ _ _ _ _ _ => 0) (fun _ _ _ => Raise ValueError) 0
           even_risk (even_norm 0 (1 / 2)) (even_norm 0 (1 / 8)) None).
  - reflexivity.
  - reflexivity.
  - cbn. lra.
  - cbn. lra.
Defined.

(** ** Configuration dictionaries of the [Risk] object *)

Section Config.
Context {A : Type} `{PyNum A} {D : Type}.
Variable dist_get_config : rv_frozen (A := A) -> D.
Variable dist_from_config : D -> result (rv_frozen (A := A)).
Variable customdists_normal : A -> rv_frozen (A := A).

(** X15: a configuration round trip.  When the distribution library
    reads back the dictionaries it writes, [from_config] applied to the
    dictionary of [get_config()] does not raise and rebuilds the object:
    name, description, both distributions ([None] included), limits and
    guard-band offsets. *)
Theorem from_config_get_config (self : Risk) :
  (forall d, dist_from_config (dist_get_config d) = Ok d) ->
  from_config dist_from_config customdists_normal
    (get_config dist_get_config self)
  = Ok self.
Proof.
  intros Hdist. unfold from_config, get_config.
  destruct self as [n desc pd td [LL UL] [GBL GBU]].
  cbn [c_name c_desc c_distproc c_disttest c_GBL c_GBU c_LL c_UL
       name description procdist testdist speclimits risk.guardband
       fst snd default option_map init set_speclimits set_guardband
       set_procdist set_testdist].
  destruct pd as [pd |], td as [td |]; cbn [option_map bind];
    rewrite ?Hdist; reflexivity.
Qed.
End Config.

Lemma from_config_get_config_witness :
  from_config (A := R) (D := rv_frozen) Ok (fun s => even_norm 0 s)
    (get_config (fun d => d) even_risk)
  = Ok even_risk.
Proof.
  apply (from_config_get_config (fun d => d) Ok (fun s => even_norm 0 s)
           even_risk).
  intros d. reflexivity.
Defined.

(** ** Monte Carlo risk: probabilities *)

(** X16: the Monte Carlo estimates are probabilities.  When
    [dist_proc.rvs(size=N)] returns [N] samples and [N >= 1], both
    results of [PFAR_MC] lie in [[0, 1]]. *)
Theorem PFAR_MC_within (proc_rvs : nat -> list R)
    (test_rvs : list R -> list R) (dist_test : rv_frozen)
    (LL UL GBL GBU : R) (N : nat) :
  (0 < N)%nat ->
  length (proc_rvs N) = N ->
  match PFAR_MC proc_rvs test_rvs dist_test LL UL GBL GBU N with
  | (FA, FR, _, _) => 0 <= FA <= 1 /\ 0 <= FR <= 1
  end.
Proof.
  intros HN Hlen. unfold PFAR_MC. at_R.
  assert (Hcount : forall (mask : R -> R -> bool) (ps ts : list R),
            length ps = N ->
            0 <= IZR (Z.of_nat (count_nonzero mask ps ts))
                 / IZR (Z.of_nat N) <= 1).
  { intros mask ps ts Hps.
    apply mcmc_facts.fraction_within; [apply IZR_lt; lia |].
    assert (Hle : (count_nonzero mask ps ts <= N)%nat).
    { unfold count_nonzero.
      etransitivity; [apply length_filter |].
      rewrite length_combine. lia. }
    split; apply IZR_le; lia. }
  split; apply Hcount; exact Hlen.
Qed.

Lemma PFAR_MC_within_witness :
  match PFAR_MC (fun n => repeat 0 n) (fun locs => locs) (even_norm 0 1)
          (-1) 1 0 0 3 with
  | (FA, FR, _, _) => 0 <= FA <= 1 /\ 0 <= FR <= 1
  end.
Proof.
  apply (PFAR_MC_within (fun n => repeat 0 n) (fun locs => locs)
           (even_norm 0 1) (-1) 1 0 0 3).
  - lia.
  - reflexivity.
Defined.

End riskobject_facts.

(** ** Risk from tabulated distributions *)

Module riskdiscrete_facts.
Import curvefit riskdiscrete.
Local Open Scope R_scope.

Lemma py_sum_nonneg (l : list R) :
  List.Forall (fun v => 0 <= v) l -> 0 <= py_sum l.
Proof.
  intros Hall. induction Hall as [| v l Hv _ IH].
  - rewrite py_sum_nil. lra.
  - rewrite py_sum_cons. lra.
Qed.

Section Discrete.
Variable np_median : list R -> R.
Variable np_histogram : list R -> list R * list R.

Lemma np_trapz_nonneg (y : list R) (dx : R) :
  List.Forall (fun v => 0 <= v) y -> 0 <= dx -> 0 <= np_trapz y dx.
Proof.
  intros Hy Hdx. unfold np_trapz. apply py_sum_nonneg.
  destruct Hy as [| a y Ha Hy]; [constructor |]. cbn [tl].
  revert a Ha. induction Hy as [| b y Hb Hy IH]; intros a Ha; [constructor |].
  cbn [map2]. constructor; [| apply IH, Hb].
  at_R. unfold Rdiv. nra.
Qed.

Lemma take_where_none (mask : R -> bool) (xs ys : list R) :
  List.Forall (fun x => mask x = false) xs -> take_where mask xs ys = Ok [].
Proof.
  intros Hall. revert ys.
  induction Hall as [| x xs Hx _ IH]; intros ys; [reflexivity |].
  cbn [take_where]. rewrite Hx. apply IH.
Qed.

Lemma filter_none (mask : R -> bool) (xs : list R) :
  List.Forall (fun x => mask x = false) xs -> filter mask xs = [].
Proof.
  intros Hall. induction Hall as [| x xs Hx _ IH]; [reflexivity |].
  rewrite filter_cons_False; [exact IH |]. rewrite Hx. intros [].
Qed.

Lemma take_where_total (P : R -> Prop) (mask : R -> bool) (xs ys : list R) :
  length xs = length ys ->
  List.Forall P ys ->
  exists sel, take_where mask xs ys = Ok sel /\ List.Forall P sel.
Proof.
  revert ys. induction xs as [| x xs IH]; intros [| y ys] Hlen Hall;
    try discriminate.
  - exists []. split; [reflexivity | constructor].
  - injection Hlen as Hlen. inversion Hall as [| ? ? Hy Hys]; subst.
    destruct (IH ys Hlen Hys) as (sel & Hsel & HP).
    cbn [take_where tl]. destruct (mask x).
    + rewrite Hsel. cbn [bind]. exists (y :: sel). split; [reflexivity |].
      now constructor.
    + exists sel. now split.
Qed.

Lemma zip_where_total (mask : R -> bool) (procx procy : list R) :
  length procx = length procy ->
  List.Forall (fun v => 0 <= v) procy ->
  exists pairs,
    zip_where mask procx procy = Ok pairs
    /\ List.Forall (fun tu => 0 <= snd tu) pairs.
Proof.
  intros Hlen Hall. unfold zip_where.
  destruct (take_where_total _ mask procx procy Hlen Hall) as (ys & -> & Hys).
  cbn [bind]. eexists. split; [reflexivity |].
  generalize (filter mask procx) as xs. clear -Hys.
  induction Hys as [| y ys Hy _ IH]; intros [| x xs]; cbn [combine];
    try constructor; auto.
Qed.

Section Loop.
Variables testx testy : list R.
Variables testmed dx : R.
Hypothesis test_lengths : length testx = length testy.
Hypothesis testy_nonneg : List.Forall (fun v => 0 <= v) testy.
Hypothesis dx_nonneg : 0 <= dx.

Lemma add_mass_nonneg (accept : R -> bool) (c : R) (tu : R * R) :
  0 <= c -> 0 <= snd tu ->
  exists c', add_mass testx testy testmed dx accept c tu = Ok c' /\ 0 <= c'.
Proof.
  intros Hc Hut. destruct tu as [t ut]. cbn [snd] in Hut. unfold add_mass.
  destruct (take_where_total _ (fun tx => accept (tx + t - testmed)%num)
              testx testy test_lengths testy_nonneg) as (sel & -> & Hsel).
  cbn [bind]. eexists. split; [reflexivity |]. at_R.
  assert (0 <= np_trapz (map (fun ty => ut * ty) sel) dx).
  { apply np_trapz_nonneg; [| exact dx_nonneg].
    apply List.Forall_map. eapply List.Forall_impl; [| exact Hsel].
    cbn. intros v Hv. nra. }
  lra.
Qed.

Lemma fold_nonneg (step : R -> R * R -> result R) (pairs : list (R * R)) :
  (forall c tu, 0 <= c -> 0 <= snd tu ->
                exists c', step c tu = Ok c' /\ 0 <= c') ->
  List.Forall (fun tu => 0 <= snd tu) pairs ->
  forall c, 0 <= c ->
    exists c', fold_result step pairs c = Ok c' /\ 0 <= c'.
Proof.
  intros Hstep Hall. induction Hall as [| tu pairs Htu _ IH]; intros c Hc.
  - exists c. now split.
  - cbn [fold_result]. destruct (Hstep c tu Hc Htu) as (c1 & -> & Hc1).
    cbn [bind]. apply IH, Hc1.
Qed.
End Loop.

Lemma grid_Grid (x y : list R) :
  (2 <= length x)%nat ->
  grid np_histogram (Grid x y) = Ok (x, y, nth 1 x 0 - nth 0 x 0).
Proof.
  intros Hlen. destruct x as [| x0 [| x1 x]]; cbn in Hlen; try lia.
  reflexivity.
Qed.

(** X17: a tabulated false-accept probability is not negative.  For
    two tabulated distributions [(x, pdf(x))], each on a grid of at
    least two points given in increasing order with one density per
    point, none of them negative, [_PFA_discrete] does not raise and
    its result is not negative. *)
Theorem PFA_discrete_nonneg (procx procy testx testy : list R)
    (LL UL GBL GBU : R) :
  (2 <= length procx)%nat -> length procx = length procy ->
  (2 <= length testx)%nat -> length testx = length testy ->
  nth 0 procx 0 <= nth 1 procx 0 ->
  nth 0 testx 0 <= nth 1 testx 0 ->
  List.Forall (fun v => 0 <= v) procy ->
  List.Forall (fun v => 0 <= v) testy ->
  exists c,
    _PFA_discrete np_median np_histogram (Grid procx procy)
      (Grid testx testy) LL UL GBL GBU = Ok c
    /\ 0 <= c.
Proof.
  intros Hp2 Hpl Ht2 Htl Hdy Hdx Hpy Hty. unfold _PFA_discrete.
  rewrite (grid_Grid _ _ Hp2), (grid_Grid _ _ Ht2). cbn [bind].
  assert (Hdx' : 0 <= nth 1 testx 0 - nth 0 testx 0) by lra.
  destruct (zip_where_total (fun t => (t >? UL)%num) procx procy Hpl Hpy)
    as (above & -> & Habove).
  cbn [bind].
  match goal with
  | |- context [fold_result ?step above ?c0] =>
      destruct (fold_nonneg step above) with (c := c0)
        as (c1 & -> & Hc1);
        [intros c tu; apply add_mass_nonneg; assumption
        | exact Habove | at_R; lra |]
  end.
  cbn [bind].
  destruct (zip_where_total (fun t => (t <? LL)%num) procx procy Hpl Hpy)
    as (below & -> & Hbelow).
  cbn [bind].
  match goal with
  | |- context [fold_result ?step below ?c0] =>
      destruct (fold_nonneg step below) with (c := c0)
        as (c2 & -> & Hc2);
        [intros c tu; apply add_mass_nonneg; assumption
        | exact Hbelow | exact Hc1 |]
  end.
  cbn [bind]. eexists. split; [reflexivity |]. at_R. nra.
Qed.

(** X18: no false accept without an out-of-tolerance process.  When
    every point of the process grid lies within the specification
    limits, [_PFA_discrete] returns [0], whatever the densities and the
    test distribution are. *)
Theorem PFA_discrete_zero (procx procy testx testy : list R)
    (LL UL GBL GBU : R) :
  (2 <= length procx)%nat ->
  (2 <= length testx)%nat ->
  List.Forall (fun t => LL <= t <= UL) procx ->
  _PFA_discrete np_median np_histogram (Grid procx procy)
    (Grid testx testy) LL UL GBL GBU = Ok 0.
Proof.
  intros Hp2 Ht2 Hin. unfold _PFA_discrete.
  rewrite (grid_Grid _ _ Hp2), (grid_Grid _ _ Ht2). cbn [bind].
  assert (Habove : List.Forall (fun t => (t >? UL)%num = false) procx).
  { eapply List.Forall_impl; [| exact Hin]. cbn. intros t [_ Ht].
    apply Rltb_false. lra. }
  assert (Hbelow : List.Forall (fun t => (t <? LL)%num = false) procx).
  { eapply List.Forall_impl; [| exact Hin]. cbn. intros t [Ht _].
    apply Rltb_false. lra. }
  unfold zip_where.
  rewrite (take_where_none _ _ _ Habove), (take_where_none _ _ _ Hbelow).
  cbn [bind]. rewrite (filter_none _ _ Habove), (filter_none _ _ Hbelow).
  cbn [combine fold_result bind]. at_R. f_equal. ring.
Qed.

(** X19: a tabulated false-reject probability is not negative, under
    the conditions of X17. *)
Theorem PFR_discrete_nonneg (procx procy testx testy : list R)
    (LL UL GBL GBU : R) :
  (2 <= length procx)%nat -> length procx = length procy ->
  (2 <= length testx)%nat -> length testx = length testy ->
  nth 0 procx 0 <= nth 1 procx 0 ->
  nth 0 testx 0 <= nth 1 testx 0 ->
  List.Forall (fun v => 0 <= v) procy ->
  List.Forall (fun v => 0 <= v) testy ->
  exists c,
    _PFR_discrete np_median np_histogram (Grid procx procy)
      (Grid testx testy) LL UL GBL GBU = Ok c
    /\ 0 <= c.
Proof.
  intros Hp2 Hpl Ht2 Htl Hdy Hdx Hpy Hty. unfold _PFR_discrete.
  rewrite (grid_Grid _ _ Hp2), (grid_Grid _ _ Ht2). cbn [bind].
  assert (Hdx' : 0 <= nth 1 testx 0 - nth 0 testx 0) by lra.
  destruct (zip_where_total (fun t => ((t >? LL) && (t <? UL))%num)
              procx procy Hpl Hpy) as (inside & -> & Hinside).
  cbn [bind].
  match goal with
  | |- context [fold_result ?step inside ?c0] =>
      destruct (fold_nonneg step inside) with (c := c0)
        as (c1 & -> & Hc1); [| exact Hinside | at_R; lra |]
  end.
  - intros c tu Hc Htu.
    destruct (add_mass_nonneg testx testy (np_median testx) _ Htl Hty Hdx'
                (fun v => (v >? UL - GBU)%num) c tu Hc Htu) as (c' & -> & Hc').
    cbn [bind].
    apply (add_mass_nonneg testx testy (np_median testx) _ Htl Hty Hdx'
             (fun v => (v <? LL + GBL)%num) c' tu Hc' Htu).
  - cbn [bind]. eexists. split; [reflexivity |]. at_R. nra.
Qed.

(** X20: no false reject without an in-tolerance process.  When no
    point of the process grid lies strictly between the specification
    limits, [_PFR_discrete] returns [0]. *)
Theorem PFR_discrete_zero (procx procy testx testy : list R)
    (LL UL GBL GBU : R) :
  (2 <= length procx)%nat ->
  (2 <= length testx)%nat ->
  List.Forall (fun t => t <= LL \/ UL <= t) procx ->
  _PFR_discrete np_median np_histogram (Grid procx procy)
    (Grid testx testy) LL UL GBL GBU = Ok 0.
Proof.
  intros Hp2 Ht2 Hout. unfold _PFR_discrete.
  rewrite (grid_Grid _ _ Hp2), (grid_Grid _ _ Ht2). cbn [bind].
  assert (Hnone : List.Forall
            (fun t => ((t >? LL) && (t <? UL))%num = false) procx).
  { eapply List.Forall_impl; [| exact Hout]. cbn. intros t Ht.
    apply andb_false_iff. destruct Ht as [Ht | Ht];
      [left | right]; apply Rltb_false; lra. }
  unfold zip_where. rewrite (take_where_none _ _ _ Hnone).
  cbn [bind]. rewrite (filter_none _ _ Hnone).
  cbn [combine fold_result bind]. at_R. f_equal. ring.
Qed.
End Discrete.

(** A process tabulated on [[0; 1; 2]] and a test measurement tabulated
    on [[-1; 0; 1]], with limits [(1/2, 3/2)] in the first two witnesses,
    [(-1, 3)] in the third and [(3, 4)] in the last. *)
Lemma PFA_discrete_nonneg_witness :
  exists c,
    _PFA_discrete (fun l => nth 1 l 0) (fun s => ([], []))
      (Grid [0; 1; 2] [1 / 4; 1 / 2; 1 / 4])
      (Grid [-1; 0; 1] [1 / 4; 1 / 2; 1 / 4]) (1 / 2) (3 / 2) 0 0 = Ok c
    /\ 0 <= c.
Proof.
  apply (PFA_discrete_nonneg (fun l => nth 1 l 0) (fun s => ([], []))
           [0; 1; 2] [1 / 4; 1 / 2; 1 / 4] [-1; 0; 1] [1 / 4; 1 / 2; 1 / 4]
           (1 / 2) (3 / 2) 0 0);
    try (cbn; lia); try reflexivity; try (cbn; lra);
    repeat constructor; lra.
Defined.

Lemma PFR_discrete_nonneg_witness :
  exists c,
    _PFR_discrete (fun l => nth 1 l 0) (fun s => ([], []))
      (Grid [0; 1; 2] [1 / 4; 1 / 2; 1 / 4])
      (Grid [-1; 0; 1] [1 / 4; 1 / 2; 1 / 4]) (1 / 2) (3 / 2) 0 0 = Ok c
    /\ 0 <= c.
Proof.
  apply (PFR_discrete_nonneg (fun l => nth 1 l 0) (fun s => ([], []))
           [0; 1; 2] [1 / 4; 1 / 2; 1 / 4] [-1; 0; 1] [1 / 4; 1 / 2; 1 / 4]
           (1 / 2) (3 / 2) 0 0);
    try (cbn; lia); try reflexivity; try (cbn; lra);
    repeat constructor; lra.
Defined.

Lemma PFA_discrete_zero_witness :
  _PFA_discrete (fun l => nth 1 l 0) (fun s => ([], []))
    (Grid [0; 1; 2] [1 / 4; 1 / 2; 1 / 4])
    (Grid [-1; 0; 1] [1 / 4; 1 / 2; 1 / 4]) (-1) 3 0 0 = Ok 0.
Proof.
  apply (PFA_discrete_zero (fun l => nth 1 l 0) (fun s => ([], []))
           [0; 1; 2] [1 / 4; 1 / 2; 1 / 4] [-1; 0; 1] [1 / 4; 1 / 2; 1 / 4]
           (-1) 3 0 0);
    try (cbn; lia).
  repeat constructor; lra.
Defined.

Lemma PFR_discrete_zero_witness :
  _PFR_discrete (fun l => nth 1 l 0) (fun s => ([], []))
    (Grid [0; 1; 2] [1 / 4; 1 / 2; 1 / 4])
    (Grid [-1; 0; 1] [1 / 4; 1 / 2; 1 / 4]) 3 4 0 0 = Ok 0.
Proof.
  apply (PFR_discrete_zero (fun l => nth 1 l 0) (fun s => ([], []))
           [0; 1; 2] [1 / 4; 1 / 2; 1 / 4] [-1; 0; 1] [1 / 4; 1 / 2; 1 / 4]
           3 4 0 0);
    try (cbn; lia).
  repeat (apply List.Forall_cons; [left; lra |]). apply List.Forall_nil.
Defined.

End riskdiscrete_facts.

(** ** The line fit of points on a line *)

Module linefit_exact_facts.
Import curvefit closed_forms.
Local Open Scope R_scope.

Lemma py_sum_map_combination {T : Type} (h f1 f2 f3 : T -> R)
    (k1 k2 k3 : R) (l : list T) :
  (forall v, h v = k1 * f1 v + k2 * f2 v + k3 * f3 v) ->
  py_sum (map h l)
  = k1 * py_sum (map f1 l) + k2 * py_sum (map f2 l) + k3 * py_sum (map f3 l).
Proof.
  intros Hh. induction l as [| v l IH]; cbn [map].
  - rewrite !py_sum_nil. ring.
  - rewrite !py_sum_cons, IH, Hh. ring.
Qed.

Lemma py_sum_map_const {T : Type} (c : R) (l : list T) :
  py_sum (map (fun _ => c) l) = INR (length l) * c.
Proof.
  induction l as [| v l IH]; cbn [map length].
  - rewrite py_sum_nil. cbn. ring.
  - rewrite py_sum_cons, IH, S_INR. ring.
Qed.

Lemma py_sum_map_zero {T : Type} (f : T -> R) (l : list T) :
  (forall v, 0 <= f v) -> py_sum (map f l) = 0 ->
  forall v, In v l -> f v = 0.
Proof.
  intros Hf. induction l as [| a l IH]; cbn [map]; intros Hsum v Hin;
    [destruct Hin |].
  rewrite py_sum_cons in Hsum.
  pose proof (Hf a) as Ha. pose proof (py_sum_map_nonneg f l Hf) as Hl.
  destruct Hin as [<- | Hin]; [lra |]. apply IH; [lra | exact Hin].
Qed.

Lemma map2_map_map (f g : R -> R) (l : list R) :
  map2 Rmult (map f l) (map g l) = map (fun v => f v * g v) l.
Proof. induction l as [| v l IH]; cbn [map map2]; [| rewrite IH]; reflexivity. Qed.

Section Collinear.
Variable x : list R.
Variables a b : R.
Hypothesis distinct : exists u v, In u x /\ In v x /\ u <> v.
Let y : list R := map (fun xi => a + b * xi) x.
Let m : R := line_mean x.

Lemma x_not_empty : INR (length x) <> 0.
Proof.
  destruct distinct as (u & _ & Hu & _).
  apply not_0_INR. intros Hlen. apply length_zero_iff_nil in Hlen.
  rewrite Hlen in Hu. destruct Hu.
Qed.

Lemma line_st2_sum : line_st2 x = py_sum (map (fun v => (v - m) * (v - m)) x).
Proof.
  unfold line_st2, line_t. fold m. now rewrite map2_diag, map_map.
Qed.

Lemma line_st2_nonzero : line_st2 x <> 0.
Proof.
  rewrite line_st2_sum. intros Hzero.
  destruct distinct as (u & v & Hu & Hv & Hne). apply Hne.
  assert (Hall : forall w, In w x -> w = m).
  { intros w Hw.
    pose proof (py_sum_map_zero (fun v => (v - m) * (v - m)) x
                  (fun v => Rle_0_sqr (v - m)) Hzero w Hw) as Hsq.
    cbn in Hsq. nra. }
  now rewrite (Hall u Hu), (Hall v Hv).
Qed.

Lemma deviations_sum : py_sum (map (fun v => v - m) x) = 0.
Proof.
  rewrite (py_sum_map_combination _ (fun v => v) (fun _ => m) (fun _ => 0)
             1 (-1) 0) by (intros v; ring).
  rewrite map_id, !py_sum_map_const. unfold m, line_mean.
  rewrite len_INR. field. exact x_not_empty.
Qed.

Lemma collinear_slope : line_slope x y = b.
Proof.
  unfold line_slope, line_t, y. fold m. rewrite map2_map_map.
  rewrite (py_sum_map_combination _ (fun v => v - m)
             (fun v => (v - m) * (v - m)) (fun v => v - m) a b (b * m))
    by (intros v; ring).
  rewrite deviations_sum, <- line_st2_sum. field. exact line_st2_nonzero.
Qed.

Lemma collinear_intercept : line_intercept x y = a.
Proof.
  unfold line_intercept. rewrite collinear_slope. unfold y.
  rewrite (py_sum_map_combination (fun xi => a + b * xi) (fun _ => a)
             (fun v => v) (fun _ => 0) 1 b 0) by (intros v; ring).
  rewrite map_id, !py_sum_map_const, len_INR. field. exact x_not_empty.
Qed.

Lemma collinear_syx : line_syx x y = 0.
Proof.
  unfold line_syx. rewrite collinear_slope, collinear_intercept. unfold y.
  rewrite map2_map_l, map2_diag.
  rewrite (py_sum_map_ext _ (fun _ => 0)) by (intros v; cbn; ring).
  rewrite py_sum_map_const. unfold Rdiv. rewrite Rmult_0_r, Rmult_0_l.
  apply sqrt_0.
Qed.

(** X21: the fit of points on a line is that line.  For at least three
    points [(x, a + b * x)] whose [x] are not all equal, and
    uncertainties of which one is zero (the unweighted fit), [linefit]
    returns the slope [b], the intercept [a] and a covariance matrix of
    zeros, in exact arithmetic. *)
Theorem linefit_collinear (sig : list R) (mode : bool) :
  (3 <= length x)%nat ->
  Exists (fun s => s = 0) (broadcast_sig x sig) ->
  linefit x (map (fun xi => a + b * xi) x) sig mode
  = Ok ([b; a], [[0; 0]; [0; 0]]).
Proof.
  intros _ Hzero. fold y.
  pose proof (curvefit_facts.py_all_false_of_zero _ Hzero) as Hbranch.
  assert (Hx : x <> []).
  { intros Hnil. apply x_not_empty. now rewrite Hnil. }
  rewrite (curvefit_facts.linefit_same_length x y sig mode);
    [| exact Hx | apply length_map | rewrite Hbranch; discriminate ].
  f_equal.
  rewrite (curvefit_facts.linefit_zero_branch x y sig mode) by exact Hbranch.
  unfold unweighted_fit, scaled_cov.
  rewrite collinear_slope, collinear_intercept, collinear_syx.
  now rewrite !Rmult_0_r.
Qed.
End Collinear.

Lemma linefit_collinear_witness :
  linefit [0; 1; 2] (map (fun xi => 1 + 2 * xi) [0; 1; 2]) [0] true
  = Ok ([2; 1], [[0; 0]; [0; 0]]).
Proof.
  apply (linefit_collinear [0; 1; 2] 1 2).
  - exists 0, 1. cbn. repeat split; auto; lra.
  - cbn. lia.
  - cbn. apply Exists_cons_hd. reflexivity.
Defined.

End linefit_exact_facts.

(** ** Estimating the uncertainty of y, and the bands *)

Module fit_facts.
Import curvefit.

Section Generic.
Context {A : Type} `{PyNum A} {G : Type}.
Variable L : libs A.
Variable RNG : rng_api A G.
Variable york :
  list A -> list A -> option (list A) -> option (list A) -> bool ->
  result (list A * list (list A)).
Variable arr_clear : Array A -> Array A.
Variable arr_sample : Array A -> nat -> G -> Array A * G.

(** X22: the estimate of [uy] is made once.  When [run_uyestimate]
    completes, running it again changes nothing: an estimate is stored
    only when there is none yet and the data have neither [ux] nor [uy],
    it has one entry per point, all equal, and once stored it is kept.
    The data and every other attribute of the object are untouched. *)
Theorem run_uyestimate_idempotent (self : CurveFit A) :
  match run_uyestimate L york self with
  | Ok self' =>
      run_uyestimate L york self' = Ok self'
      /\ (uy_estimate (arr self) <> None -> self' = self)
      /\ (has_ux (arr self) = true \/ has_uy (arr self) = true ->
          self' = self)
      /\ (uy_estimate (arr self) = None ->
          has_ux (arr self) = false -> has_uy (arr self) = false ->
          exists u, uy_estimate (arr self')
                    = Some (repeat u (length (arr_x (arr self)))))
      /\ arr_x (arr self') = arr_x (arr self)
      /\ arr_y (arr self') = arr_y (arr self)
      /\ arr_uy (arr self') = arr_uy (arr self)
      /\ pnames self' = pnames self
  | Raise _ => True
  end.
Proof.
  unfold run_uyestimate.
  destruct (uy_estimate (arr self)) as [e |] eqn:He; cbn [andb].
  - rewrite He. cbn [andb]. repeat split; try reflexivity. discriminate.
  - destruct (has_ux (arr self)) eqn:Hux; cbn [negb andb].
    + rewrite He, Hux. cbn [negb andb]. repeat split; try reflexivity.
      discriminate.
    + destruct (has_uy (arr self)) eqn:Huy; cbn [negb].
      * rewrite He, Hux, Huy. cbn [negb andb]. repeat split; try reflexivity.
        discriminate.
      * unfold estimate_uy.
        destruct (fitfunc L york self _ _ None None) as [[pcoeff cov] | e];
          [| exact I].
        cbn [bind].
        destruct (eval_func (func self) _ pcoeff) as [fx | e]; [| exact I].
        cbn [bind]. repeat split; try reflexivity.
        -- intros Hne. now contradiction Hne.
        -- intros [Hcase | Hcase]; discriminate.
        -- intros _ _ _. eexists. reflexivity.
Qed.

(** X23: the prediction band contains the confidence band, in exact
    arithmetic.  For a covariance matrix that is positive
    semi-definite, [_get_upred(x, coeff, cov, func, Syx, sigy, xdata,
    mode)] is a [ValueError] for a mode other than ['Syx'], ['sigy'],
    ['sigylast']; otherwise it raises what the term [uy] of the new
    measurement raises (an empty [sigy], an interpolation that fails),
    else what [_get_uconf(x, coeff, cov, func)] raises; and when both
    return, over the real numbers the confidence value [u] is not
    negative, the prediction value [v] is at least [u], and
    [v**2 = u**2 + uy**2]. *)
Theorem upred_at_least_uconf (LR : libs R) (x : R) (coeff : list R)
    (cov : list (list R)) (func : fitfn R) (Syx : R) (sigy : sig_y R)
    (xdata : list R) (mode : string) :
  (forall g : list R, 0 <= dot (vecmat g cov) g)%R ->
  let upred := _get_upred LR x coeff cov func Syx sigy xdata mode in
  if band_mode_ok mode then
    match band_uy LR false x Syx sigy xdata mode,
          _get_uconf LR x coeff cov func with
    | Raise e, _ => upred = Raise e
    | Ok uy, Raise e => upred = Raise e
    | Ok uy, Ok u =>
        exists v, upred = Ok v
                  /\ (0 <= u <= v)%R /\ (v * v = u * u + uy * uy)%R
    end
  else upred = Raise ValueError.
Proof.
  intros Hpsd upred. subst upred. unfold _get_upred.
  destruct (band_mode_ok mode); cbn [negb]; [| reflexivity].
  destruct (band_uy LR false x Syx sigy xdata mode) as [uy | e];
    cbn [bind]; [| reflexivity].
  destruct (_get_uconf LR x coeff cov func) as [u | e] eqn:Hu;
    cbn [bind]; [| reflexivity].
  eexists. split; [reflexivity |].
  assert (Hu0 : (0 <= u)%R).
  { unfold _get_uconf in Hu.
    destruct (approx_fprime LR coeff _ _) as [grad | e]; [| discriminate].
    cbn [bind] in Hu. apply Ok_inv in Hu. subst u. at_R. apply sqrt_pos. }
  unfold sq. at_R.
  pose proof (Rle_0_sqr uy) as Hsq. unfold Rsqr in Hsq.
  assert (Hsum : (0 <= u * u + uy * uy)%R) by nra.
  split; [split; [exact Hu0 |] | now apply sqrt_sqrt].
  rewrite <- (sqrt_square u Hu0) at 1.
  apply sqrt_le_1_alt. lra.
Qed.
End Generic.

Lemma upred_at_least_uconf_witness :
  let func : fitfn R := fun _ p => Ok (hd 0%R p) in
  let upred :=
    _get_upred examples.real_libs 0%R [1%R] [[1%R]] func 1%R
      (SigArray [2%R; 2%R]) [0%R; 1%R] "sigylast" in
  if band_mode_ok "sigylast" then
    match band_uy examples.real_libs false 0%R 1%R (SigArray [2%R; 2%R])
            [0%R; 1%R] "sigylast",
          _get_uconf examples.real_libs 0%R [1%R] [[1%R]] func with
    | Raise e, _ => upred = Raise e
    | Ok uy, Raise e => upred = Raise e
    | Ok uy, Ok u =>
        exists v, upred = Ok v
                  /\ (0 <= u <= v)%R /\ (v * v = u * u + uy * uy)%R
    end
  else upred = Raise ValueError.
Proof.
  intros func.
  apply (upred_at_least_uconf examples.real_libs 0%R [1%R] [[1%R]] func
           1%R (SigArray [2%R; 2%R]) [0%R; 1%R] "sigylast").
  intros g. unfold dot, vecmat. cbn [hd length seq map nth].
  destruct g as [| g0 g']; cbn [map2].
  - rewrite !py_sum_nil. lra.
  - unfold dot. cbn [map2]. destruct g'; cbn [map2];
      rewrite !py_sum_cons, !py_sum_nil; at_R; nra.
Defined.

(** An empty array of uncertainties: ['sigy'] is a [ValueError] and
    ['sigylast'] an [IndexError], before the confidence band is
    computed. *)
Example upred_empty_sigy :
  _get_upred examples.float_libs 0%float [1%float] [[1%float]]
    (fun _ p => Ok (hd 0%float p)) 1%float (SigArray []) [] "sigy"
  = Raise ValueError
  /\ _get_upred examples.float_libs 0%float [1%float] [[1%float]]
       (fun _ p => Ok (hd 0%float p)) 1%float (SigArray []) [] "sigylast"
     = Raise IndexError.
Proof. split; reflexivity. Qed.

(** In binary64 the call completes on the three points without
    uncertainties, and stores one estimate, three times. *)
Example run_uyestimate_example :
  match examples.line_fit with
  | Ok self =>
      match run_uyestimate examples.float_libs examples.no_york self with
      | Ok self' =>
          uy_estimate (arr self')
          = Some (repeat 0.40824829046386291%float 3)
      | Raise _ => False
      end
  | Raise _ => False
  end.
Proof. vm_compute. reflexivity. Qed.

End fit_facts.

(** ** Polynomial fits *)

Module fitfunc_facts.
Import curvefit.

Section Poly.
Context {A : Type} `{PyNum A}.
Variable L : libs A.

Lemma length_varnames (k : nat) : length (varnames k) = S k.
Proof. unfold varnames. now rewrite length_map, length_seq. Qed.

(** X24: the order of a polynomial fit.  [set_fitfunc('poly',
    polyorder=o)] without bounds raises [ValueError] exactly for the
    orders below [1] and above [12].  For an order from [4] to [12] the
    object gets the [o + 1] parameter names ['a'], ['b'], ..., and an
    initial guess of [o + 1] ones unless one was given. *)
Theorem set_fitfunc_poly_order (self : CurveFit A) (o : Z) (odr : bool)
    (p0 : option (list A)) :
  match set_fitfunc L self (FuncName "poly") (Some o) None odr p0 with
  | Ok self' =>
      (1 <= o <= 12)%Z
      /\ fitname self' = "poly"
      /\ ((4 <= o)%Z ->
          pnames self' = varnames (Z.to_nat o)
          /\ numparams self' = S (Z.to_nat o)
          /\ curvefit.p0 self'
             = match p0 with
               | Some guess => Some guess
               | None => Some (repeat (lit 1) (S (Z.to_nat o)))
               end)
  | Raise e => e = ValueError /\ (o < 1 \/ 12 < o)%Z
  end.
Proof.
  unfold set_fitfunc.
  cbn [String.eqb Ascii.eqb Bool.eqb andb orb].
  destruct (Z.eqb_spec o 2) as [-> | H2].
  { cbn [bind]. repeat split; try lia. }
  destruct (Z.eqb_spec o 3) as [-> | H3].
  { cbn [bind]. repeat split; try lia. }
  destruct (Z.ltb_spec o 1) as [Hlo | Hlo]; cbn [orb].
  { cbn [bind]. split; [reflexivity | lia]. }
  destruct (Z.ltb_spec 12 o) as [Hhi | Hhi].
  { replace (o >? 12)%Z with true by (symmetry; apply Z.gtb_lt; lia).
    cbn [bind]. split; [reflexivity | lia]. }
  replace (o >? 12)%Z with false
    by (symmetry; apply not_true_is_false; rewrite Z.gtb_lt; lia).
  cbn [bind]. split; [lia |]. split; [reflexivity |].
  intros H4. replace (o >? 3)%Z with true by (symmetry; apply Z.gtb_lt; lia).
  cbn [andb String.eqb Ascii.eqb Bool.eqb default pnames numparams
       curvefit.p0 with_fitfunc].
  rewrite length_varnames. destruct p0; repeat split.
Qed.
End Poly.

End fitfunc_facts.

(** ** The shapes of the sampled coefficients *)

Module sampling_facts.
Import curvefit.

Lemma map_result_Forall {T U : Type} (P : U -> Prop) (f : T -> result U)
    (l : list T) (r : list U) :
  (forall a b, f a = Ok b -> P b) ->
  map_result f l = Ok r ->
  length r = length l /\ List.Forall P r.
Proof.
  intros Hf. revert r. induction l as [| a l IH]; intros r Hr; cbn in Hr.
  - apply Ok_inv in Hr. subst r. split; [reflexivity | constructor].
  - destruct (f a) as [b |] eqn:Hb; [| discriminate]. cbn [bind] in Hr.
    destruct (map_result f l) as [bs |]; [| discriminate]. cbn [bind] in Hr.
    apply Ok_inv in Hr. subst r. destruct (IH bs eq_refl) as [Hlen Hall].
    split; [cbn; now rewrite Hlen | constructor; eauto].
Qed.

Lemma assign_row_length {A : Type} `{PyNum A} (k : nat) (v row : list A) :
  assign_row k v = Ok row -> length row = k.
Proof.
  unfold assign_row. destruct (Nat.eqb_spec (length v) k) as [Hk | Hk].
  - intros Hrow. apply Ok_inv in Hrow. now subst row.
  - destruct v as [| a [| b v]]; try discriminate.
    intros Hrow. apply Ok_inv in Hrow. subst row. apply repeat_length.
Qed.

Section MonteCarlo.
Context {A : Type} `{PyNum A} {G : Type}.
Variable L : libs A.
Variable RNG : rng_api A G.
Variable york :
  list A -> list A -> option (list A) -> option (list A) -> bool ->
  result (list A * list (list A)).
Variable arr_clear : Array A -> Array A.
Variable arr_sample : Array A -> nat -> G -> Array A * G.

Lemma run_uyestimate_numparams (self self' : CurveFit A) :
  run_uyestimate L york self = Ok self' -> numparams self' = numparams self.
Proof.
  unfold run_uyestimate.
  destruct (_ && _); [| intros Heq; apply Ok_inv in Heq; now subst].
  destruct (estimate_uy L york self); [| discriminate]. cbn [bind].
  intros Heq. apply Ok_inv in Heq. now subst.
Qed.

(** X25: the matrix of Monte Carlo coefficients.  When
    [calc_MC(samples=N)] completes, [samplecoeffs] has [N] rows of
    [numparams] entries each, and it is the [samples] entry of the
    record. *)
Theorem calc_MC_samplecoeffs (self : CurveFit A) (N : nat) (g : G) :
  match calc_MC L york arr_clear arr_sample self N g with
  | Ok (out, self', _) =>
      length (samplecoeffs self') = N
      /\ List.Forall (fun row => length row = numparams self)
           (samplecoeffs self')
      /\ properties out !! "samples" = Some (VMat (samplecoeffs self'))
  | Raise _ => True
  end.
Proof.
  unfold calc_MC.
  destruct (run_uyestimate L york self) as [self1 | e] eqn:Hrun; [| exact I].
  apply run_uyestimate_numparams in Hrun. cbn [bind].
  match goal with
  | |- context [let '(s, g1) := ?pair in _] =>
      destruct pair as [self2 g2] eqn:Hsample
  end.
  assert (Hnum : numparams self2 = numparams self).
  { rewrite <- Hrun.
    destruct (xsamples (arr self1)) as [xs |], (ysamples (arr self1)) as [ys |];
      try (unfold sample in Hsample;
           destruct (arr_sample _ _ _) as [a g'];
           apply (f_equal fst) in Hsample; cbn in Hsample; now subst self2).
    destruct (negb _);
      [unfold sample in Hsample; destruct (arr_sample _ _ _) as [a g'] |];
      apply (f_equal fst) in Hsample; cbn in Hsample; now subst self2. }
  destruct (xsamples (arr self2)) as [xs |]; [| exact I]. cbn [bind].
  destruct (ysamples (arr self2)) as [ys |]; [| exact I]. cbn [bind].
  destruct (map_result _ (seq 0 N)) as [rows |] eqn:Hrows; [| exact I].
  cbn [bind].
  apply (map_result_Forall (fun row => length row = numparams self2))
    in Hrows as [Hlen Hall].
  2:{ intros i row Hrow.
      destruct (nth_or xs i IndexError); [| discriminate]. cbn [bind] in Hrow.
      destruct (nth_or ys i IndexError); [| discriminate]. cbn [bind] in Hrow.
      destruct (fitfunc L york self2 _ _ None None) as [[coeff cov] |];
        [| discriminate].
      cbn [bind] in Hrow. now apply assign_row_length in Hrow. }
  rewrite length_seq in Hlen. rewrite Hnum in Hall.
  destruct (residual_statistics _ _ _ _) as [st |]; [| exact I]. cbn [bind].
  unfold create_output_curvefit.
  match goal with
  | |- context [list_to_map ?ps] => set (params := ps)
  end.
  assert (Hm : exists v, (list_to_map params : gmap string (Value A)) !! "mean"
                         = Some v) by (eexists; reflexivity).
  assert (Hu : exists v, (list_to_map params : gmap string (Value A)) !! "uncert"
                         = Some v) by (eexists; reflexivity).
  destruct Hm as [m Hm], Hu as [u Hu]. cbv zeta. rewrite Hm, Hu.
  cbn [bind properties samplecoeffs with_outputs with_samplecoeffs].
  repeat split; assumption.
Qed.
End MonteCarlo.

(** In binary64, with a sampler that repeats the measured data, the
    call completes and every row holds the fitted slope and intercept. *)
Example calc_MC_example :
  match calc_MC examples.float_libs examples.no_york fit_examples.no_clear
          fit_examples.repeat_sample fit_examples.float_line_fit_uy 4
          0%nat with
  | Ok (out, self', _) =>
      samplecoeffs self'
      = repeat [1.5%float; (-0.16666666666666666)%float] 4
      /\ out_mean out = VArr [1.5%float; (-0.16666666666666666)%float]
  | Raise _ => False
  end.
Proof. vm_compute. split; reflexivity. Qed.

End sampling_facts.

(** ** The least-squares record of a line fit *)

Module linefit_record_facts.
Import curvefit closed_forms examples fit_examples.

Section LineRecord.
Context {A : Type} `{PyNum A}.
Variable L : libs A.
Variable york :
  list A -> list A -> option (list A) -> option (list A) -> bool ->
  result (list A * list (list A)).

Lemma linefit_shape (x y sig : list A) (m : bool)
    (fit : list A * list (list A)) :
  linefit x y sig m = Ok fit -> exists b a cov, fit = ([b; a], cov).
Proof.
  unfold linefit, linefit_by.
  match goal with
  | |- bind ?r _ = _ -> _ =>
      destruct r as [[[[[[ss sx] sy] sxoss] st2] b] | e]; [| discriminate]
  end.
  cbn [bind].
  destruct (np_map2 _ y x) as [r2 | e]; [| discriminate]. cbn [bind].
  destruct (div_sum_int r2 _) as [var | e]; [| discriminate]. cbn [bind].
  match goal with
  | |- bind ?r _ = _ -> _ =>
      destruct r as [[[siga sigb] cov] | e]; [| discriminate]
  end.
  cbn [bind]. intros Hfit. apply Ok_inv in Hfit. subst fit.
  eexists _, _, _. reflexivity.
Qed.

Lemma linefit_empty (sig : list A) (m : bool) :
  broadcast_sig [] sig = [] ->
  linefit [] [] sig m = Raise ZeroDivisionError.
Proof. intros Hs. unfold linefit, linefit_by. now rewrite Hs. Qed.

Lemma eval_func_line (xs : list A) (b a : A) :
  eval_func func_line xs [b; a] = Ok (map (fun x => (a + b * x)%num) xs).
Proof.
  induction xs as [| x xs IH]; [reflexivity |].
  cbn [eval_func func_line bind map]. now rewrite IH.
Qed.

(** X26: the least-squares record of a line.  For data whose [x], [y]
    and [uy] have one length and whose [ux] are all zero,
    [CurveFit(arr, 'line')] (no bounds, no [odr]) is built without
    error, and its [calc_LSQ()] raises exactly when
    [linefit(x, y, uy, absolute_sigma)] does, with the same exception,
    which happens on empty data only ([ZeroDivisionError]); [uy] is
    replaced by zeros when the data have none.  Otherwise the record's
    coefficients, uncertainties and covariance are those that [linefit]
    returns. *)
Theorem calc_LSQ_line (a : Array A) (nm ds : string)
    (order : option Z) (guess : option (list A)) (sd : option Z)
    (xd absolute : bool) :
  all_zero (arr_ux a) = true ->
  length (arr_y a) = length (arr_x a) ->
  (has_uy a = true -> length (arr_uy a) = length (arr_x a)) ->
  let uy := if has_uy a then arr_uy a
            else repeat (lit 0) (length (arr_x a)) in
  match init L a (FuncName "line") nm ds order guess None false sd
          xd absolute with
  | Ok self =>
      match linefit (arr_x a) (arr_y a) uy absolute,
            calc_LSQ L york self with
      | Ok fit, Ok (out, _) =>
          out_mean out = VArr (fst fit)
          /\ out_uncert out = VArr (map nsqrt (diag (snd fit)))
          /\ properties out !! "cov" = Some (VMat (snd fit))
          /\ properties out !! "degf"
             = Some (VInt (Z.of_nat (length (arr_x a)) - 2))
      | Raise e, Raise e' =>
          e' = e /\ e = ZeroDivisionError /\ arr_x a = []
      | _, _ => False
      end
  | Raise _ => False
  end.
Proof.
  intros Hux Hy Huylen uy. unfold init, set_fitfunc.
  cbn [String.eqb Ascii.eqb Bool.eqb bind andb negb tl length].
  unfold calc_LSQ, fitfunc.
  cbn [fit_line with_fitfunc arr blank fit_absolute_sigma absolute_sigma
       func outputs].
  unfold genlinefit. rewrite Hux.
  assert (Huy : (if negb (has_uy a) then repeat (lit 0) (length (arr_x a))
                 else arr_uy a) = uy).
  { unfold uy. now destruct (has_uy a). }
  rewrite Huy.
  assert (Hlen : length uy = length (arr_x a)).
  { unfold uy. destruct (has_uy a); [now apply Huylen | apply repeat_length]. }
  destruct (linefit (arr_x a) (arr_y a) uy absolute) as [fit | e] eqn:Hfit.
  - destruct (linefit_shape _ _ _ _ _ Hfit) as (b & a0 & cov & ->).
    cbn [bind fst snd].
    unfold residual_statistics.
    cbn [func with_fitfunc arr blank]. rewrite eval_func_line. cbn [bind].
    unfold create_output_curvefit.
    match goal with
    | |- context [list_to_map ?ps] => set (params := ps)
    end.
    assert (Hm : (list_to_map params : gmap string (Value A)) !! "mean"
                 = Some (VArr [b; a0])) by reflexivity.
    assert (Hu : (list_to_map params : gmap string (Value A)) !! "uncert"
                 = Some (VArr (map nsqrt (diag cov)))) by reflexivity.
    cbv zeta. rewrite Hm, Hu. cbn [out_mean out_uncert properties].
    repeat split; reflexivity.
  - cbn [bind]. split; [reflexivity |].
    destruct (arr_x a) as [| x0 x'] eqn:Hx.
    + destruct (arr_y a); [| discriminate Hy].
      destruct uy; [| discriminate Hlen].
      rewrite linefit_empty in Hfit by reflexivity.
      split; [congruence | reflexivity].
    + exfalso.
      rewrite curvefit_facts.linefit_same_length in Hfit;
        [discriminate | discriminate | exact Hy |].
      intros _.
      assert (Hb : length (broadcast_sig (x0 :: x') uy) = length uy).
      { unfold broadcast_sig. destruct uy as [| u [| u' uy']]; try reflexivity.
        cbn [length] in Hlen. rewrite repeat_length. cbn [length]. lia. }
      congruence.
Qed.
End LineRecord.

Lemma calc_LSQ_line_witness :
  let uy := if has_uy three_points then arr_uy three_points
            else repeat (lit 0) (length (arr_x three_points)) in
  match init float_libs three_points (FuncName "line") "curvefit" "" None
          None None false None false true with
  | Ok self =>
      match linefit (arr_x three_points) (arr_y three_points) uy true,
            calc_LSQ float_libs no_york self with
      | Ok fit, Ok (out, _) =>
          out_mean out = VArr (fst fit)
          /\ out_uncert out = VArr (map nsqrt (diag (snd fit)))
          /\ properties out !! "cov" = Some (VMat (snd fit))
          /\ properties out !! "degf"
             = Some (VInt (Z.of_nat (length (arr_x three_points)) - 2))
      | Raise e, Raise e' =>
          e' = e /\ e = ZeroDivisionError /\ arr_x three_points = []
      | _, _ => False
      end
  | Raise _ => False
  end.
Proof.
  assert (Hux : all_zero (arr_ux three_points) = true)
    by (vm_compute; reflexivity).
  assert (Hy : length (arr_y three_points) = length (arr_x three_points))
    by reflexivity.
  assert (Huy : has_uy three_points = true ->
                length (arr_uy three_points) = length (arr_x three_points))
    by (intros _; reflexivity).
  exact (calc_LSQ_line float_libs no_york three_points "curvefit" ""
           None None None false true Hux Hy Huy).
Defined.

(** In binary64 the call of the witness completes, with the slope [1.5]
    and two degrees of freedom less than points. *)
Example calc_LSQ_line_example :
  match init float_libs three_points (FuncName "line") "curvefit" "" None
          None None false None false true with
  | Ok self =>
      match calc_LSQ float_libs no_york self with
      | Ok (out, _) =>
          out_mean out = VArr [1.5; -0.16666666666666666]%float
          /\ properties out !! "degf" = Some (VInt 1)
      | Raise _ => False
      end
  | Raise _ => False
  end.
Proof. vm_compute. split; reflexivity. Qed.

End linefit_record_facts.

(** ** The shape of the Markov chain *)

Module chain_facts.
Import curvefit examples fit_examples chain_invariants.

Lemma Forall_slice_from {T : Type} (P : T -> Prop) (k : Z) (l : list T) :
  List.Forall P l -> List.Forall P (slice_from k l).
Proof.
  intros Hall. unfold slice_from.
  assert (Hskip : forall n, List.Forall P (skipn n l)).
  { intros n. revert l Hall. induction n as [| n IH]; intros l Hall;
      [exact Hall |].
    destruct Hall as [| a l Ha Hl]; [constructor | apply IH, Hl]. }
  destruct (0 <=? k)%Z; apply Hskip.
Qed.

Section Chain.
Context {A : Type} `{PyNum A} {G : Type}.
Variable L : libs A.
Variable RNG : rng_api A G.
Variable york :
  list A -> list A -> option (list A) -> option (list A) -> bool ->
  result (list A * list (list A)).
Local Open Scope num_scope.

Lemma mcmc_param_step_accepts (self : CurveFit A) (priors : list (A -> A))
    (up : list A) (sig2 : A) (p accepts p' accepts' : list A) (g g' : G)
    (j : nat) :
  mcmc_param_step L RNG self priors up sig2 (p, accepts, g) j
  = Ok (p', accepts', g') ->
  length accepts' = length accepts.
Proof.
  unfold mcmc_param_step. intros Hstep.
  destruct (nth_or p j IndexError) as [p_j | e]; [| discriminate].
  cbn [bind] in Hstep.
  destruct (nth_or up j IndexError) as [up_j | e]; [| discriminate].
  cbn [bind] in Hstep.
  destruct (rng_normal RNG g up_j) as [z g1].
  destruct (eval_func _ _ p) as [Y | e]; [| discriminate].
  cbn [bind] in Hstep.
  destruct (eval_func _ _ _) as [Ynew | e]; [| discriminate].
  cbn [bind] in Hstep.
  destruct (nth_or priors j IndexError) as [prior | e]; [| discriminate].
  cbn [bind] in Hstep.
  destruct (rng_uniform RNG g1) as [u g2].
  match type of Hstep with
  | (if ?c then _ else _) = _ => destruct c
  end.
  - destruct (nth_or accepts j IndexError) as [n | e] eqn:Hn; [| discriminate].
    cbn [bind] in Hstep. apply mcmc_facts.Ok_triple_inv in Hstep as (_ & <- & _).
    apply mcmc_facts.nth_or_Some in Hn.
    apply (mcmc_facts.length_set_nth _ _ _ _ Hn).
  - now apply mcmc_facts.Ok_triple_inv in Hstep as (_ & <- & _).
Qed.

Lemma fold_param_steps_accepts (self : CurveFit A) (priors : list (A -> A))
    (up : list A) (sig2 : A) (idx : list nat) :
  forall (p accepts p' accepts' : list A) (g g' : G),
    fold_result (mcmc_param_step L RNG self priors up sig2) idx
      (p, accepts, g) = Ok (p', accepts', g') ->
    length accepts' = length accepts.
Proof.
  induction idx as [| j idx IH]; intros p accepts p' accepts' g g' Hfold.
  - cbn in Hfold. now apply mcmc_facts.Ok_triple_inv in Hfold as (_ & <- & _).
  - cbn [fold_result] in Hfold.
    destruct (mcmc_param_step L RNG self priors up sig2 (p, accepts, g) j)
      as [[[p1 a1] g1] | e] eqn:Hstep; [| discriminate].
    cbn [bind] in Hfold. apply mcmc_param_step_accepts in Hstep.
    apply IH in Hfold. congruence.
Qed.

(** What a sweep leaves: one more row of [numparams] entries, one more
    entry of the trace, which is the variance after the sweep, as many
    counts as before, and the same variance when it is not varied. *)
Lemma mcmc_sweep_shape (self : CurveFit A) (priors : list (A -> A))
    (up : list A) (varysigma : option (A * (A * A))) (st st' : chain A G) :
  mcmc_sweep L RNG self priors up varysigma st = Ok st' ->
  length (ch_accepts st') = length (ch_accepts st)
  /\ ch_sig2trace st' = ch_sig2trace st ++ [ch_sig2 st']
  /\ (varysigma = None -> ch_sig2 st' = ch_sig2 st)
  /\ exists row, ch_coeffs st' = ch_coeffs st ++ [row]
                 /\ length row = numparams self.
Proof.
  unfold mcmc_sweep. intros Hsweep.
  destruct (fold_result _ _ _) as [[[p accepts] g] | e] eqn:Hfold;
    [| discriminate].
  cbn [bind] in Hsweep. apply fold_param_steps_accepts in Hfold.
  assert (Hsig : forall r,
            match varysigma with
            | Some (sig2sig, sig2lim) =>
                mcmc_sigma_step L RNG self sig2sig sig2lim p (ch_sig2 st) g
            | None => Ok (ch_sig2 st, g)
            end = Ok r ->
            varysigma = None -> fst r = ch_sig2 st).
  { intros r Hr ->. apply Ok_inv in Hr. now subst r. }
  match type of Hsweep with
  | bind ?r _ = _ => destruct r as [[sig2 g1] | e]; [| discriminate]
  end.
  specialize (Hsig _ eq_refl). cbn [fst] in Hsig. cbn [bind] in Hsweep.
  destruct (assign_row _ p) as [row | e] eqn:Hrow; [| discriminate].
  cbn [bind] in Hsweep. apply Ok_inv in Hsweep. subst st'.
  cbn [ch_accepts ch_sig2trace ch_sig2 ch_coeffs].
  repeat split; try assumption.
  exists row. split; [reflexivity |].
  now apply sampling_facts.assign_row_length in Hrow.
Qed.

Lemma iterate_sweeps_shape (self : CurveFit A) (priors : list (A -> A))
    (up : list A) (varysigma : option (A * (A * A))) (sig2 : A) (n N : nat) :
  forall st st' : chain A G,
    iterate_result N (mcmc_sweep L RNG self priors up varysigma) st = Ok st' ->
    well_shaped self n varysigma sig2 st ->
    well_shaped self n varysigma sig2 st'.
Proof.
  induction N as [| N IH]; intros st st' Hrun Hst.
  - cbn in Hrun. apply Ok_inv in Hrun. now subst st'.
  - cbn [iterate_result] in Hrun.
    destruct (mcmc_sweep L RNG self priors up varysigma st) as [st1 | e]
      eqn:Hsweep; [| discriminate].
    cbn [bind] in Hrun. apply (IH st1 st' Hrun).
    apply mcmc_sweep_shape in Hsweep
      as (Hacc & Htrace & Hsame & row & Hrows & Hrow).
    destruct Hst as (Hlen & Hall & Hn & Hvar).
    unfold well_shaped. rewrite Htrace, Hrows, !length_app, Hacc.
    split; [cbn; lia |].
    split; [apply List.Forall_app; split; [exact Hall | now constructor] |].
    split; [exact Hn |].
    intros Hnone. destruct (Hvar Hnone) as [Hs Htr].
    rewrite (Hsame Hnone). split; [exact Hs |].
    apply List.Forall_app. split; [exact Htr |].
    constructor; [exact Hs | constructor].
Qed.
(** What a completed [calc_MCMC] ran: the object after
    [run_uyestimate], the uncertainty of y, the initial fit, the
    variance, and the chain after [N] sweeps, of which the object keeps
    the rows and the trace from [int(b * N)] on. *)
Lemma calc_MCMC_chain (self self' : CurveFit A) (out : Output A)
    (N : nat) (b : A) (g g' : G) :
  calc_MCMC L RNG york self N b g = Ok (out, self', g') ->
  exists self1 p cov sig2 varysigma priors g0 st,
    let uy := match uy_estimate (arr self1) with
              | None => arr_uy (arr self1)
              | Some e => e
              end in
    run_uyestimate L york self = Ok self1
    /\ fitfunc L york self1 (arr_x (arr self1)) (arr_y (arr self1))
         (Some (arr_ux (arr self1))) (Some uy) = Ok (p, cov)
    /\ (all_zero uy = false -> sig2 = sq (np_mean uy) /\ varysigma = None)
    /\ iterate_result N
         (mcmc_sweep L RNG self1 priors (map nsqrt (diag cov)) varysigma)
         {| ch_p := p; ch_accepts := repeat (lit 0) (length p);
            ch_sig2 := sig2; ch_rng := g0;
            ch_coeffs := []; ch_sig2trace := [] |} = Ok st
    /\ mcmccoeffs self'
       = slice_from (py_int L (b * num_of_Z (Z.of_nat N))) (ch_coeffs st)
    /\ sig2trace self'
       = slice_from (py_int L (b * num_of_Z (Z.of_nat N))) (ch_sig2trace st)
    /\ properties out !! "acceptance"
       = Some (VArr (map (fun n => n / num_of_Z (Z.of_nat N))
                         (ch_accepts st)))
    /\ properties out !! "samples" = Some (VMat (mcmccoeffs self')).
Proof.
  unfold calc_MCMC. intros Hrun.
  destruct (run_uyestimate L york self) as [self1 | e]; [| discriminate].
  cbn [bind] in Hrun. cbv zeta in Hrun.
  destruct (fitfunc L york self1 _ _ _ _) as [[p cov] | e] eqn:Hfit;
    [| discriminate].
  cbn [bind] in Hrun.
  destruct (negb _); [discriminate |].
  match type of Hrun with
  | bind ?r _ = _ =>
      destruct r as [[sig2 varysigma] | e] eqn:Hsig; [| discriminate]
  end.
  cbn [bind] in Hrun.
  match type of Hrun with
  | bind ?r _ = _ => destruct r as [[] | e]; [| discriminate]
  end.
  cbn [bind] in Hrun.
  match type of Hrun with
  | bind ?r _ = _ => destruct r as [st | e] eqn:Hchain; [| discriminate]
  end.
  cbn [bind] in Hrun.
  match type of Hrun with
  | bind ?r _ = _ => destruct r as [stats | e]; [| discriminate]
  end.
  cbn [bind] in Hrun.
  unfold create_output_curvefit in Hrun.
  match type of Hrun with
  | context [list_to_map ?ps] => set (params := ps) in Hrun
  end.
  assert (Hm : exists v, (list_to_map params : gmap string (Value A)) !! "mean"
                         = Some v) by (eexists; reflexivity).
  assert (Hu : exists v, (list_to_map params : gmap string (Value A)) !! "uncert"
                         = Some v) by (eexists; reflexivity).
  destruct Hm as [m Hm], Hu as [u Hu].
  rewrite Hm, Hu in Hrun. cbn [bind] in Hrun.
  apply mcmc_facts.Ok_triple_inv in Hrun as (<- & <- & <-).
  eexists self1, p, cov, sig2, varysigma, _, _, st. cbv zeta.
  split; [reflexivity |]. split; [exact Hfit |].
  split.
  { intros Hzero. rewrite Hzero in Hsig. apply Ok_pair_inv in Hsig.
    destruct Hsig as [<- <-]. now split. }
  split; [exact Hchain |].
  cbn [properties mcmccoeffs sig2trace with_outputs with_mcmc].
  repeat split; reflexivity.
Qed.

(** X27: the shapes that [calc_MCMC] leaves.  When
    [calc_MCMC(samples=N, burnin=b)] completes, the retained trace of
    the variance has one entry per retained row of coefficients, every
    row has [numparams] entries, and the retained matrix is the
    [samples] entry of the record. *)
Theorem calc_MCMC_shapes (self : CurveFit A) (N : nat) (b : A) (g : G) :
  match calc_MCMC L RNG york self N b g with
  | Ok (out, self', _) =>
      length (sig2trace self') = length (mcmccoeffs self')
      /\ List.Forall (fun row => length row = numparams self)
           (mcmccoeffs self')
      /\ properties out !! "samples" = Some (VMat (mcmccoeffs self'))
  | Raise _ => True
  end.
Proof.
  destruct (calc_MCMC L RNG york self N b g) as [[[out self'] g'] | e]
    eqn:Hrun; [| exact I].
  apply calc_MCMC_chain in Hrun
    as (self1 & p & cov & sig2 & vs & priors & g0 & st
        & Hest & _ & _ & Hchain & -> & -> & _ & Hsamples).
  apply (iterate_sweeps_shape _ _ _ _ sig2 (length p)) in Hchain
    as (Hlen & Hrows & _).
  2:{ unfold well_shaped. cbn [ch_sig2trace ch_coeffs ch_accepts ch_sig2].
      rewrite repeat_length. repeat split; constructor. }
  rewrite (sampling_facts.run_uyestimate_numparams _ _ _ _ Hest) in Hrows.
  split; [| split; [apply Forall_slice_from, Hrows | exact Hsamples]].
  rewrite !mcmc_facts.slice_from_length, Hlen. reflexivity.
Qed.

(** X28: a known variance is not varied.  For data with [uy] given and
    not all zero (and no estimate stored), a completed [calc_MCMC]
    leaves a variance trace whose every entry is [mean(uy)**2]. *)
Theorem calc_MCMC_known_variance (self : CurveFit A) (N : nat) (b : A)
    (g : G) :
  has_uy (arr self) = true ->
  uy_estimate (arr self) = None ->
  all_zero (arr_uy (arr self)) = false ->
  match calc_MCMC L RNG york self N b g with
  | Ok (_, self', _) =>
      List.Forall (fun s => s = sq (np_mean (arr_uy (arr self))))
        (sig2trace self')
  | Raise _ => True
  end.
Proof.
  intros Hhas Hest Hzero.
  destruct (calc_MCMC L RNG york self N b g) as [[[out self'] g'] | e]
    eqn:Hrun; [| exact I].
  apply calc_MCMC_chain in Hrun
    as (self1 & p & cov & sig2 & vs & priors & g0 & st
        & Hrun1 & _ & Hsig & Hchain & _ & -> & _).
  assert (Hself : self1 = self).
  { unfold run_uyestimate in Hrun1. rewrite Hest, Hhas in Hrun1.
    cbn [negb andb] in Hrun1. rewrite andb_false_r in Hrun1.
    apply Ok_inv in Hrun1. now subst. }
  subst self1. rewrite Hest in Hsig. destruct (Hsig Hzero) as [-> ->].
  apply (iterate_sweeps_shape _ _ _ _ (sq (np_mean (arr_uy (arr self))))
           (length p)) in Hchain as (_ & _ & _ & Hvar).
  2:{ unfold well_shaped. cbn [ch_sig2trace ch_coeffs ch_accepts ch_sig2].
      rewrite repeat_length. repeat split; constructor. }
  apply Forall_slice_from. now apply Hvar.
Qed.
End Chain.

Lemma calc_MCMC_known_variance_witness :
  match calc_MCMC float_libs float_rng no_york float_line_fit_uy 5
          0.2%float 0%nat with
  | Ok (_, self', _) =>
      List.Forall
        (fun s => s = sq (np_mean (arr_uy (arr float_line_fit_uy))))
        (sig2trace self')
  | Raise _ => True
  end.
Proof.
  assert (Hhas : has_uy (arr float_line_fit_uy) = true)
    by (vm_compute; reflexivity).
  assert (Hest : uy_estimate (arr float_line_fit_uy) = None)
    by (vm_compute; reflexivity).
  assert (Hzero : all_zero (arr_uy (arr float_line_fit_uy)) = false)
    by (vm_compute; reflexivity).
  exact (calc_MCMC_known_variance float_libs float_rng no_york
           float_line_fit_uy 5 0.2%float 0%nat Hhas Hest Hzero).
Defined.

(** In binary64 the call of the witness completes, and the trace of its
    four retained sweeps holds [0.125 ** 2] four times. *)
Example calc_MCMC_trace_example :
  match calc_MCMC float_libs float_rng no_york float_line_fit_uy 5
          0.2%float 0%nat with
  | Ok (_, self', _) =>
      sig2trace self' = repeat 0.015625%float 4
      /\ length (mcmccoeffs self') = 4%nat
  | Raise _ => False
  end.
Proof. vm_compute. split; reflexivity. Qed.

End chain_facts.


(** ** The line fit as a least-squares solution *)

Module least_squares_facts.
Import curvefit closed_forms linefit_exact_facts.
Local Open Scope R_scope.

Lemma map_fst_combine (x y : list R) :
  length y = length x -> map fst (combine x y) = x.
Proof.
  revert y. induction x as [| u x IH]; intros [| v y] Hlen; cbn in *;
    try reflexivity; try discriminate.
  f_equal. apply IH. lia.
Qed.

Lemma map_snd_combine (x y : list R) :
  length y = length x -> map snd (combine x y) = y.
Proof.
  revert y. induction x as [| u x IH]; intros [| v y] Hlen; cbn in *;
    try reflexivity; try discriminate.
  f_equal. apply IH. lia.
Qed.

Lemma map2_yx_pairs (f : R -> R -> R) (x y : list R) :
  map2 f y x = map (fun p => f (snd p) (fst p)) (combine x y).
Proof. now rewrite map2_swap, map2_combine. Qed.

Section LeastSquares.
Variables x y : list R.
Hypothesis distinct : exists u v, In u x /\ In v x /\ u <> v.
Hypothesis same_length : length y = length x.
Let l : list (R * R) := combine x y.
Let m : R := line_mean x.
Let b : R := line_slope x y.
Let a : R := line_intercept x y.

(** The residual of the fitted line at a point. *)
Let res (p : R * R) : R := snd p - a - b * fst p.

Lemma residuals_sum : py_sum (map res l) = 0.
Proof.
  unfold res.
  rewrite (py_sum_map_combination _ snd (fun _ => 1) fst 1 (- a) (- b))
    by (intros p; ring).
  rewrite py_sum_map_const. unfold l.
  rewrite (map_fst_combine x y same_length), (map_snd_combine x y same_length).
  rewrite length_combine, same_length, Nat.min_id.
  unfold a, line_intercept. fold b. rewrite len_INR. field.
  exact (x_not_empty x distinct).
Qed.

Lemma deviations_pairs : py_sum (map (fun p => fst p - m) l) = 0.
Proof.
  rewrite <- (map_map fst (fun v => v - m)). unfold l.
  rewrite (map_fst_combine x y same_length).
  exact (deviations_sum x distinct).
Qed.

Lemma residuals_moment : py_sum (map (fun p => fst p * res p) l) = 0.
Proof.
  rewrite (py_sum_map_combination _
             (fun p => (fst p - m) * snd p)
             (fun p => (fst p - m) * (fst p - m))
             (fun p => m * res p + (- a - b * m) * (fst p - m))
             1 (- b) 1) by (intros p; unfold res; ring).
  rewrite (py_sum_map_combination
             (fun p => m * res p + (- a - b * m) * (fst p - m))
             res (fun p => fst p - m) (fun _ => 0) m (- a - b * m) 0)
    by (intros p; ring).
  rewrite residuals_sum, deviations_pairs, py_sum_map_const.
  assert (Hst : py_sum (map (fun p => (fst p - m) * (fst p - m)) l)
                = line_st2 x).
  { rewrite (line_st2_sum x). fold m.
    rewrite <- (map_map fst (fun v => (v - m) * (v - m))). unfold l.
    now rewrite (map_fst_combine x y same_length). }
  assert (Hty : py_sum (map (fun p => (fst p - m) * snd p) l)
                = b * line_st2 x).
  { unfold b, line_slope, line_t. fold m.
    rewrite map2_map_l, map2_combine. fold l.
    field. exact (line_st2_nonzero x distinct). }
  rewrite Hst, Hty. ring.
Qed.

Lemma residuals_least (a' b' : R) :
  py_sum (map (fun p => res p * res p) l)
  <= py_sum (map (fun p => (snd p - a' - b' * fst p)
                           * (snd p - a' - b' * fst p)) l).
Proof.
  set (d := fun p : R * R => (a - a') + (b - b') * fst p).
  rewrite (py_sum_map_combination
             (fun p => (snd p - a' - b' * fst p) * (snd p - a' - b' * fst p))
             (fun p => res p * res p)
             (fun p => 2 * (a - a') * res p
                       + 2 * (b - b') * (fst p * res p))
             (fun p => d p * d p) 1 1 1)
    by (intros p; unfold res, d; ring).
  rewrite (py_sum_map_combination
             (fun p => 2 * (a - a') * res p + 2 * (b - b') * (fst p * res p))
             res (fun p => fst p * res p) (fun _ => 0)
             (2 * (a - a')) (2 * (b - b')) 0) by (intros p; ring).
  rewrite residuals_sum, residuals_moment, py_sum_map_const.
  pose proof (py_sum_map_nonneg (fun p => d p * d p) l
                (fun p => Rle_0_sqr (d p))) as Hd.
  lra.
Qed.

(** X29: the fitted line is the least-squares line, in exact
    arithmetic.  For [x] and [y] of one length, [x] not all equal, and
    uncertainties of which one is zero (the unweighted fit), [linefit]
    does not raise, and over the real numbers the residuals of the
    slope [b] and the intercept [a] that it returns sum to zero, are
    orthogonal to [x], and have a sum of squares that no other line
    undercuts. *)
Theorem linefit_least_squares (sig : list R) (mode : bool) :
  Exists (fun s => s = 0) (broadcast_sig x sig) ->
  match linefit x y sig mode with
  | Ok ([b; a], _) =>
      py_sum (map2 (fun yi xi => yi - a - b * xi) y x) = 0
      /\ py_sum (map2 (fun yi xi => xi * (yi - a - b * xi)) y x) = 0
      /\ forall a' b' : R,
           py_sum (map2 (fun yi xi => sq (yi - a - b * xi)) y x)
           <= py_sum (map2 (fun yi xi => sq (yi - a' - b' * xi)) y x)
  | _ => False
  end.
Proof.
  intros Hzero.
  pose proof (curvefit_facts.py_all_false_of_zero _ Hzero) as Hbranch.
  assert (Hx : x <> []).
  { intros Hnil. apply (x_not_empty x distinct). now rewrite Hnil. }
  rewrite (curvefit_facts.linefit_same_length x y sig mode);
    [| exact Hx | exact same_length | rewrite Hbranch; discriminate ].
  rewrite (curvefit_facts.linefit_zero_branch x y sig mode) by exact Hbranch.
  unfold unweighted_fit. fold a b. rewrite !map2_yx_pairs. fold l.
  split; [exact residuals_sum | split; [exact residuals_moment |]].
  intros a' b'. rewrite !map2_yx_pairs. fold l. at_R.
  exact (residuals_least a' b').
Qed.
End LeastSquares.

Lemma linefit_least_squares_witness :
  match linefit [0; 1; 2] [1; 3; 2] [0] true with
  | Ok ([b; a], _) =>
      py_sum (map2 (fun yi xi => yi - a - b * xi) [1; 3; 2] [0; 1; 2]) = 0
      /\ py_sum (map2 (fun yi xi => xi * (yi - a - b * xi))
                   [1; 3; 2] [0; 1; 2]) = 0
      /\ forall a' b' : R,
           py_sum (map2 (fun yi xi => sq (yi - a - b * xi))
                     [1; 3; 2] [0; 1; 2])
           <= py_sum (map2 (fun yi xi => sq (yi - a' - b' * xi))
                        [1; 3; 2] [0; 1; 2])
  | _ => False
  end.
Proof.
  apply (linefit_least_squares [0; 1; 2] [1; 3; 2]).
  - exists 0, 1. cbn. repeat split; auto; lra.
  - reflexivity.
  - cbn. apply Exists_cons_hd. reflexivity.
Defined.

End least_squares_facts.

(** ** The risk of one test measurement as a probability *)

Module testrisk_facts.
Import risk riskcalc risk_examples.
Local Open Scope R_scope.

(** X30: the risk of one measurement is a probability, in exact
    arithmetic.  For a test distribution whose distribution function is
    monotone with values in [[0, 1]], [test_risk] does not raise and
    over the real numbers its [PFx] lies in [[0, 1]], in whichever
    order the limits are given and whatever the guard band; with [LL]
    and [UL] the smaller and the larger limit, it is
    [cdf(LL) + (1 - cdf(UL))] when the result is accepted and
    [abs(cdf(LL) - cdf(UL))] when it is rejected. *)
Theorem test_risk_within (self : Risk (A := R)) (d : rv_frozen) :
  testdist self = Some d ->
  (forall x, 0 <= cdf d x <= 1) ->
  (forall x y, x <= y -> cdf d x <= cdf d y) ->
  match test_risk self with
  | Ok (PFx, accept) =>
      let LL := Rmin (fst (speclimits self)) (snd (speclimits self)) in
      let UL := Rmax (fst (speclimits self)) (snd (speclimits self)) in
      0 <= PFx <= 1
      /\ PFx = if accept then cdf d LL + (1 - cdf d UL)
               else Rabs (cdf d LL - cdf d UL)
  | Raise _ => False
  end.
Proof.
  intros Hd Hrange Hmono.
  destruct (test_risk self) as [[PFx accept] | e] eqn:Hrun.
  - destruct (risk_facts.test_risk_accept_iff self d PFx accept Hd Hrun)
      as [_ HP].
    cbv zeta in *.
    set (LL := Rmin _ _) in *. set (UL := Rmax _ _) in *.
    assert (Hle : cdf d LL <= cdf d UL).
    { apply Hmono. apply Rle_trans with (fst (speclimits self));
        [apply Rmin_l | apply Rmax_l]. }
    destruct (Hrange LL) as [Hl0 Hl1]. destruct (Hrange UL) as [Hu0 Hu1].
    split; [| exact HP].
    destruct accept; rewrite HP; [lra |].
    rewrite Rabs_left1 by lra. lra.
  - unfold test_risk in Hrun. rewrite Hd in Hrun.
    destruct (speclimits self). discriminate.
Qed.

Lemma test_risk_within_witness :
  let d := even_norm 0 (1 / 8) in
  match test_risk even_risk with
  | Ok (PFx, accept) =>
      let LL := Rmin (fst (speclimits even_risk)) (snd (speclimits even_risk)) in
      let UL := Rmax (fst (speclimits even_risk)) (snd (speclimits even_risk)) in
      0 <= PFx <= 1
      /\ PFx = if accept then cdf d LL + (1 - cdf d UL)
               else Rabs (cdf d LL - cdf d UL)
  | Raise _ => False
  end.
Proof.
  apply (test_risk_within even_risk (even_norm 0 (1 / 8))).
  - reflexivity.
  - intros x. apply ramp_range, sqrt3_positive.
  - intros x y Hle. apply ramp_monotone; [apply sqrt3_positive |]. at_R.
    apply Rmult_le_compat_r; lra.
Defined.

End testrisk_facts.


(** ** The chain and the priors *)

Module prior_facts.
Import curvefit examples fit_examples prior_invariants.
Local Open Scope R_scope.

Lemma nth_error_set_nth {T : Type} (a : list T) (i k : nat) (n v : T) :
  nth_error a i = Some n ->
  nth_error (set_nth i v a) k = if Nat.eqb k i then Some v else nth_error a k.
Proof.
  revert i k. induction a as [| x a IH]; intros [| i] [| k] Hn;
    try discriminate; try reflexivity.
  apply (IH i k Hn).
Qed.

Lemma nth_error_combine {T U : Type} (l1 : list T) (l2 : list U) (j : nat)
    (a : T) (b : U) :
  nth_error l1 j = Some a -> nth_error l2 j = Some b ->
  nth_error (combine l1 l2) j = Some (a, b).
Proof.
  revert l2 j. induction l1 as [| x l1 IH]; intros [| y l2] [| j] H1 H2;
    try discriminate; cbn in *.
  - congruence.
  - now apply IH.
Qed.

Section Priors.
Context {G : Type}.
Variable L : libs R.
Variable RNG : rng_api R G.
Variable york :
  list R -> list R -> option (list R) -> option (list R) -> bool ->
  result (list R * list (list R)).
Hypothesis uniform_positive : forall g : G, 0 < fst (rng_uniform RNG g).

Section Steps.
Variable self : CurveFit R.
Variable priors : list (R -> R).
Hypothesis priors_nonneg :
  forall (j : nat) (f : R -> R) (v : R),
    nth_error priors j = Some f -> 0 <= f v.
Variable up : list R.

(** A move is accepted only to a value of positive prior. *)
Lemma mcmc_param_step_admitted (sig2 : R) (p accepts p' accepts' : list R)
    (g g' : G) (j : nat) :
  mcmc_param_step L RNG self priors up sig2 (p, accepts, g) j
  = Ok (p', accepts', g') ->
  admitted priors p -> admitted priors p' /\ length p' = length p.
Proof.
  unfold mcmc_param_step. intros Hstep Hadm.
  destruct (nth_or p j IndexError) as [p_j | e] eqn:Hpj; [| discriminate].
  cbn [bind] in Hstep.
  destruct (nth_or up j IndexError) as [up_j | e]; [| discriminate].
  cbn [bind] in Hstep.
  destruct (rng_normal RNG g up_j) as [z g1].
  destruct (eval_func _ _ p) as [Y | e]; [| discriminate].
  cbn [bind] in Hstep.
  destruct (eval_func _ _ _) as [Ynew | e]; [| discriminate].
  cbn [bind] in Hstep.
  destruct (nth_or priors j IndexError) as [prior | e] eqn:Hprior;
    [| discriminate].
  cbn [bind] in Hstep.
  pose proof (uniform_positive g1) as Hu.
  destruct (rng_uniform RNG g1) as [u g2]. cbn [fst] in Hu.
  apply mcmc_facts.nth_or_Some in Hpj, Hprior.
  match type of Hstep with
  | (if ?c then _ else _) = _ => destruct c eqn:Hacc
  end.
  - destruct (nth_or accepts j IndexError) as [n | e]; [| discriminate].
    cbn [bind] in Hstep.
    apply mcmc_facts.Ok_triple_inv in Hstep as (<- & _ & _).
    split; [| apply (mcmc_facts.length_set_nth _ _ _ _ Hpj)].
    intros k f v Hf Hv. rewrite (nth_error_set_nth _ _ _ _ _ Hpj) in Hv.
    destruct (Nat.eqb_spec k j) as [-> | Hne]; [| exact (Hadm k f v Hf Hv)].
    assert (f = prior) by congruence. subst f.
    injection Hv as <-. at_R. apply Rleb_true in Hacc.
    destruct (priors_nonneg j prior (p_j + z) Hprior) as [Hpos | Hzero];
      [exact Hpos |].
    exfalso. rewrite <- Hzero in Hacc. unfold Rdiv in Hacc.
    rewrite Rmult_0_r, Rmult_0_l in Hacc. lra.
  - apply mcmc_facts.Ok_triple_inv in Hstep as (<- & _ & _). now split.
Qed.

Lemma fold_param_steps_admitted (sig2 : R) (idx : list nat) :
  forall (p accepts p' accepts' : list R) (g g' : G),
    fold_result (mcmc_param_step L RNG self priors up sig2) idx
      (p, accepts, g) = Ok (p', accepts', g') ->
    admitted priors p -> admitted priors p' /\ length p' = length p.
Proof.
  induction idx as [| j idx IH]; intros p accepts p' accepts' g g' Hfold Hadm.
  - cbn in Hfold.
    apply mcmc_facts.Ok_triple_inv in Hfold as (<- & _ & _). now split.
  - cbn [fold_result] in Hfold.
    destruct (mcmc_param_step L RNG self priors up sig2 (p, accepts, g) j)
      as [[[p1 a1] g1] | e] eqn:Hstep; [| discriminate].
    cbn [bind] in Hfold.
    apply mcmc_param_step_admitted in Hstep as [Hadm1 Hlen1]; [| exact Hadm].
    destruct (IH _ _ _ _ _ _ Hfold Hadm1) as [Hadm' Hlen'].
    split; [exact Hadm' | congruence].
Qed.

Lemma mcmc_sweep_admitted (varysigma : option (R * (R * R))) (n : nat)
    (st st' : chain R G) :
  mcmc_sweep L RNG self priors up varysigma st = Ok st' ->
  rows_admitted self priors n st -> rows_admitted self priors n st'.
Proof.
  unfold mcmc_sweep. intros Hsweep (Hadm & Hlen & Hrows).
  destruct (fold_result _ _ _) as [[[p accepts] g] | e] eqn:Hfold;
    [| discriminate].
  cbn [bind] in Hsweep.
  apply fold_param_steps_admitted in Hfold as [Hadm' Hlen']; [| exact Hadm].
  match type of Hsweep with
  | bind ?r _ = _ => destruct r as [[sig2 g1] | e]; [| discriminate]
  end.
  cbn [bind] in Hsweep.
  destruct (assign_row _ p) as [row | e] eqn:Hrow; [| discriminate].
  cbn [bind] in Hsweep. apply Ok_inv in Hsweep. subst st'.
  unfold rows_admitted. cbn [ch_p ch_coeffs].
  split; [exact Hadm' |]. split; [congruence |].
  apply List.Forall_app. split; [exact Hrows |].
  constructor; [| constructor].
  exists p. split; [exact Hadm' |]. split; [congruence | exact Hrow].
Qed.

Lemma iterate_sweeps_admitted (varysigma : option (R * (R * R)))
    (n N : nat) :
  forall st st' : chain R G,
    iterate_result N (mcmc_sweep L RNG self priors up varysigma) st = Ok st' ->
    rows_admitted self priors n st -> rows_admitted self priors n st'.
Proof.
  induction N as [| N IH]; intros st st' Hrun Hst.
  - cbn in Hrun. apply Ok_inv in Hrun. now subst st'.
  - cbn [iterate_result] in Hrun.
    destruct (mcmc_sweep L RNG self priors up varysigma st) as [st1 | e]
      eqn:Hsweep; [| discriminate].
    cbn [bind] in Hrun. apply (IH st1 st' Hrun).
    apply (mcmc_sweep_admitted varysigma n st st1 Hsweep Hst).
Qed.

(** The check before the loop lets only vectors of positive prior pass. *)
Lemma prior_check_admitted (p : list R) (idx : list nat) (s : unit) :
  fold_result (fun (_ : unit) pidx =>
      let* prior := nth_or priors pidx IndexError in
      let* p_i := nth_or p pidx IndexError in
      if (prior p_i <=? lit 0)%num then Raise ValueError else Ok tt)
    idx s = Ok tt ->
  forall (j : nat) (f : R -> R) (v : R),
    In j idx -> nth_error priors j = Some f -> nth_error p j = Some v ->
    0 < f v.
Proof.
  revert s. induction idx as [| i idx IH]; intros s Hfold j f v Hin Hf Hv;
    [destruct Hin |].
  cbn [fold_result] in Hfold.
  destruct (nth_or priors i IndexError) as [prior | e] eqn:Hprior;
    [| discriminate].
  cbn [bind] in Hfold.
  destruct (nth_or p i IndexError) as [p_i | e] eqn:Hpi; [| discriminate].
  cbn [bind] in Hfold.
  destruct (prior p_i <=? lit 0)%num eqn:Hle; [discriminate |].
  cbn [bind] in Hfold.
  destruct Hin as [<- | Hin]; [| exact (IH tt Hfold j f v Hin Hf Hv)].
  apply mcmc_facts.nth_or_Some in Hprior, Hpi.
  assert (f = prior) by congruence. assert (v = p_i) by congruence.
  subst f v. at_R. apply Rleb_false in Hle. exact Hle.
Qed.
End Steps.

(** What a completed [calc_MCMC] ran, with the priors it used: the
    check of the initial fit passed, and the rows it keeps are rows of
    the chain after [N] sweeps. *)
Lemma calc_MCMC_prior_chain (self self' : CurveFit R) (out : Output R)
    (N : nat) (b : R) (g g' : G) :
  calc_MCMC L RNG york self N b g = Ok (out, self', g') ->
  exists self1 p up sig2 varysigma g0 st,
    let one : R -> R := fun _ => lit 1 in
    let priors :=
      match curvefit.priors self1 with
      | None => repeat one (length (pnames self1))
      | Some ps => map (fun q => default one q) ps
      end in
    run_uyestimate L york self = Ok self1
    /\ admitted priors p
    /\ iterate_result N (mcmc_sweep L RNG self1 priors up varysigma)
         {| ch_p := p; ch_accepts := repeat (lit 0) (length p);
            ch_sig2 := sig2; ch_rng := g0;
            ch_coeffs := []; ch_sig2trace := [] |} = Ok st
    /\ mcmccoeffs self'
       = slice_from (py_int L (b * num_of_Z (Z.of_nat N))%num) (ch_coeffs st).
Proof.
  unfold calc_MCMC. intros Hrun.
  destruct (run_uyestimate L york self) as [self1 | e]; [| discriminate].
  cbn [bind] in Hrun. cbv zeta in Hrun.
  destruct (fitfunc L york self1 _ _ _ _) as [[p cov] | e] eqn:Hfit;
    [| discriminate].
  cbn [bind] in Hrun.
  destruct (negb _); [discriminate |].
  match type of Hrun with
  | bind ?r _ = _ =>
      destruct r as [[sig2 varysigma] | e] eqn:Hsig; [| discriminate]
  end.
  cbn [bind] in Hrun.
  match type of Hrun with
  | bind ?r _ = _ => destruct r as [[] | e] eqn:Hcheck; [| discriminate]
  end.
  cbn [bind] in Hrun.
  match type of Hrun with
  | bind ?r _ = _ => destruct r as [st | e] eqn:Hchain; [| discriminate]
  end.
  cbn [bind] in Hrun.
  match type of Hrun with
  | bind ?r _ = _ => destruct r as [stats | e]; [| discriminate]
  end.
  cbn [bind] in Hrun.
  unfold create_output_curvefit in Hrun.
  match type of Hrun with
  | context [list_to_map ?ps] => set (params := ps) in Hrun
  end.
  assert (Hm : exists v, (list_to_map params : gmap string (Value R)) !! "mean"
                         = Some v) by (eexists; reflexivity).
  assert (Hu : exists v, (list_to_map params : gmap string (Value R)) !! "uncert"
                         = Some v) by (eexists; reflexivity).
  destruct Hm as [m Hm], Hu as [u Hu].
  rewrite Hm, Hu in Hrun. cbn [bind] in Hrun.
  apply mcmc_facts.Ok_triple_inv in Hrun as (_ & <- & _).
  eexists self1, p, _, sig2, varysigma, _, st. cbv zeta.
  split; [reflexivity |]. split.
  { intros j f v Hf Hv.
    apply (prior_check_admitted _ p (seq 0 (length p)) tt Hcheck j f v);
      [| exact Hf | exact Hv].
    apply in_seq. split; [lia |]. cbn.
    apply nth_error_Some. congruence. }
  split; [exact Hchain |].
  reflexivity.
Qed.

(** The priors that [set_fitfunc] leaves when bounds are given. *)
Lemma set_fitfunc_bounds_priors (self0 self : CurveFit R)
    (func : func_arg R) (order : option Z) (lo hi : list R) (odr : bool)
    (p0 : option (list R)) :
  set_fitfunc L self0 func order (Some (lo, hi)) odr p0 = Ok self ->
  curvefit.priors self
  = Some (map (fun ab => Some (bound_prior ab)) (combine lo hi))
  /\ numparams self = length (pnames self)
  /\ length (combine lo hi) = length (pnames self).
Proof.
  unfold set_fitfunc. intros Hset.
  match type of Hset with
  | bind ?r _ = _ => destruct r as [[[[[f signature] e] o] q] | err];
                       [| discriminate]
  end.
  cbn [bind] in Hset. unfold set_mcmc_priors in Hset.
  match type of Hset with
  | (if ?c then _ else _) = _ => destruct c eqn:Hlen; [| discriminate]
  end.
  apply Ok_inv in Hset. subst self.
  cbn [curvefit.priors numparams pnames with_priors with_fitfunc] in *.
  apply Nat.eqb_eq in Hlen. rewrite length_map in Hlen.
  split; [reflexivity |]. split; [reflexivity | exact Hlen].
Qed.

Lemma run_uyestimate_priors (self self' : CurveFit R) :
  run_uyestimate L york self = Ok self' ->
  curvefit.priors self' = curvefit.priors self
  /\ pnames self' = pnames self /\ numparams self' = numparams self.
Proof.
  unfold run_uyestimate.
  destruct (_ && _); [| intros Heq; apply Ok_inv in Heq; now subst].
  destruct (estimate_uy L york self); [| discriminate]. cbn [bind].
  intros Heq. apply Ok_inv in Heq. now subst.
Qed.

Lemma bound_prior_positive (ab : R * R) (v : R) :
  0 < bound_prior ab v -> fst ab < v <= snd ab.
Proof.
  unfold bound_prior. at_R.
  destruct (Rltb (fst ab) v) eqn:Hlt; destruct (Rleb v (snd ab)) eqn:Hle;
    cbn [andb]; try lra.
  intros _. apply Rltb_true in Hlt. apply Rleb_true in Hle. now split.
Qed.

Lemma bound_prior_nonneg (ab : R * R) (v : R) : 0 <= bound_prior ab v.
Proof.
  unfold bound_prior. at_R.
  destruct (Rltb (fst ab) v && Rleb v (snd ab)); lra.
Qed.

(** X4: the chain stays inside the bounds.  For an object set up by
    [set_fitfunc(..., bounds=(lo, hi))], and as long as no draw of
    [np.random.uniform()] is exactly zero, every row that a completed
    [calc_MCMC] retains has each coefficient in the interval
    [(lo_j, hi_j]] of its parameter (a row that numpy filled by
    repeating the one coefficient of a shorter fit apart). *)
Theorem calc_MCMC_inside_bounds (self0 : CurveFit R) (func : func_arg R)
    (order : option Z) (lo hi : list R) (odr : bool)
    (p0 : option (list R)) (N : nat) (b : R) (g : G) :
  match set_fitfunc L self0 func order (Some (lo, hi)) odr p0 with
  | Ok self =>
      match calc_MCMC L RNG york self N b g with
      | Ok (_, self', _) =>
          List.Forall
            (fun row => inside_bounds lo hi row
                        \/ broadcast_row (numparams self) row)
            (mcmccoeffs self')
      | Raise _ => True
      end
  | Raise _ => True
  end.
Proof.
  destruct (set_fitfunc L self0 func order (Some (lo, hi)) odr p0)
    as [self | e] eqn:Hset; [| exact I].
  destruct (calc_MCMC L RNG york self N b g) as [[[out self'] g'] | e]
    eqn:Hrun; [| exact I].
  apply set_fitfunc_bounds_priors in Hset as (Hpriors & Hnum & Hlen).
  apply calc_MCMC_prior_chain in Hrun
    as (self1 & p & up & sig2 & vs & g0 & st & Hest & Hadm & Hchain & ->).
  apply run_uyestimate_priors in Hest as (Hp1 & _ & Hn1).
  cbv zeta in Hadm, Hchain. rewrite Hp1, Hpriors, map_map in Hadm, Hchain.
  cbn [default] in Hadm, Hchain.
  apply (iterate_sweeps_admitted self1 _) with (n := length p) in Hchain.
  - destruct Hchain as (_ & _ & Hrows). apply chain_facts.Forall_slice_from.
    eapply List.Forall_impl; [| exact Hrows]. cbv beta.
    intros row (q & Hq & Hqlen & Hrow). unfold assign_row in Hrow.
    rewrite Hn1 in Hrow.
    destruct (Nat.eqb_spec (length q) (numparams self)) as [Heq | Hne].
    + left. apply Ok_inv in Hrow. subst row.
      intros j v a c Hv Ha Hc.
      apply (bound_prior_positive (a, c) v).
      apply (Hq j (bound_prior (a, c)) v); [| exact Hv].
      rewrite nth_error_map, (nth_error_combine lo hi j a c Ha Hc).
      reflexivity.
    + right. destruct q as [| a [| c q]]; try discriminate.
      apply Ok_inv in Hrow. split; [cbn in Hne; congruence |].
      exists a. now subst row.
  - intros j f v Hf. apply nth_error_In, in_map_iff in Hf as (ab & <- & _).
    apply bound_prior_nonneg.
  - unfold rows_admitted. cbn [ch_p ch_coeffs].
    split; [exact Hadm |]. split; [reflexivity | constructor].
Qed.
End Priors.

Lemma real_uniform_positive (g : nat) : 0 < fst (rng_uniform real_rng g).
Proof.
  unfold real_rng. cbn [rng_uniform fst].
  pose proof (Nat.mod_upper_bound g 3) as Hlt.
  destruct (g mod 3)%nat as [| [| [| k]]]; cbn [nth]; try lra. lia.
Qed.

Lemma calc_MCMC_inside_bounds_witness :
  match set_fitfunc real_libs
          (blank real_three_points_uy "curvefit" "" None false true)
          (FuncName "line") None (Some ([0; -1], [3; 1])) false None with
  | Ok self =>
      match calc_MCMC real_libs real_rng real_no_york self 5 (1 / 5)
              0%nat with
      | Ok (_, self', _) =>
          List.Forall
            (fun row => inside_bounds [0; -1] [3; 1] row
                        \/ broadcast_row (numparams self) row)
            (mcmccoeffs self')
      | Raise _ => True
      end
  | Raise _ => True
  end.
Proof.
  apply (calc_MCMC_inside_bounds real_libs real_rng real_no_york
           real_uniform_positive).
Defined.

(** In binary64, for the three points with [uy] and the bounds
    [(0, 1.5625]] on the slope and [(-1, 1]] on the intercept: the call
    completes and keeps four rows inside the bounds (the move to the
    slope [1.588...], which the chain without bounds makes, is not
    made); with the initial slope [1.5] outside the bounds [(2, 3]] the
    call is a [ValueError]. *)
Example calc_MCMC_bounds_example :
  match init float_libs three_points_uy (FuncName "line") "curvefit" ""
          None None (Some ([0; -1]%float, [1.5625; 1]%float)) false None
          false true with
  | Ok self =>
      match calc_MCMC float_libs float_rng no_york self 5 0.25%float
              0%nat with
      | Ok (_, self', _) =>
          length (mcmccoeffs self') = 4%nat
          /\ forallb
               (fun row =>
                  match row with
                  | [b; a] =>
                      (PrimFloat.ltb 0 b && PrimFloat.leb b 1.5625
                       && PrimFloat.ltb (-1) a && PrimFloat.leb a 1)%bool
                  | _ => false
                  end) (mcmccoeffs self') = true
      | Raise _ => False
      end
  | Raise _ => False
  end
  /\ match init float_libs three_points_uy (FuncName "line") "curvefit" ""
             None None (Some ([2; -1]%float, [3; 1]%float)) false None
             false true with
     | Ok self =>
         match calc_MCMC float_libs float_rng no_york self 5 0.25%float
                 0%nat with
         | Ok _ => False
         | Raise e => e = ValueError
         end
     | Raise _ => False
     end.
Proof. vm_compute. repeat split; reflexivity. Qed.

End prior_facts.


(** ** Relative uncertainties and their unit *)

Module scale_facts.
Import curvefit closed_forms.
Local Open Scope R_scope.

Lemma map2_map_r (f : R -> R -> R) (g : R -> R) (l1 l2 : list R) :
  map2 f l1 (map g l2) = map2 (fun a b => f a (g b)) l1 l2.
Proof.
  revert l2. induction l1 as [| a l1 IH]; intros [| b l2]; cbn; try reflexivity.
  now rewrite IH.
Qed.

Lemma map_map2 (h : R -> R) (f : R -> R -> R) (l1 l2 : list R) :
  map h (map2 f l1 l2) = map2 (fun a b => h (f a b)) l1 l2.
Proof.
  revert l2. induction l1 as [| a l1 IH]; intros [| b l2]; cbn; try reflexivity.
  now rewrite IH.
Qed.

Lemma py_sum_map2_scale (f g : R -> R -> R) (c : R) (l1 l2 : list R) :
  (forall a b, f a b = g a b * c) ->
  py_sum (map2 f l1 l2) = py_sum (map2 g l1 l2) * c.
Proof.
  intros Hfg. rewrite !map2_combine. apply py_sum_map_scale.
  intros [a b]. apply Hfg.
Qed.

Lemma sq_sqrt_scale (c X : R) :
  0 <= c -> sqrt (X * c) * sqrt (X * c) = sqrt X * sqrt X * c.
Proof.
  intros Hc. destruct (Rle_dec 0 X) as [HX | HX].
  - rewrite !sqrt_sqrt; [reflexivity | exact HX | now apply Rmult_le_pos].
  - rewrite (sqrt_neg_0 X) by lra. rewrite (sqrt_neg_0 (X * c)) by nra. ring.
Qed.

Section Scale.
Variable k : R.
Hypothesis k_nonzero : k <> 0.
Let c : R := / (k * k).

Lemma c_positive : 0 < c.
Proof. unfold c. apply Rinv_0_lt_compat. nra. Qed.

Lemma c_cancel (a b : R) : a * c / (b * c) = a / b.
Proof. apply Rdiv_mult_r_r. pose proof c_positive. lra. Qed.

Lemma c_inverse (a b : R) : a / (b * c) = a / b * (k * k).
Proof.
  unfold Rdiv. rewrite Rinv_mult. unfold c. rewrite Rinv_inv. ring.
Qed.

Lemma scale_product (U V W : R) :
  U * (k * k) * (V * / (k * k) / W) = U * (V / W).
Proof.
  unfold Rdiv.
  replace (U * (k * k) * (V * / (k * k) * / W))
    with (U * (V * / W) * ((k * k) * / (k * k))) by ring.
  rewrite Rinv_r by nra. ring.
Qed.

Variable s : list R.

Lemma weights_scaled :
  py_sum (map (fun v => 1 / (v * v)) (map (Rmult k) s))
  = py_sum (map (fun v => 1 / (v * v)) s) * c.
Proof.
  rewrite map_map. apply py_sum_map_scale. intros v. unfold c, Rdiv.
  rewrite !Rinv_mult. ring.
Qed.

Lemma weighted_sum_scaled (l : list R) :
  py_sum (map2 Rmult l (map (fun v => 1 / (v * v)) (map (Rmult k) s)))
  = py_sum (map2 Rmult l (map (fun v => 1 / (v * v)) s)) * c.
Proof.
  rewrite map_map, !map2_map_r. apply py_sum_map2_scale. intros a b.
  unfold c, Rdiv. rewrite !Rinv_mult. ring.
Qed.

Lemma deviations_scaled (l : list R) :
  map2 Rdiv l (map (Rmult k) s) = map (fun v => v / k) (map2 Rdiv l s).
Proof.
  rewrite map2_map_r, map_map2. apply map2_ext. intros a b.
  unfold Rdiv. rewrite Rinv_mult. ring.
Qed.

Lemma squares_scaled (t : list R) :
  py_sum (map2 Rmult (map (fun v => v / k) t) (map (fun v => v / k) t))
  = py_sum (map2 Rmult t t) * c.
Proof.
  rewrite !map2_diag, map_map. apply py_sum_map_scale. intros v.
  unfold c, Rdiv. rewrite Rinv_mult. ring.
Qed.

Lemma products_scaled (t y : list R) :
  py_sum (map2 Rdiv (map2 Rmult (map (fun v => v / k) t) y)
            (map (Rmult k) s))
  = py_sum (map2 Rdiv (map2 Rmult t y) s) * c.
Proof.
  rewrite map2_map_l.
  rewrite (map2_ext (fun a b => a / k * b) (fun a b => (a * b) / k))
    by (intros a b; unfold Rdiv; ring).
  rewrite <- (map_map2 (fun v => v / k) Rmult).
  rewrite map2_map_r, map2_map_l. apply py_sum_map2_scale. intros a b.
  unfold c, Rdiv. rewrite !Rinv_mult. ring.
Qed.

Lemma chi_scaled (r : list R) :
  py_sum (map2 (fun ri si => ri / si * (ri / si)) r (map (Rmult k) s))
  = py_sum (map2 (fun ri si => ri / si * (ri / si)) r s) * c.
Proof.
  rewrite map2_map_r. apply py_sum_map2_scale. intros a b.
  unfold c, Rdiv. rewrite !Rinv_mult. ring.
Qed.

Lemma py_all_scaled : py_all (map (Rmult k) s) = py_all s.
Proof.
  unfold py_all. induction s as [| v l IH]; cbn [map forallb];
    [reflexivity |].
  rewrite IH. f_equal. unfold truthy. at_R. f_equal.
  destruct (Reqb v 0) eqn:Hv.
  - apply Reqb_true in Hv. apply Reqb_true. subst v. ring.
  - apply Reqb_false in Hv. apply Reqb_false.
    now apply Rmult_integral_contrapositive.
Qed.
End Scale.

Lemma broadcast_scaled (k : R) (x sig : list R) :
  broadcast_sig x (map (Rmult k) sig) = map (Rmult k) (broadcast_sig x sig).
Proof.
  unfold broadcast_sig. destruct sig as [| v [| v' sig]]; cbn [map];
    try reflexivity.
  now rewrite map_repeat.
Qed.

(** The sums of the weighted branch, rewritten to those of the
    unscaled uncertainties and named. *)
Ltac weighted_sums k Hk s SS SX SY d t ST2 b a :=
  match goal with
  | |- context [broadcast_sig ?x ?sig] => set (s := broadcast_sig x sig) in *
  end;
  cbv beta iota zeta delta [negb]; at_R;
  rewrite (weights_scaled k), !(weighted_sum_scaled k);
  rewrite (c_cancel k Hk);
  set (SS := py_sum (map (fun v => 1 / (v * v)) s));
  match goal with
  | |- context [py_sum (map2 Rmult ?x (map ?w s)) / SS] =>
      set (SX := py_sum (map2 Rmult x (map w s)))
  end;
  match goal with
  | |- context [?u * / (k * k) - SX * / (k * k) * _] => set (SY := u)
  end;
  match goal with
  | |- context [map2 Rdiv ?l (map (Rmult k) s)] =>
      match l with
      | map _ _ => set (d := l); rewrite (deviations_scaled k s d)
      end
  end;
  set (t := map2 Rdiv d s);
  rewrite (squares_scaled k), (products_scaled k), (c_cancel k Hk);
  set (ST2 := py_sum (map2 Rmult t t));
  set (b := py_sum _ / ST2);
  replace (SY * / (k * k) - SX * / (k * k) * b)
    with ((SY - SX * b) * / (k * k)) by ring;
  rewrite (c_cancel k Hk); set (a := (SY - SX * b) / SS);
  replace (SX * / (k * k) * (SX * / (k * k)))
    with (SX * SX * / (k * k) * / (k * k)) by ring;
  replace (SS * / (k * k) * (ST2 * / (k * k)))
    with (SS * ST2 * / (k * k) * / (k * k)) by ring;
  rewrite !(c_cancel k Hk), !(c_inverse k).

(** With [absolute_sigma=False] the unit of the uncertainties does not
    matter at all. *)
Lemma linefit_relative_scale (x y sig : list R) (k : R) :
  k <> 0 ->
  linefit_arith x y (map (Rmult k) sig) false = linefit_arith x y sig false.
Proof.
  intros Hk. unfold linefit_arith.
  rewrite broadcast_scaled, (py_all_scaled k Hk).
  destruct (bool_gt_0 (py_all (broadcast_sig x sig))) eqn:Hall;
    [| reflexivity].
  weighted_sums k Hk s SS SX SY d t ST2 b a.
  rewrite (chi_scaled k).
  set (CH := py_sum (map2 _ (map2 _ y x) s)).
  set (N2 := IZR (Z.of_nat (length x) - 2)).
  assert (Hkk : 0 <= k * k) by nra.
  rewrite !(sq_sqrt_scale (k * k) _ Hkk), !(scale_product k Hk).
  replace (- (SX / SS) * (sqrt (1 / ST2) * sqrt (1 / ST2) * (k * k))
           * (CH * / (k * k) / N2))
    with (- (SX / SS) * (sqrt (1 / ST2) * sqrt (1 / ST2))
          * (k * k) * (CH * / (k * k) / N2)) by ring.
  rewrite (scale_product k Hk).
  reflexivity.
Qed.

(** With [absolute_sigma=True] and uncertainties that are all nonzero,
    the coefficients are the same and the covariance is in the square
    of the unit. *)
Lemma linefit_absolute_scale (x y sig : list R) (k : R) :
  k <> 0 ->
  bool_gt_0 (py_all (broadcast_sig x sig)) = true ->
  linefit_arith x y (map (Rmult k) sig) true
  = (fst (linefit_arith x y sig true),
     map (map (Rmult (k * k))) (snd (linefit_arith x y sig true))).
Proof.
  intros Hk Hall. unfold linefit_arith.
  rewrite broadcast_scaled, (py_all_scaled k Hk), Hall.
  weighted_sums k Hk s SS SX SY d t ST2 b a.
  assert (Hkk : 0 <= k * k) by nra.
  rewrite !(sq_sqrt_scale (k * k) _ Hkk).
  cbn [fst snd map]. f_equal.
  repeat match goal with
         | |- _ :: _ = _ :: _ => f_equal
         end; ring.
Qed.

(** The unit of the uncertainties in the arithmetic of [linefit]. *)
Lemma linefit_arith_sigma_scale (x y sig : list R) (k : R) (mode : bool) :
  k <> 0 ->
  linefit_arith x y (map (Rmult k) sig) mode
  = (fst (linefit_arith x y sig mode),
     if mode && bool_gt_0 (py_all (broadcast_sig x sig))
     then map (map (Rmult (k * k))) (snd (linefit_arith x y sig mode))
     else snd (linefit_arith x y sig mode)).
Proof.
  intros Hk. destruct mode; cbn [andb].
  - destruct (bool_gt_0 (py_all (broadcast_sig x sig))) eqn:Hall.
    + now apply linefit_absolute_scale.
    + rewrite <- surjective_pairing. unfold linefit_arith.
      now rewrite broadcast_scaled, (py_all_scaled k Hk), Hall.
  - rewrite <- surjective_pairing. now apply linefit_relative_scale.
Qed.

Lemma broadcast_length (x sig : list R) :
  length sig = length x \/ length sig = 1%nat ->
  length (broadcast_sig x sig) = length x.
Proof.
  intros Hlen. unfold broadcast_sig.
  destruct sig as [| v [| v' sig]]; try (now apply repeat_length);
    destruct Hlen as [Hlen | Hlen]; try exact Hlen; discriminate Hlen.
Qed.

(** X5: the unit of the uncertainties, in exact arithmetic.  For [x],
    [y] of one length and uncertainties of that length (or a single
    one), multiplying every uncertainty by the same [k], not zero,
    changes neither whether [linefit] raises (it does on empty data)
    nor the coefficients that it returns.  The covariance matrix is
    unchanged too, except with [absolute_sigma=True] and uncertainties
    that are all nonzero, where every entry is multiplied by [k**2]. *)
Theorem linefit_sigma_scale (x y sig : list R) (k : R) (mode : bool) :
  k <> 0 ->
  length y = length x ->
  length sig = length x \/ length sig = 1%nat ->
  linefit x y (map (Rmult k) sig) mode
  = match linefit x y sig mode with
    | Ok (coeff, cov) =>
        Ok (coeff,
            if mode && bool_gt_0 (py_all (broadcast_sig x sig))
            then map (map (Rmult (k * k))) cov
            else cov)
    | Raise e => Raise e
    end.
Proof.
  intros Hk Hy Hsig.
  assert (Hsig' : length (map (Rmult k) sig) = length x
                  \/ length (map (Rmult k) sig) = 1%nat)
    by now rewrite length_map.
  destruct x as [| x0 x'] eqn:Hx.
  - destruct y; [| discriminate Hy].
    pose proof (broadcast_length [] sig Hsig) as Hb.
    pose proof (broadcast_length [] _ Hsig') as Hb'.
    apply length_zero_iff_nil in Hb, Hb'.
    now rewrite !linefit_record_facts.linefit_empty.
  - rewrite <- Hx in *.
    assert (Hne : x <> []) by (rewrite Hx; discriminate).
    rewrite !curvefit_facts.linefit_same_length;
      try exact Hne; try exact Hy;
      try (intros _; now apply broadcast_length).
    rewrite (linefit_arith_sigma_scale x y sig k mode Hk).
    now destruct (linefit_arith x y sig mode) as [coeff cov].
Qed.

Lemma linefit_sigma_scale_witness :
  linefit [0; 1; 2] [0; 1; 3] (map (Rmult 2) [1; 2; 1]) true
  = match linefit [0; 1; 2] [0; 1; 3] [1; 2; 1] true with
    | Ok (coeff, cov) =>
        Ok (coeff,
            if true && bool_gt_0 (py_all (broadcast_sig [0; 1; 2] [1; 2; 1]))
            then map (map (Rmult (2 * 2))) cov
            else cov)
    | Raise e => Raise e
    end.
Proof.
  apply (linefit_sigma_scale [0; 1; 2] [0; 1; 3] [1; 2; 1] 2 true).
  - lra.
  - reflexivity.
  - left. reflexivity.
Defined.

End scale_facts.
